(** * Offscreen context factories of agus-maps-flutter

    A shallow embedding of the two offscreen context factories
    ([AgusEglContextFactory.cpp], [AgusWglContextFactory.cpp]) and of the
    frame-ready notifiers of the plugin glue ([agus_maps_flutter.cpp],
    [agus_maps_flutter_linux.cpp]).

    Conventions of the embedding:
    - a C++ object is a record whose fields carry the member names; a method
      is a function from the object (and its arguments) to the new object;
    - a native handle ([EGLDisplay], [HGLRC], [HANDLE], a COM pointer, a
      [std::function]) is the [bool] "is not null"; GL object names are [Z];
    - [int] is [Z]; the only product the code forms, [width * height * 4],
      is formed in [Z], which is what the code computes as long as the
      product fits an [int] (the theorems on frame capture carry that bound);
    - the answers of the driver (return values of EGL, GL, WGL and D3D11
      calls, the pixels delivered by [glReadPixels]) are not computed by the
      program: every method takes them as an environment record;
    - the calls a method issues on the graphics context are appended to a
      log kept in the object, so that "this method does not touch the GPU"
      is the statement that the log is unchanged. *)

From Stdlib Require Import ZArith Lia Bool List.
From Stdlib Require Strings.Byte.
From stdpp Require Import base list.
From coqutil Require Import Datatypes.RecordSetters.
Import TriangleBracketNotations.
Local Open Scope Z_scope.

Abbreviation byte := Byte.byte.

Definition INT_MAX : Z := 2147483647.

(** [std::memcpy(dst + doff, src + soff, n)] on buffers held as lists. The
    code only calls it with both ranges inside their buffers; there the
    result has the length of [dst]. *)
Definition memcpy (dst : list byte) (doff : nat) (src : list byte) (soff n : nat)
  : list byte :=
  take doff dst ++ take n (drop soff src) ++ drop (doff + n) dst.

(** [std::vector<uint8_t>::resize(n)]: keeps the first [n] bytes and pads
    with zero bytes. *)
Definition vector_resize (n : nat) (v : list byte) : list byte :=
  take n v ++ replicate (n - length v) Byte.x00.

(** Row [y] of a buffer of rows of [rowSize] bytes. *)
Definition row (rowSize y : nat) (buf : list byte) : list byte :=
  take rowSize (drop (y * rowSize) buf).

(* ================================================================== *)
(** ** The EGL factory (AgusEglContextFactory.hpp / .cpp) *)
(* ================================================================== *)

Module Egl.

Definition GL_FRAMEBUFFER_COMPLETE : Z := 0x8CD5.
Definition GL_NO_ERROR : Z := 0.
Definition EGL_PBUFFER_BIT : Z := 0x0001.

(** Calls that bind a context to the thread or go to the GPU through the
    current context. *)
Inductive GpuCall :=
| eglMakeCurrent (context : bool)   (* false: EGL_NO_CONTEXT, releases *)
| GLFunctions_Init
| glGenFramebuffers
| glBindFramebuffer (framebuffer : Z)
| glGenTextures
| glBindTexture (texture : Z)
| glTexImage2D (width height : Z)
| glTexParameteri
| glFramebufferTexture2D (texture : Z)
| glGenRenderbuffers
| glBindRenderbuffer (renderbuffer : Z)
| glRenderbufferStorage (width height : Z)
| glFramebufferRenderbuffer (renderbuffer : Z)
| glCheckFramebufferStatus
| glClearColor
| glClear
| glViewport (width height : Z)
| glScissor (width height : Z)
| glFinish
| glReadPixels (width height : Z)
| glGetError.

(** [class AgusEglContext]: the wrapper handed to the renderer. *)
Module Ctx.
Record t := {
  m_context : bool;
  m_isDrawContext : bool;
  m_surfaceless : bool;
  m_presentAvailable : bool
}.
End Ctx.

(** [class AgusEglContextFactory], with the log of GPU calls and the number
    of times the frame and keep-alive callbacks were invoked. *)
Record Factory := {
  m_display : bool;
  m_drawEglContext : bool;
  m_uploadEglContext : bool;
  m_drawSurface : bool;
  m_uploadSurface : bool;
  m_framebuffer : Z;
  m_renderTexture : Z;
  m_depthStencilBuffer : Z;
  m_drawContext : option Ctx.t;
  m_uploadContext : option Ctx.t;
  m_width : Z;
  m_height : Z;
  m_renderedWidth : Z;
  m_renderedHeight : Z;
  m_initialized : bool;
  m_presentAvailable : bool;
  m_useSurfaceless : bool;
  m_glFunctionsInitialized : bool;
  m_framebufferDeferred : bool;
  m_frameCallback : bool;
  m_keepAliveCallback : bool;
  m_pixelBuffer : list byte;
  m_pendingResize : bool;
  m_pendingWidth : Z;
  m_pendingHeight : Z;
  gpu_log : list GpuCall;
  frame_callbacks : nat;
  keep_alive_callbacks : nat
}.

(** The member initialisers of the header. *)
Definition members0 : Factory := {|
  m_display := false;
  m_drawEglContext := false;
  m_uploadEglContext := false;
  m_drawSurface := false;
  m_uploadSurface := false;
  m_framebuffer := 0;
  m_renderTexture := 0;
  m_depthStencilBuffer := 0;
  m_drawContext := None;
  m_uploadContext := None;
  m_width := 0;
  m_height := 0;
  m_renderedWidth := 0;
  m_renderedHeight := 0;
  m_initialized := false;
  m_presentAvailable := true;
  m_useSurfaceless := false;
  m_glFunctionsInitialized := false;
  m_framebufferDeferred := false;
  m_frameCallback := false;
  m_keepAliveCallback := false;
  m_pixelBuffer := [];
  m_pendingResize := false;
  m_pendingWidth := 0;
  m_pendingHeight := 0;
  gpu_log := [];
  frame_callbacks := 0;
  keep_alive_callbacks := 0
|}.

(** Issue GPU calls: append them to the log. *)
Definition gpu (calls : list GpuCall) (f : Factory) : Factory :=
  f<|gpu_log ::= fun l => l ++ calls|>.

(** *** InitializeEGL *)

Record ConfigAttempt := {
  surfaceType : Z;
  depthSize : Z;
  stencilSize : Z
}.

(** What the EGL implementation answers during [InitializeEGL]. An
    [eglChooseConfig] answer is the returned flag and the value left in
    [numConfigs]. *)
Record EglEnv := {
  client_platform_base : bool;
  client_platform_surfaceless : bool;
  default_display : bool;
  platform_display_proc : bool;
  platform_display : bool;
  initialize_ok : bool;
  display_surfaceless_context : bool;
  bind_api_ok : bool;
  choose_config : ConfigAttempt -> bool * Z;
  choose_minimal_config : bool * Z;
  draw_pbuffer : bool;
  upload_pbuffer : bool;
  draw_context : bool;
  upload_context : bool
}.

(** The [for (const auto& attempt : attempts)] loop: the value of
    [numConfigs] when the loop is left. *)
Fixpoint try_configs (choose : ConfigAttempt -> bool * Z)
    (attempts : list ConfigAttempt) (numConfigs : Z) : Z :=
  match attempts with
  | [] => numConfigs
  | attempt :: rest =>
      let '(ok, n) := choose attempt in
      if ok && (0 <? n) then n else try_configs choose rest n
  end.

Definition attempts (useSurfaceless : bool) : list ConfigAttempt :=
  let st := if useSurfaceless then 0 else EGL_PBUFFER_BIT in
  [ {| surfaceType := st; depthSize := 24; stencilSize := 8 |};
    {| surfaceType := st; depthSize := 16; stencilSize := 8 |};
    {| surfaceType := st; depthSize := 16; stencilSize := 0 |};
    {| surfaceType := st; depthSize := 0; stencilSize := 0 |} ].

(** The block [if (!m_useSurfaceless) { ... }] that creates the two pbuffer
    surfaces; [false] is the [return false] inside it. *)
Definition create_pbuffers (env : EglEnv) (hasSurfacelessContext : bool)
    (f : Factory) : bool * Factory :=
  if m_useSurfaceless f then (true, f)
  else if negb (draw_pbuffer env) then
    if hasSurfacelessContext then (true, f<|m_useSurfaceless := true|>)
    else (false, f)
  else
    let f := f<|m_drawSurface := true|> in
    if negb (upload_pbuffer env) then
      let f := f<|m_drawSurface := false|> in
      if hasSurfacelessContext then (true, f<|m_useSurfaceless := true|>)
      else (false, f)
    else (true, f<|m_uploadSurface := true|>).

Definition InitializeEGL (env : EglEnv) (f : Factory) : bool * Factory :=
  let hasPlatformBase := client_platform_base env in
  let hasSurfaceless := client_platform_surfaceless env in
  let f := f<|m_display := default_display env|> in
  let f :=
    if m_display f then f<|m_useSurfaceless := false|>
    else if hasPlatformBase && hasSurfaceless then
      if platform_display_proc env then
        let f := f<|m_display := platform_display env|> in
        if m_display f then f<|m_useSurfaceless := true|> else f
      else f
    else f in
  if negb (m_display f) then (false, f)
  else if negb (initialize_ok env) then (false, f)
  else
    let hasSurfacelessContext := display_surfaceless_context env in
    let f :=
      if m_useSurfaceless f && negb hasSurfacelessContext
      then f<|m_useSurfaceless := false|> else f in
    if negb (bind_api_ok env) then (false, f)
    else
      let numConfigs :=
        try_configs (choose_config env) (attempts (m_useSurfaceless f)) 0 in
      let minimal_failed :=
        if numConfigs =? 0 then
          let '(ok, n) := choose_minimal_config env in negb ok || (n =? 0)
        else false in
      if minimal_failed then (false, f)
      else
        let '(ok, f) := create_pbuffers env hasSurfacelessContext f in
        if negb ok then (false, f)
        else if negb (draw_context env) then (false, f)
        else
          let f := f<|m_drawEglContext := true|> in
          if negb (upload_context env) then
            (false, f<|m_drawEglContext := false|>)
          else
            (true, f<|m_uploadEglContext := true|>
                    <|m_glFunctionsInitialized := false|>).

(** The constructor [AgusEglContextFactory(width, height, density)]. *)
Definition AgusEglContextFactory (env : EglEnv) (width height : Z) : Factory :=
  let f := members0<|m_width := width|><|m_height := height|> in
  let f := f<|m_renderedWidth := width|><|m_renderedHeight := height|> in
  let '(ok, f) := InitializeEGL env f in
  if negb ok then f
  else f<|m_framebufferDeferred := true|><|m_initialized := true|>.

Definition IsValid (f : Factory) : bool := m_initialized f.
Definition GetRenderedWidth (f : Factory) : Z := m_renderedWidth f.
Definition GetRenderedHeight (f : Factory) : Z := m_renderedHeight f.
Definition GetFramebufferId (f : Factory) : Z := m_framebuffer f.
Definition GetTextureId (f : Factory) : Z := m_renderTexture f.

(** *** Framebuffer creation, deferred to the first [GetDrawContext] *)

(** What the driver answers during [CreateFramebuffer]: the result of
    [eglMakeCurrent], the names produced by the three [glGen*] calls and
    the value of [glCheckFramebufferStatus]. *)
Record FramebufferEnv := {
  make_current : bool;
  gen_framebuffer : Z;
  gen_texture : Z;
  gen_renderbuffer : Z;
  framebuffer_status : Z
}.

Definition CreateFramebuffer (env : FramebufferEnv) (width height : Z)
    (f : Factory) : bool * Factory :=
  if (width <=? 0) || (height <=? 0) then (false, f)
  else
    let f := gpu [eglMakeCurrent true] f in
    if negb (make_current env) then (false, f)
    else
      let f :=
        if negb (m_glFunctionsInitialized f)
        then (gpu [GLFunctions_Init] f)<|m_glFunctionsInitialized := true|>
        else f in
      let f := (gpu [glGenFramebuffers] f)<|m_framebuffer := gen_framebuffer env|> in
      let f := gpu [glBindFramebuffer (m_framebuffer f)] f in
      let f := (gpu [glGenTextures] f)<|m_renderTexture := gen_texture env|> in
      let f := gpu [glBindTexture (m_renderTexture f);
                    glTexImage2D width height;
                    glTexParameteri; glTexParameteri;
                    glTexParameteri; glTexParameteri;
                    glFramebufferTexture2D (m_renderTexture f)] f in
      let f := (gpu [glGenRenderbuffers] f)
                 <|m_depthStencilBuffer := gen_renderbuffer env|> in
      let f := gpu [glBindRenderbuffer (m_depthStencilBuffer f);
                    glRenderbufferStorage width height;
                    glFramebufferRenderbuffer (m_depthStencilBuffer f);
                    glCheckFramebufferStatus] f in
      if negb (framebuffer_status env =? GL_FRAMEBUFFER_COMPLETE) then
        (false, gpu [eglMakeCurrent false] f)
      else
        let f := gpu [glClearColor; glClear] f in
        let f := f<|m_renderedWidth := width|><|m_renderedHeight := height|> in
        (true, gpu [eglMakeCurrent false] f).

(** [GetDrawContext()]: the returned pointer ([None] is [nullptr]) and the
    factory afterwards. *)
Definition GetDrawContext (env : FramebufferEnv) (f : Factory)
  : option Ctx.t * Factory :=
  let wrap (f : Factory) :=
    let f :=
      match m_drawContext f with
      | None =>
          if m_drawEglContext f then
            f<|m_drawContext :=
                 Some {| Ctx.m_context := m_drawEglContext f;
                         Ctx.m_isDrawContext := true;
                         Ctx.m_surfaceless := m_useSurfaceless f;
                         Ctx.m_presentAvailable := true |}|>
          else f
      | Some _ => f
      end in
    (m_drawContext f, f) in
  if m_framebufferDeferred f && (m_framebuffer f =? 0) then
    let '(ok, f) := CreateFramebuffer env (m_width f) (m_height f) f in
    if negb ok then (None, f<|m_initialized := false|>)
    else wrap (f<|m_framebufferDeferred := false|>)
  else wrap f.

Definition GetResourcesUploadContext (f : Factory) : option Ctx.t * Factory :=
  let f :=
    match m_uploadContext f with
    | None =>
        if m_uploadEglContext f then
          f<|m_uploadContext :=
               Some {| Ctx.m_context := m_uploadEglContext f;
                       Ctx.m_isDrawContext := false;
                       Ctx.m_surfaceless := m_useSurfaceless f;
                       Ctx.m_presentAvailable := true |}|>
        else f
    | Some _ => f
    end in
  (m_uploadContext f, f).

(** *** The deferred resize *)

Definition SetSurfaceSize (width height : Z) (f : Factory) : Factory :=
  if (width <=? 0) || (height <=? 0) then f
  else if (width =? m_width f) && (height =? m_height f) then f
  else
    f<|m_pendingWidth := width|>
     <|m_pendingHeight := height|>
     <|m_pendingResize := true|>.

(** [status] is the value of [glCheckFramebufferStatus] after the
    re-attachment; the code only logs it. *)
Definition ApplyPendingResize (status : Z) (f : Factory) : Factory :=
  let width := m_pendingWidth f in
  let height := m_pendingHeight f in
  let f := gpu [glBindTexture (m_renderTexture f);
                glTexImage2D width height;
                glBindTexture 0;
                glBindRenderbuffer (m_depthStencilBuffer f);
                glRenderbufferStorage width height;
                glBindRenderbuffer 0;
                glBindFramebuffer (m_framebuffer f);
                glFramebufferTexture2D (m_renderTexture f);
                glFramebufferRenderbuffer (m_depthStencilBuffer f);
                glCheckFramebufferStatus] f in
  let f :=
    if negb (status =? GL_FRAMEBUFFER_COMPLETE)
    then f   (* LOG(LERROR, ...) *)
    else f   (* LOG(LINFO, ...) *) in
  let f := gpu [glViewport width height; glScissor width height] f in
  f<|m_width := width|>
   <|m_height := height|>
   <|m_renderedWidth := width|>
   <|m_renderedHeight := height|>.

Definition CheckPendingResize (status : Z) (f : Factory) : Factory :=
  if negb (m_pendingResize f) then f
  else
    let width := m_pendingWidth f in
    let height := m_pendingHeight f in
    let f := f<|m_pendingResize := false|> in
    if (width <=? 0) || (height <=? 0) then f
    else if (width =? m_width f) && (height =? m_height f) then f
    else ApplyPendingResize status f.

(** *** Frame capture and hand-off *)

Definition OnFrameReady (f : Factory) : Factory :=
  if m_frameCallback f then f<|frame_callbacks ::= S|> else f.

Definition RequestActiveFrame (f : Factory) : Factory :=
  if m_keepAliveCallback f then f<|keep_alive_callbacks ::= S|> else f.

(** What the driver answers during one [Present]: the framebuffer status
    seen by a resize, the bytes [glReadPixels] leaves in the temporary
    buffer (byte [i] of the buffer is [read_pixels i]) and the value of
    [glGetError]. *)
Record FrameEnv := {
  resize_status : Z;
  read_pixels : nat -> byte;
  read_error : Z
}.

(** [tempBuffer] after [glReadPixels]: [expectedSize] bytes. *)
Definition tempBuffer (env : FrameEnv) (expectedSize : nat) : list byte :=
  map (read_pixels env) (seq 0 expectedSize).

(** The loop [for (int y = 0; y < height; ++y) memcpy(...)]. *)
Definition flip_rows (height rowSize : nat) (temp pixelBuffer : list byte)
  : list byte :=
  fold_left
    (fun buf y =>
       let srcRow := (height - 1 - y)%nat in
       let dstRow := y in
       memcpy buf (dstRow * rowSize) temp (srcRow * rowSize) rowSize)
    (seq 0 height) pixelBuffer.

Definition CaptureFramePixels (env : FrameEnv) (f : Factory) : Factory :=
  let width := m_renderedWidth f in
  let height := m_renderedHeight f in
  if (width <=? 0) || (height <=? 0) then f
  else
    let expectedSize := width * height * 4 in
    let f := gpu [glBindFramebuffer (m_framebuffer f)] f in
    let temp := tempBuffer env (Z.to_nat expectedSize) in
    let f := gpu [glReadPixels width height; glGetError] f in
    if negb (read_error env =? GL_NO_ERROR) then f
    else
      let f := f<|m_pixelBuffer ::= vector_resize (Z.to_nat expectedSize)|> in
      let rowSize := width * 4 in
      f<|m_pixelBuffer ::=
           flip_rows (Z.to_nat height) (Z.to_nat rowSize) temp|>.

(** [CopyToPixelBuffer(buffer, bufferSize)]: the returned flag, the
    destination afterwards ([None] is a null pointer; otherwise the bytes
    [buffer] points to) and the factory afterwards. *)
Definition CopyToPixelBuffer (buffer : option (list byte)) (bufferSize : Z)
    (f : Factory) : bool * option (list byte) * Factory :=
  match buffer with
  | None => (false, None, f)
  | Some dst =>
      if bufferSize <=? 0 then (false, Some dst, f)
      else
        match m_pixelBuffer f with
        | [] => (false, Some dst, f)
        | _ :: _ =>
            let copySize :=
              Z.min bufferSize (Z.of_nat (length (m_pixelBuffer f))) in
            (true, Some (memcpy dst 0 (m_pixelBuffer f) 0 (Z.to_nat copySize)), f)
        end
  end.

(** *** The methods of [AgusEglContext] *)

(** [ok] is the result of [eglMakeCurrent]. *)
Definition MakeCurrent (ok : bool) (c : Ctx.t) (f : Factory) : Factory :=
  if Ctx.m_context c then
    let f := gpu [eglMakeCurrent true] f in
    if negb ok then f
    else if Ctx.m_isDrawContext c
    then gpu [glBindFramebuffer (GetFramebufferId f)] f
    else f
  else f.

Definition DoneCurrent (f : Factory) : Factory :=
  gpu [eglMakeCurrent false] f.

Definition Present (env : FrameEnv) (c : Ctx.t) (f : Factory) : Factory :=
  if negb (Ctx.m_presentAvailable c) then f
  else
    let f :=
      if Ctx.m_isDrawContext c then CheckPendingResize (resize_status env) f
      else f in
    let f := gpu [glFinish] f in
    if Ctx.m_isDrawContext c then OnFrameReady (CaptureFramePixels env f)
    else f.

(** [framebuffer] is the name bound by [framebuffer->Bind()], [None] a null
    [ref_ptr]. *)
Definition SetFramebuffer (framebuffer : option Z) (f : Factory) : Factory :=
  match framebuffer with
  | Some name => gpu [glBindFramebuffer name] f
  | None => gpu [glBindFramebuffer (GetFramebufferId f)] f
  end.

Definition SetRenderingEnabled (enabled ok : bool) (c : Ctx.t) (f : Factory)
  : Factory :=
  if enabled then MakeCurrent ok c f else DoneCurrent f.

Definition SetPresentAvailable (available : bool) (c : Ctx.t) : Ctx.t :=
  c<|Ctx.m_presentAvailable := available|>.

(** *** Entry points and runs *)

Inductive Role := Draw | Upload.

Definition context (r : Role) (f : Factory) : option Ctx.t :=
  match r with
  | Draw => m_drawContext f
  | Upload => m_uploadContext f
  end.

Definition set_context (r : Role) (c : Ctx.t) (f : Factory) : Factory :=
  match r with
  | Draw => f<|m_drawContext := Some c|>
  | Upload => f<|m_uploadContext := Some c|>
  end.

(** The calls the plugin glue and the renderer make on a factory and on the
    two context wrappers it owns. *)
Inductive Call :=
| call_GetDrawContext (env : FramebufferEnv)
| call_GetResourcesUploadContext
| call_SetSurfaceSize (width height : Z)
| call_Factory_SetPresentAvailable (available : bool)
| call_SetFrameCallback (callback : bool)
| call_SetKeepAliveCallback (callback : bool)
| call_RequestActiveFrame
| call_CopyToPixelBuffer (buffer : option (list byte)) (bufferSize : Z)
| call_MakeCurrent (r : Role) (ok : bool)
| call_DoneCurrent (r : Role)
| call_SetFramebuffer (r : Role) (framebuffer : option Z)
| call_SetPresentAvailable (r : Role) (available : bool)
| call_Present (r : Role) (env : FrameEnv).

(** A method of a wrapper can only be called once the wrapper exists. *)
Definition on_context (r : Role) (k : Ctx.t -> Factory) (f : Factory) : Factory :=
  match context r f with
  | Some c => k c
  | None => f
  end.

Definition step (f : Factory) (c : Call) : Factory :=
  match c with
  | call_GetDrawContext env => snd (GetDrawContext env f)
  | call_GetResourcesUploadContext => snd (GetResourcesUploadContext f)
  | call_SetSurfaceSize width height => SetSurfaceSize width height f
  | call_Factory_SetPresentAvailable available =>
      f<|m_presentAvailable := available|>
  | call_SetFrameCallback callback => f<|m_frameCallback := callback|>
  | call_SetKeepAliveCallback callback => f<|m_keepAliveCallback := callback|>
  | call_RequestActiveFrame => RequestActiveFrame f
  | call_CopyToPixelBuffer buffer bufferSize =>
      snd (CopyToPixelBuffer buffer bufferSize f)
  | call_MakeCurrent r ok => on_context r (fun c => MakeCurrent ok c f) f
  | call_DoneCurrent r => on_context r (fun _ => DoneCurrent f) f
  | call_SetFramebuffer r framebuffer =>
      on_context r (fun _ => SetFramebuffer framebuffer f) f
  | call_SetPresentAvailable r available =>
      on_context r (fun c => set_context r (SetPresentAvailable available c) f) f
  | call_Present r env => on_context r (fun c => Present env c f) f
  end.

Definition run (f : Factory) (calls : list Call) : Factory :=
  fold_left step calls f.

Definition is_Present (c : Call) : bool :=
  match c with call_Present Draw _ => true | _ => false end.

Definition is_SetSurfaceSize (c : Call) : bool :=
  match c with call_SetSurfaceSize _ _ => true | _ => false end.

Definition is_GetDrawContext (c : Call) : bool :=
  match c with call_GetDrawContext _ => true | _ => false end.

(** The call is a [Present] of the draw context whose read-back succeeds:
    only such a call can put a frame into the staging buffer. *)
Definition captures (c : Call) : bool :=
  match c with
  | call_Present Draw env => read_error env =? GL_NO_ERROR
  | _ => false
  end.

(** The calls that neither allocate, resize, capture nor create or change
    a wrapper. *)
Definition quiet (c : Call) : bool :=
  match c with
  | call_GetDrawContext _ | call_GetResourcesUploadContext
  | call_SetSurfaceSize _ _ | call_SetPresentAvailable _ _
  | call_Present _ _ => false
  | _ => true
  end.

(** The GPU calls that give the colour texture or the depth-stencil
    renderbuffer its storage, hence its size. *)
Definition sizes_storage (c : GpuCall) : bool :=
  match c with
  | glTexImage2D _ _ | glRenderbufferStorage _ _ => true
  | _ => false
  end.

Definition storage_sizes (log : list GpuCall) : list GpuCall :=
  List.filter sizes_storage log.

(** The part of a factory that [InitializeEGL] does not touch. *)
Definition surface_state (f : Factory) :=
  (m_width f, m_height f, m_renderedWidth f, m_renderedHeight f,
   (m_pendingResize f, m_pendingWidth f, m_pendingHeight f),
   m_pixelBuffer f, gpu_log f, m_framebuffer f,
   (m_drawContext f, m_uploadContext f)).

(** Views of a factory: the sizes it holds, the pending-resize record, the
    two wrappers, and all of these together with the staging buffer and
    the storage the GPU was asked for. *)
Definition geometry (f : Factory) :=
  (m_width f, m_height f, m_renderedWidth f, m_renderedHeight f).

Definition pending (f : Factory) :=
  (m_pendingResize f, m_pendingWidth f, m_pendingHeight f).

Definition wrappers (f : Factory) := (m_drawContext f, m_uploadContext f).

Definition view (f : Factory) :=
  (wrappers f, m_pixelBuffer f, geometry f, pending f,
   storage_sizes (gpu_log f)).

(** Each wrapper the factory owns has the role it was created for. *)
Definition roles_ok (f : Factory) : Prop :=
  (forall c, m_drawContext f = Some c -> Ctx.m_isDrawContext c = true) /\
  (forall c, m_uploadContext f = Some c -> Ctx.m_isDrawContext c = false).

(** The published rendered size is the size the factory holds. *)
Definition sizes_agree (f : Factory) : Prop :=
  m_renderedWidth f = m_width f /\ m_renderedHeight f = m_height f.

End Egl.

(* ================================================================== *)
(** ** The WGL / D3D11 factory (AgusWglContextFactory.hpp / .cpp) *)
(* ================================================================== *)

Module Wgl.

Definition GL_FRAMEBUFFER_COMPLETE : Z := 0x8CD5.

Inductive InteropTarget := GL_TEXTURE_2D | GL_RENDERBUFFER.

(** The context a [wglMakeCurrent] call names: the factory's draw context,
    the context that was current before, or none. *)
Inductive WglTarget := draw_glrc | previous_glrc | no_glrc.

(** Calls on the WGL context, on the GPU through it, on the interop
    extension and on the D3D11 device. [DrawOverlayText] stands for the
    call of the diagnostics overlay, whose drawing is not expanded. *)
Inductive NativeCall :=
| wglMakeCurrent (target : WglTarget)
| GLFunctions_Init
| glGenFramebuffers
| glGenTextures
| glGenRenderbuffers
| glDeleteFramebuffers (framebuffer : Z)
| glDeleteTextures (texture : Z)
| glDeleteRenderbuffers (renderbuffer : Z)
| glBindFramebuffer (framebuffer : Z)
| glBindReadFramebuffer (framebuffer : Z)
| glBindDrawFramebuffer (framebuffer : Z)
| glBindTexture (texture : Z)
| glBindRenderbuffer (renderbuffer : Z)
| glTexImage2D (width height : Z)
| glTexParameteri
| glRenderbufferStorage (width height : Z)
| glFramebufferTexture2D (texture : Z)
| glFramebufferRenderbuffer (renderbuffer : Z)
| glDrawBuffers
| glReadBuffer
| glCheckFramebufferStatus
| glViewport (width height : Z)
| glScissor (width height : Z)
| glGetIntegerv_viewport
| glFinish
| glBlitFramebuffer_flipped (width height : Z)
| glReadPixels (width height : Z)
| DrawOverlayText (framebuffer : Z)
| wglDXOpenDeviceNV
| wglDXCloseDeviceNV
| wglDXRegisterObjectNV (name : Z) (target : InteropTarget)
| wglDXUnregisterObjectNV
| wglDXLockObjectsNV
| wglDXUnlockObjectsNV
| D3D11CreateDevice
| CreateTexture2D_shared (width height : Z)
| CreateTexture2D_staging (width height : Z)
| GetSharedHandle
| CloseHandle
| Map_staging
| Unmap_staging
| CopyResource
| AcquireSync (key : Z)
| ReleaseSync (key : Z).

(** [class AgusWglContext]. *)
Module Ctx.
Record t := {
  m_glrc : bool;
  m_isDraw : bool;
  m_initialFrameCount : Z
}.
End Ctx.

Record Factory := {
  m_hiddenWindow : bool;
  m_hdc : bool;
  m_drawGlrc : bool;
  m_uploadGlrc : bool;
  m_framebuffer : Z;
  m_renderTexture : Z;
  m_depthBuffer : Z;
  m_lastBoundFramebuffer : Z;
  m_d3dDevice : bool;
  m_sharedTexture : bool;
  m_stagingTexture : bool;
  m_sharedHandle : bool;
  m_keyedMutex : bool;
  m_useKeyedMutex : bool;
  m_interopDevice : bool;
  m_interopObject : bool;
  m_interopTexture : Z;
  m_interopRenderbuffer : Z;
  m_interopFramebuffer : Z;
  m_wglDXOpenDeviceNV : bool;
  m_wglDXCloseDeviceNV : bool;
  m_wglDXRegisterObjectNV : bool;
  m_wglDXUnregisterObjectNV : bool;
  m_wglDXLockObjectsNV : bool;
  m_wglDXUnlockObjectsNV : bool;
  m_drawContext : option Ctx.t;
  m_uploadContext : option Ctx.t;
  m_width : Z;
  m_height : Z;
  m_renderedWidth : Z;
  m_renderedHeight : Z;
  m_frameCallback : bool;
  m_keepAliveCallback : bool;
  native_log : list NativeCall;
  frame_callbacks : nat;
  keep_alive_callbacks : nat
}.

Definition members0 : Factory := {|
  m_hiddenWindow := false;
  m_hdc := false;
  m_drawGlrc := false;
  m_uploadGlrc := false;
  m_framebuffer := 0;
  m_renderTexture := 0;
  m_depthBuffer := 0;
  m_lastBoundFramebuffer := 0;
  m_d3dDevice := false;
  m_sharedTexture := false;
  m_stagingTexture := false;
  m_sharedHandle := false;
  m_keyedMutex := false;
  m_useKeyedMutex := false;
  m_interopDevice := false;
  m_interopObject := false;
  m_interopTexture := 0;
  m_interopRenderbuffer := 0;
  m_interopFramebuffer := 0;
  m_wglDXOpenDeviceNV := false;
  m_wglDXCloseDeviceNV := false;
  m_wglDXRegisterObjectNV := false;
  m_wglDXUnregisterObjectNV := false;
  m_wglDXLockObjectsNV := false;
  m_wglDXUnlockObjectsNV := false;
  m_drawContext := None;
  m_uploadContext := None;
  m_width := 0;
  m_height := 0;
  m_renderedWidth := 0;
  m_renderedHeight := 0;
  m_frameCallback := false;
  m_keepAliveCallback := false;
  native_log := [];
  frame_callbacks := 0;
  keep_alive_callbacks := 0
|}.

Definition native (calls : list NativeCall) (f : Factory) : Factory :=
  f<|native_log ::= fun l => l ++ calls|>.

(** *** InitializeWGL and InitializeD3D11 *)

Record WglEnv := {
  register_class : bool;
  create_window : bool;
  get_dc : bool;
  choose_pixel_format : bool;
  set_pixel_format : bool;
  create_draw_context : bool;
  create_upload_context : bool;
  load_fbo_extensions : bool;
  proc_wglDXOpenDeviceNV : bool;
  proc_wglDXCloseDeviceNV : bool;
  proc_wglDXRegisterObjectNV : bool;
  proc_wglDXUnregisterObjectNV : bool;
  proc_wglDXLockObjectsNV : bool;
  proc_wglDXUnlockObjectsNV : bool;
  gen_framebuffer : Z;
  gen_texture : Z;
  gen_renderbuffer : Z;
  framebuffer_status : Z
}.

Definition release_window (f : Factory) : Factory :=
  f<|m_hdc := false|><|m_hiddenWindow := false|>.

Definition InitializeWGL (env : WglEnv) (f : Factory) : bool * Factory :=
  if negb (register_class env) then (false, f)
  else
    let f := f<|m_hiddenWindow := create_window env|> in
    if negb (m_hiddenWindow f) then (false, f)
    else
      let f := f<|m_hdc := get_dc env|> in
      if negb (m_hdc f) then (false, f<|m_hiddenWindow := false|>)
      else if negb (choose_pixel_format env) then (false, release_window f)
      else if negb (set_pixel_format env) then (false, release_window f)
      else
        let f := f<|m_drawGlrc := create_draw_context env|> in
        if negb (m_drawGlrc f) then (false, release_window f)
        else
          let f := f<|m_uploadGlrc := create_upload_context env|> in
          if negb (m_uploadGlrc f) then
            (false, release_window (f<|m_drawGlrc := false|>))
          else
            let f := native [wglMakeCurrent draw_glrc] f in
            if negb (load_fbo_extensions env) then
              (false, native [wglMakeCurrent no_glrc] f)
            else
              let f := f<|m_wglDXOpenDeviceNV := proc_wglDXOpenDeviceNV env|>
                        <|m_wglDXCloseDeviceNV := proc_wglDXCloseDeviceNV env|>
                        <|m_wglDXRegisterObjectNV := proc_wglDXRegisterObjectNV env|>
                        <|m_wglDXUnregisterObjectNV := proc_wglDXUnregisterObjectNV env|>
                        <|m_wglDXLockObjectsNV := proc_wglDXLockObjectsNV env|>
                        <|m_wglDXUnlockObjectsNV := proc_wglDXUnlockObjectsNV env|> in
              let f := native [GLFunctions_Init] f in
              let f := (native [glGenFramebuffers; glGenTextures; glGenRenderbuffers] f)
                         <|m_framebuffer := gen_framebuffer env|>
                         <|m_renderTexture := gen_texture env|>
                         <|m_depthBuffer := gen_renderbuffer env|> in
              let f := native
                [glBindTexture (m_renderTexture f);
                 glTexImage2D (m_width f) (m_height f);
                 glTexParameteri; glTexParameteri;
                 glBindTexture 0;
                 glBindRenderbuffer (m_depthBuffer f);
                 glRenderbufferStorage (m_width f) (m_height f);
                 glBindRenderbuffer 0;
                 glBindFramebuffer (m_framebuffer f);
                 glFramebufferTexture2D (m_renderTexture f);
                 glFramebufferRenderbuffer (m_depthBuffer f);
                 glDrawBuffers;
                 glCheckFramebufferStatus] f in
              if negb (framebuffer_status env =? GL_FRAMEBUFFER_COMPLETE) then
                (false, native [glBindFramebuffer 0; wglMakeCurrent no_glrc] f)
              else
                (true, native [glViewport (m_width f) (m_height f);
                               glScissor (m_width f) (m_height f);
                               glBindFramebuffer 0;
                               wglMakeCurrent no_glrc] f).

(** The adapter search of [InitializeD3D11] is a question to DXGI; the
    environment says whether an adapter matched and whether each
    [D3D11CreateDevice] succeeded. *)
Record D3DEnv := {
  preferred_adapter : bool;
  create_on_preferred : bool;
  create_on_default : bool
}.

Definition InitializeD3D11 (env : D3DEnv) (f : Factory) : bool * Factory :=
  let '(ok, f) :=
    if preferred_adapter env
    then (create_on_preferred env, native [D3D11CreateDevice] f)
    else (false, f) in
  let '(ok, f) :=
    if negb ok then (create_on_default env, native [D3D11CreateDevice] f)
    else (ok, f) in
  if negb ok then (false, f) else (true, f<|m_d3dDevice := true|>).

Definition CleanupWGL (f : Factory) : Factory :=
  f<|m_uploadGlrc := false|><|m_drawGlrc := false|>
   <|m_hdc := if m_hdc f && m_hiddenWindow f then false else m_hdc f|>
   <|m_hiddenWindow := false|>.

Definition CleanupD3D11 (f : Factory) : Factory :=
  let f := if m_sharedHandle f
           then (native [CloseHandle] f)<|m_sharedHandle := false|> else f in
  f<|m_stagingTexture := false|><|m_sharedTexture := false|>
   <|m_d3dDevice := false|>.

(** *** CreateSharedTexture: the shared D3D11 texture and its registration
        with the WGL_NV_DX_interop extension *)

(** The answers to one registration attempt ([tryTextureInterop] or
    [tryRenderbufferInterop]). *)
Record InteropEnv := {
  gen_name : Z;
  register_object : bool;
  lock_objects : bool;
  gen_interop_framebuffer : Z;
  interop_status : Z
}.

Record SharedTextureEnv := {
  context_is_current : bool;   (* prevContext == m_drawGlrc && prevDC == m_hdc *)
  prev_context : bool;         (* prevContext != nullptr *)
  make_current : bool;
  keyed_mutex_requested : bool;   (* ShouldEnableKeyedMutex() *)
  create_shared : bool;
  as_dxgi_resource : bool;
  get_shared_handle : bool;
  as_keyed_mutex : bool;
  open_device : bool;
  texture_interop : InteropEnv;
  renderbuffer_interop : InteropEnv;
  create_staging : bool
}.

(** The block under [// Cleanup existing interop] up to the three
    [Reset()] calls. *)
Definition cleanup_existing (f : Factory) : Factory :=
  let f :=
    if m_interopDevice f then
      let f :=
        if m_interopObject f then
          let f := if m_wglDXUnregisterObjectNV f
                   then native [wglDXUnregisterObjectNV] f else f in
          f<|m_interopObject := false|>
        else f in
      let f := if m_wglDXCloseDeviceNV f
               then native [wglDXCloseDeviceNV] f else f in
      f<|m_interopDevice := false|>
    else f in
  let f := if negb (m_interopFramebuffer f =? 0)
           then (native [glDeleteFramebuffers (m_interopFramebuffer f)] f)
                  <|m_interopFramebuffer := 0|> else f in
  let f := if negb (m_interopRenderbuffer f =? 0)
           then (native [glDeleteRenderbuffers (m_interopRenderbuffer f)] f)
                  <|m_interopRenderbuffer := 0|> else f in
  let f := if negb (m_interopTexture f =? 0)
           then (native [glDeleteTextures (m_interopTexture f)] f)
                  <|m_interopTexture := 0|> else f in
  let f := if m_sharedHandle f
           then (native [CloseHandle] f)<|m_sharedHandle := false|> else f in
  f<|m_sharedTexture := false|><|m_stagingTexture := false|>
   <|m_keyedMutex := false|>.

(** The lambda [cleanupInterop]. *)
Definition cleanupInterop (f : Factory) : Factory :=
  let f := if negb (m_interopFramebuffer f =? 0)
           then (native [glDeleteFramebuffers (m_interopFramebuffer f)] f)
                  <|m_interopFramebuffer := 0|> else f in
  let f := if negb (m_interopRenderbuffer f =? 0)
           then (native [glDeleteRenderbuffers (m_interopRenderbuffer f)] f)
                  <|m_interopRenderbuffer := 0|> else f in
  let f := if negb (m_interopTexture f =? 0)
           then (native [glDeleteTextures (m_interopTexture f)] f)
                  <|m_interopTexture := 0|> else f in
  if m_wglDXUnregisterObjectNV f && m_interopDevice f && m_interopObject f
  then (native [wglDXUnregisterObjectNV] f)<|m_interopObject := false|>
  else f.

(** The common tail of both lambdas, from the lock onwards; [attach] is
    the attachment call of the lambda. *)
Definition lock_and_attach (env : InteropEnv) (attach : NativeCall) (f : Factory)
  : bool * Factory :=
  let f := native [wglDXLockObjectsNV] f in
  if negb (lock_objects env) then (false, f)
  else
    let f := (native [glGenFramebuffers] f)
               <|m_interopFramebuffer := gen_interop_framebuffer env|> in
    let f := native [glBindFramebuffer (m_interopFramebuffer f); attach;
                     glDrawBuffers; glReadBuffer; glCheckFramebufferStatus] f in
    if negb (interop_status env =? GL_FRAMEBUFFER_COMPLETE) then
      (false, native [glBindFramebuffer 0; wglDXUnlockObjectsNV] f)
    else
      (true, native [glBindFramebuffer 0; wglDXUnlockObjectsNV] f).

(** The lambda [tryTextureInterop]. *)
Definition tryTextureInterop (env : InteropEnv) (f : Factory) : bool * Factory :=
  let f := (native [glGenTextures] f)<|m_interopTexture := gen_name env|> in
  let f := native [glBindTexture (m_interopTexture f);
                   glTexParameteri; glTexParameteri;
                   glTexParameteri; glTexParameteri;
                   glBindTexture 0] f in
  let f := (native [wglDXRegisterObjectNV (m_interopTexture f) GL_TEXTURE_2D] f)
             <|m_interopObject := register_object env|> in
  if negb (m_interopObject f) then (false, f)
  else lock_and_attach env (glFramebufferTexture2D (m_interopTexture f)) f.

(** The lambda [tryRenderbufferInterop]. *)
Definition tryRenderbufferInterop (env : InteropEnv) (f : Factory)
  : bool * Factory :=
  let f := (native [glGenRenderbuffers] f)<|m_interopRenderbuffer := gen_name env|> in
  let f := native [glBindRenderbuffer (m_interopRenderbuffer f);
                   glBindRenderbuffer 0] f in
  let f := (native [wglDXRegisterObjectNV (m_interopRenderbuffer f) GL_RENDERBUFFER] f)
             <|m_interopObject := register_object env|> in
  if negb (m_interopObject f) then (false, f)
  else lock_and_attach env (glFramebufferRenderbuffer (m_interopRenderbuffer f)) f.

(** The block [if (m_wglDXOpenDeviceNV) { ... }]. *)
Definition setup_interop (env : SharedTextureEnv) (f : Factory) : Factory :=
  if m_wglDXOpenDeviceNV f then
    let f := (native [wglDXOpenDeviceNV] f)<|m_interopDevice := open_device env|> in
    if m_interopDevice f then
      let '(interopOk, f) := tryTextureInterop (texture_interop env) f in
      let '(interopOk, f) :=
        if negb interopOk
        then tryRenderbufferInterop (renderbuffer_interop env) (cleanupInterop f)
        else (interopOk, f) in
      if negb interopOk then
        let f := cleanupInterop f in
        let f := if m_wglDXCloseDeviceNV f
                 then native [wglDXCloseDeviceNV] f else f in
        f<|m_interopDevice := false|>
      else f
    else f
  else f.

Definition CreateSharedTexture (env : SharedTextureEnv) (width height : Z)
    (f : Factory) : bool * Factory :=
  let need_current := negb (context_is_current env) in
  let f := if need_current then native [wglMakeCurrent draw_glrc] f else f in
  let madeCurrent := need_current && make_current env in
  if need_current && negb madeCurrent then (false, f)
  else
    let f := cleanup_existing f in
    let f := f<|m_useKeyedMutex := keyed_mutex_requested env|> in
    let f := (native [CreateTexture2D_shared width height] f)
               <|m_sharedTexture := create_shared env|> in
    if negb (create_shared env) then (false, f)
    else if negb (as_dxgi_resource env) then (false, f)
    else
      let f := (native [GetSharedHandle] f)
                 <|m_sharedHandle := get_shared_handle env|> in
      if negb (get_shared_handle env) then (false, f)
      else
        let f :=
          if m_useKeyedMutex f
          then f<|m_keyedMutex := as_keyed_mutex env|> else f in
        if m_useKeyedMutex f && negb (as_keyed_mutex env) then (false, f)
        else
          let f := setup_interop env f in
          let f :=
            if madeCurrent then
              if prev_context env then native [wglMakeCurrent previous_glrc] f
              else native [wglMakeCurrent no_glrc] f
            else f in
          let f := (native [CreateTexture2D_staging width height] f)
                     <|m_stagingTexture := create_staging env|> in
          if negb (create_staging env) then (false, f)
          else (true, f<|m_width := width|><|m_height := height|>).

(** The constructor [AgusWglContextFactory(width, height)]. *)
Record ConstructEnv := {
  wgl_env : WglEnv;
  d3d_env : D3DEnv;
  shared_env : SharedTextureEnv
}.

Definition AgusWglContextFactory (env : ConstructEnv) (width height : Z)
  : Factory :=
  let f := members0<|m_width := width|><|m_height := height|> in
  let f := f<|m_renderedWidth := width|><|m_renderedHeight := height|> in
  let '(ok, f) := InitializeWGL (wgl_env env) f in
  if negb ok then f
  else
    let '(ok, f) := InitializeD3D11 (d3d_env env) f in
    if negb ok then CleanupWGL f
    else
      let '(ok, f) := CreateSharedTexture (shared_env env) width height f in
      if negb ok then CleanupWGL (CleanupD3D11 f) else f.

(** *** SetSurfaceSize: the resize is applied at once *)

Record ResizeEnv := {
  resize_prev_context : bool;   (* prevContext != nullptr *)
  resize_make_current : bool;
  resize_status : Z;
  resize_shared : SharedTextureEnv
}.

Definition SetSurfaceSize (env : ResizeEnv) (width height : Z) (f : Factory)
  : Factory :=
  if (m_width f =? width) && (m_height f =? height) then f
  else
    let f := native [wglMakeCurrent draw_glrc] f in
    if negb (resize_make_current env) then f
    else
      let f := native
        [glBindTexture (m_renderTexture f);
         glTexImage2D width height;
         glBindTexture 0;
         glBindRenderbuffer (m_depthBuffer f);
         glRenderbufferStorage width height;
         glBindRenderbuffer 0;
         glBindFramebuffer (m_framebuffer f);
         glFramebufferTexture2D (m_renderTexture f);
         glFramebufferRenderbuffer (m_depthBuffer f);
         glDrawBuffers;
         glCheckFramebufferStatus] f in
      let f :=
        if negb (resize_status env =? GL_FRAMEBUFFER_COMPLETE)
        then f   (* LOG(LERROR, ...) *)
        else f in
      let f := native [glViewport width height; glScissor width height;
                       glBindFramebuffer 0] f in
      let f := if resize_prev_context env
               then native [wglMakeCurrent previous_glrc] f
               else native [wglMakeCurrent no_glrc] f in
      let f := f<|m_width := width|><|m_height := height|> in
      snd (CreateSharedTexture (resize_shared env) width height f).

(** *** CopyToSharedTexture: the per-frame transfer *)

Inductive SyncResult := S_OK | WAIT_TIMEOUT | E_FAILED.

Record CopyEnv := {
  was_our_context : bool;       (* prevContext == m_drawGlrc *)
  copy_prev_context : bool;     (* prevContext != nullptr *)
  viewport_width : Z;
  viewport_height : Z;
  acquire_sync : SyncResult;
  copy_lock_objects : bool;
  map_staging : bool
}.

(** The transfer strategy a frame uses. *)
Definition useInterop (f : Factory) : bool :=
  let hasInteropFns := m_wglDXLockObjectsNV f && m_wglDXUnlockObjectsNV f in
  m_interopObject f && negb (m_interopFramebuffer f =? 0)
  && m_interopDevice f && hasInteropFns.

(** The size read back: the viewport, or the surface size when the
    viewport is empty, clamped to the surface size. *)
Definition read_size (env : CopyEnv) (f : Factory) : Z * Z :=
  let readWidth := viewport_width env in
  let readHeight := viewport_height env in
  let '(readWidth, readHeight) :=
    if (readWidth <=? 0) || (readHeight <=? 0)
    then (m_width f, m_height f) else (readWidth, readHeight) in
  let readWidth := if m_width f <? readWidth then m_width f else readWidth in
  let readHeight := if m_height f <? readHeight then m_height f else readHeight in
  (readWidth, readHeight).

(** The block [// ZERO-COPY PATH]. *)
Definition zero_copy_path (env : CopyEnv) (fboToRead readWidth readHeight : Z)
    (f : Factory) : Factory :=
  let f := native [glFinish] f in
  let locked :=
    if m_keyedMutex f then
      match acquire_sync env with
      | S_OK => true
      | WAIT_TIMEOUT => false
      | E_FAILED => false
      end
    else true in
  let f := if m_keyedMutex f then native [AcquireSync 0] f else f in
  if locked then
    let f := native [wglDXLockObjectsNV] f in
    let f :=
      if copy_lock_objects env then
        native [DrawOverlayText fboToRead;
                glBindReadFramebuffer fboToRead;
                glBindDrawFramebuffer (m_interopFramebuffer f);
                glBlitFramebuffer_flipped readWidth readHeight;
                wglDXUnlockObjectsNV] f
      else f in
    if m_keyedMutex f then native [ReleaseSync 1] f else f
  else f.

(** The block [// FALBACK PATH (CPU COPY)]. *)
Definition cpu_copy_path (env : CopyEnv) (fboToRead readWidth readHeight : Z)
    (f : Factory) : Factory :=
  let f := native [glBindFramebuffer fboToRead;
                   glCheckFramebufferStatus;
                   DrawOverlayText fboToRead;
                   glFinish;
                   glReadPixels readWidth readHeight;
                   glBindFramebuffer 0;
                   Map_staging] f in
  if map_staging env then
    let f := native [Unmap_staging] f in
    let f := if m_keyedMutex f then native [AcquireSync 0] f else f in
    let f := native [CopyResource] f in
    if m_keyedMutex f then native [ReleaseSync 1] f else f
  else f.

Definition CopyToSharedTexture (env : CopyEnv) (f : Factory) : Factory :=
  let interop := useInterop f in
  if negb interop && (negb (m_stagingTexture f) || negb (m_sharedTexture f))
  then f
  else
    let f := if negb (was_our_context env)
             then native [wglMakeCurrent draw_glrc] f else f in
    let fboToRead :=
      if m_lastBoundFramebuffer f =? 0 then m_framebuffer f
      else m_lastBoundFramebuffer f in
    let f := native [glGetIntegerv_viewport] f in
    let readWidth := fst (read_size env f) in
    let readHeight := snd (read_size env f) in
    let f := f<|m_renderedWidth := readWidth|><|m_renderedHeight := readHeight|> in
    let f :=
      if interop then zero_copy_path env fboToRead readWidth readHeight f
      else cpu_copy_path env fboToRead readWidth readHeight f in
    if negb (was_our_context env) then
      if copy_prev_context env then native [wglMakeCurrent previous_glrc] f
      else native [wglMakeCurrent no_glrc] f
    else f.

Definition OnFrameReady (env : CopyEnv) (f : Factory) : Factory :=
  let f := CopyToSharedTexture env f in
  if m_frameCallback f then f<|frame_callbacks ::= S|> else f.

Definition RequestActiveFrame (f : Factory) : Factory :=
  if m_keepAliveCallback f then f<|keep_alive_callbacks ::= S|> else f.

(** *** The wrappers *)

Definition GetDrawContext (f : Factory) : option Ctx.t * Factory :=
  let f :=
    match m_drawContext f with
    | None =>
        f<|m_drawContext :=
             Some {| Ctx.m_glrc := m_drawGlrc f; Ctx.m_isDraw := true;
                     Ctx.m_initialFrameCount := 120 |}|>
    | Some _ => f
    end in
  (m_drawContext f, f).

Definition GetResourcesUploadContext (f : Factory) : option Ctx.t * Factory :=
  let f :=
    match m_uploadContext f with
    | None =>
        f<|m_uploadContext :=
             Some {| Ctx.m_glrc := m_uploadGlrc f; Ctx.m_isDraw := false;
                     Ctx.m_initialFrameCount := 120 |}|>
    | Some _ => f
    end in
  (m_uploadContext f, f).

(** [AgusWglContext::Present()]: the wrapper and the factory afterwards. *)
Definition Present (env : CopyEnv) (c : Ctx.t) (f : Factory) : Ctx.t * Factory :=
  if Ctx.m_isDraw c then
    let f := OnFrameReady env f in
    if 0 <? Ctx.m_initialFrameCount c then
      (c<|Ctx.m_initialFrameCount ::= fun n => n - 1|>, RequestActiveFrame f)
    else (c, f)
  else (c, f).

(** [AgusWglContext::Resize(w, h)]. *)
Definition Resize (env : ResizeEnv) (w h : Z) (f : Factory) : Factory :=
  SetSurfaceSize env w h f.

(** Number of registration attempts recorded in a log. *)
Definition is_registration (c : NativeCall) : bool :=
  match c with wglDXRegisterObjectNV _ _ => true | _ => false end.

Definition registrations (log : list NativeCall) : nat :=
  length (List.filter is_registration log).

(** The frame went through the interop blit / through the CPU read-back. *)
Definition is_blit (c : NativeCall) : bool :=
  match c with glBlitFramebuffer_flipped _ _ => true | _ => false end.

Definition is_readback (c : NativeCall) : bool :=
  match c with glReadPixels _ _ => true | _ => false end.

Definition blits (log : list NativeCall) : nat :=
  length (List.filter is_blit log).

Definition readbacks (log : list NativeCall) : nat :=
  length (List.filter is_readback log).

(** A call that may occur in a frame on the CPU path / on the interop
    path: no registration, and no transfer of the other strategy. *)
Definition cpu_frame_call (c : NativeCall) : bool :=
  negb (is_registration c) && negb (is_blit c).

Definition interop_frame_call (c : NativeCall) : bool :=
  negb (is_registration c) && negb (is_readback c).

(** Everything the choice of the transfer strategy depends on. *)
Definition interop_state (f : Factory) :=
  (m_interopObject f, m_interopFramebuffer f, m_interopDevice f,
   m_wglDXLockObjectsNV f, m_wglDXUnlockObjectsNV f,
   m_stagingTexture f, m_sharedTexture f).

(** [g] is [f] after calls that all satisfy [allowed], with what the
    strategy depends on, the callbacks and the surface size unchanged. *)
Definition frame_of (allowed : NativeCall -> bool) (f g : Factory) : Prop :=
  interop_state g = interop_state f /\
  (m_frameCallback g, m_keepAliveCallback g) =
    (m_frameCallback f, m_keepAliveCallback f) /\
  (m_width g, m_height g) = (m_width f, m_height f) /\
  exists calls, native_log g = native_log f ++ calls /\
                forallb allowed calls = true.

(** The frames of a list of [Present] calls on the draw wrapper [c]. *)
Definition present_all (c : Ctx.t) (f : Factory) (frames : list CopyEnv)
  : Ctx.t * Factory :=
  fold_left (fun cf env => Present env (fst cf) (snd cf)) frames (c, f).

End Wgl.

(* ================================================================== *)
(** ** The frame-ready notifiers of the plugin glue *)
(* ================================================================== *)

(** [agus_maps_flutter.cpp] (JNI glue). Points of [steady_clock] are
    counted in nanoseconds. *)
Module Android.

Definition kMinFrameInterval : Z := 16 * 1000000.

(** The value of [g_javaVM->GetEnv(...)]. *)
Inductive GetEnvStatus := JNI_OK | JNI_EDETACHED | JNI_EVERSION.

(** What the Java VM answers during one call. *)
Record JniEnv := {
  get_env : GetEnvStatus;
  attach_current_thread : bool   (* AttachCurrentThread(...) == JNI_OK *)
}.

(** The globals of the notifier, with the number of [onFrameReady] calls
    made on the Java side. *)
Record Notifier := {
  g_lastFrameNotification : Z;
  g_frameNotificationPending : bool;
  g_javaVM : bool;
  g_pluginInstance : bool;
  g_notifyFrameReadyMethod : bool;
  delivered : nat
}.

Definition notifyFlutterFrameReady (s : Notifier) (call : Z * JniEnv)
  : Notifier :=
  let '(now, jni) := call in
  let elapsed := now - g_lastFrameNotification s in
  if elapsed <? kMinFrameInterval then s
  else if g_frameNotificationPending s then s   (* compare_exchange_strong fails *)
  else
    let s := s<|g_frameNotificationPending := true|> in
    let s := s<|g_lastFrameNotification := now|> in
    if g_javaVM s && g_pluginInstance s && g_notifyFrameReadyMethod s then
      match get_env jni with
      | JNI_EDETACHED =>
          if attach_current_thread jni
          then s<|delivered ::= S|><|g_frameNotificationPending := false|>
          else s<|g_frameNotificationPending := false|>
      | JNI_OK => s<|delivered ::= S|><|g_frameNotificationPending := false|>
      | JNI_EVERSION => s<|g_frameNotificationPending := false|>   (* env == nullptr *)
      end
    else s<|g_frameNotificationPending := false|>.

Definition notify_all (s : Notifier) (calls : list (Z * JniEnv)) : Notifier :=
  fold_left notifyFlutterFrameReady calls s.

(** The notification can reach the Java side. *)
Definition can_deliver (s : Notifier) (jni : JniEnv) : bool :=
  g_javaVM s && g_pluginInstance s && g_notifyFrameReadyMethod s
  && match get_env jni with
     | JNI_OK => true
     | JNI_EDETACHED => attach_current_thread jni
     | JNI_EVERSION => false
     end.

End Android.

(** [agus_maps_flutter_linux.cpp]: the function installed as the frame
    callback of the EGL factory. *)
Module Linux.

Record Notifier := {
  g_keepAliveCounter : Z;
  g_framework : bool;
  g_frameReadyCallback : bool;
  make_frame_active : nat;   (* calls of g_framework->MakeFrameActive() *)
  delivered : nat            (* calls of g_frameReadyCallback() *)
}.

Definition notifyFlutterFrameReady (s : Notifier) : Notifier :=
  let s :=
    if 0 <? g_keepAliveCounter s then
      let s := s<|g_keepAliveCounter ::= fun n => n - 1|> in
      if g_framework s then s<|make_frame_active ::= S|> else s
    else s in
  if g_frameReadyCallback s then s<|delivered ::= S|> else s.

(** The frame callback runs once per [OnFrameReady]: the notifier after
    the [n] invocations a run of the factory made. *)
Definition after_callbacks (n : nat) (s : Notifier) : Notifier :=
  Nat.iter n notifyFlutterFrameReady s.

End Linux.

(* ================================================================== *)
(** ** Concrete drivers and scenarios *)
(* ================================================================== *)

Module Scenario.

(** An EGL implementation on which everything succeeds. *)
Definition egl : Egl.EglEnv := {|
  Egl.client_platform_base := true;
  Egl.client_platform_surfaceless := false;
  Egl.default_display := true;
  Egl.platform_display_proc := false;
  Egl.platform_display := false;
  Egl.initialize_ok := true;
  Egl.display_surfaceless_context := true;
  Egl.bind_api_ok := true;
  Egl.choose_config := fun _ => (true, 1);
  Egl.choose_minimal_config := (true, 1);
  Egl.draw_pbuffer := true;
  Egl.upload_pbuffer := true;
  Egl.draw_context := true;
  Egl.upload_context := true
|}.

Definition framebuffer (status : Z) : Egl.FramebufferEnv := {|
  Egl.make_current := true;
  Egl.gen_framebuffer := 1;
  Egl.gen_texture := 1;
  Egl.gen_renderbuffer := 1;
  Egl.framebuffer_status := status
|}.

Definition GL_FRAMEBUFFER_INCOMPLETE_ATTACHMENT : Z := 0x8CD6.
Definition GL_INVALID_OPERATION : Z := 0x0502.

(** A two-tone test pattern on a surface two pixels wide: the bottom row
    of the GL image (the first 8 bytes read back) is [x01], everything
    above it is [x02]. *)
Definition two_tone (i : nat) : byte :=
  if (i <? 8)%nat then Byte.x01 else Byte.x02.

Definition frame (status error : Z) : Egl.FrameEnv := {|
  Egl.resize_status := status;
  Egl.read_pixels := two_tone;
  Egl.read_error := error
|}.

Definition frame_ok : Egl.FrameEnv := frame Egl.GL_FRAMEBUFFER_COMPLETE Egl.GL_NO_ERROR.

(** A factory for a 2 x 2 surface whose draw context has been fetched. *)
Definition egl_2x2 : Egl.Factory :=
  Egl.run (Egl.AgusEglContextFactory egl 2 2)
    [Egl.call_GetDrawContext (framebuffer Egl.GL_FRAMEBUFFER_COMPLETE);
     Egl.call_SetFrameCallback true].

(** The same factory after one presented frame. *)
Definition egl_2x2_frame : Egl.Factory :=
  Egl.run egl_2x2 [Egl.call_Present Egl.Draw frame_ok].

(** A WGL implementation on which everything succeeds. *)
Definition wgl : Wgl.WglEnv := {|
  Wgl.register_class := true;
  Wgl.create_window := true;
  Wgl.get_dc := true;
  Wgl.choose_pixel_format := true;
  Wgl.set_pixel_format := true;
  Wgl.create_draw_context := true;
  Wgl.create_upload_context := true;
  Wgl.load_fbo_extensions := true;
  Wgl.proc_wglDXOpenDeviceNV := true;
  Wgl.proc_wglDXCloseDeviceNV := true;
  Wgl.proc_wglDXRegisterObjectNV := true;
  Wgl.proc_wglDXUnregisterObjectNV := true;
  Wgl.proc_wglDXLockObjectsNV := true;
  Wgl.proc_wglDXUnlockObjectsNV := true;
  Wgl.gen_framebuffer := 1;
  Wgl.gen_texture := 1;
  Wgl.gen_renderbuffer := 1;
  Wgl.framebuffer_status := Wgl.GL_FRAMEBUFFER_COMPLETE
|}.

Definition d3d : Wgl.D3DEnv := {|
  Wgl.preferred_adapter := true;
  Wgl.create_on_preferred := true;
  Wgl.create_on_default := true
|}.

(** One registration attempt that is answered with [registered]. *)
Definition interop (name : Z) (registered : bool) : Wgl.InteropEnv := {|
  Wgl.gen_name := name;
  Wgl.register_object := registered;
  Wgl.lock_objects := true;
  Wgl.gen_interop_framebuffer := 2;
  Wgl.interop_status := Wgl.GL_FRAMEBUFFER_COMPLETE
|}.

(** [CreateSharedTexture] on a device where every D3D11 call succeeds and
    the interop registration is answered with [registered]. *)
Definition shared (registered : bool) : Wgl.SharedTextureEnv := {|
  Wgl.context_is_current := false;
  Wgl.prev_context := false;
  Wgl.make_current := true;
  Wgl.keyed_mutex_requested := false;
  Wgl.create_shared := true;
  Wgl.as_dxgi_resource := true;
  Wgl.get_shared_handle := true;
  Wgl.as_keyed_mutex := true;
  Wgl.open_device := true;
  Wgl.texture_interop := interop 2 registered;
  Wgl.renderbuffer_interop := interop 3 registered;
  Wgl.create_staging := true
|}.

Definition resize (status : Z) (registered : bool) : Wgl.ResizeEnv := {|
  Wgl.resize_prev_context := false;
  Wgl.resize_make_current := true;
  Wgl.resize_status := status;
  Wgl.resize_shared := shared registered
|}.

Definition copy : Wgl.CopyEnv := {|
  Wgl.was_our_context := true;
  Wgl.copy_prev_context := true;
  Wgl.viewport_width := 800;
  Wgl.viewport_height := 600;
  Wgl.acquire_sync := Wgl.S_OK;
  Wgl.copy_lock_objects := true;
  Wgl.map_staging := true
|}.

(** A WGL factory of 800 x 600 whose interop registration was refused at
    construction. *)
Definition wgl_fallback : Wgl.Factory :=
  Wgl.AgusWglContextFactory
    {| Wgl.wgl_env := wgl; Wgl.d3d_env := d3d; Wgl.shared_env := shared false |}
    800 600.

(** The JNI glue with the callback registered, never notified so far. *)
Definition android : Android.Notifier := {|
  Android.g_lastFrameNotification := 0;
  Android.g_frameNotificationPending := false;
  Android.g_javaVM := true;
  Android.g_pluginInstance := true;
  Android.g_notifyFrameReadyMethod := true;
  Android.delivered := 0
|}.

Definition attached : Android.JniEnv := {|
  Android.get_env := Android.JNI_OK;
  Android.attach_current_thread := true
|}.


End Scenario.

(* ================================================================== *)
(** ** The EGL factory: accessors, extension query and tear-down *)
(* ================================================================== *)

Module EglSupport.
Import Egl.

Definition GetWidth (f : Factory) : Z := m_width f.
Definition GetHeight (f : Factory) : Z := m_height f.
Definition IsDrawContextCreated (f : Factory) : bool :=
  match m_drawContext f with Some _ => true | None => false end.
Definition IsUploadContextCreated (f : Factory) : bool :=
  match m_uploadContext f with Some _ => true | None => false end.

(** *** HasEglExtension *)

(** [needle] is an initial segment of [s]. *)
Fixpoint starts_with (needle s : list byte) : bool :=
  match needle, s with
  | [], _ => true
  | _ :: _, [] => false
  | n :: needle', c :: s' => Byte.eqb n c && starts_with needle' s'
  end.

(** [strstr(haystack, needle)] on the characters before the terminating
    zero: the offset of the first occurrence, [None] for a null result. *)
Fixpoint strstr (haystack needle : list byte) : option nat :=
  match haystack with
  | [] => if starts_with needle [] then Some 0%nat else None
  | _ :: rest =>
      if starts_with needle haystack then Some 0%nat
      else option_map S (strstr rest needle)
  end.

(** [extensions] is the answer of [eglQueryString(..., EGL_EXTENSIONS)],
    [None] a null pointer. *)
Definition HasEglExtension (extensions : option (list byte))
    (extension : list byte) : bool :=
  match extensions with
  | None => false
  | Some e =>
      match strstr e extension with
      | Some _ => true
      | None => false
      end
  end.

(** *** Tear-down *)

(** The calls that release EGL and GL objects. *)
Inductive ReleaseCall :=
| eglMakeCurrent_draw     (* eglMakeCurrent(m_display, surf, surf, m_drawEglContext) *)
| eglMakeCurrent_none     (* eglMakeCurrent(m_display, NO_SURFACE, NO_SURFACE, NO_CONTEXT) *)
| glDeleteFramebuffers (framebuffer : Z)
| glDeleteTextures (texture : Z)
| glDeleteRenderbuffers (renderbuffer : Z)
| eglDestroyContext (r : Role)
| eglDestroySurface (r : Role)
| eglTerminate.

(** A factory being torn down, with the release calls made so far. *)
Definition Teardown := (Factory * list ReleaseCall)%type.

Definition release (calls : list ReleaseCall) (s : Teardown) : Teardown :=
  (fst s, snd s ++ calls).

Definition update (k : Factory -> Factory) (s : Teardown) : Teardown :=
  (k (fst s), snd s).

Definition CleanupFramebuffer (s : Teardown) : Teardown :=
  if m_drawEglContext (fst s) then
    let s := release [eglMakeCurrent_draw] s in
    let s :=
      if negb (m_framebuffer (fst s) =? 0) then
        update (fun f => f<|m_framebuffer := 0|>)
          (release [glDeleteFramebuffers (m_framebuffer (fst s))] s)
      else s in
    let s :=
      if negb (m_renderTexture (fst s) =? 0) then
        update (fun f => f<|m_renderTexture := 0|>)
          (release [glDeleteTextures (m_renderTexture (fst s))] s)
      else s in
    let s :=
      if negb (m_depthStencilBuffer (fst s) =? 0) then
        update (fun f => f<|m_depthStencilBuffer := 0|>)
          (release [glDeleteRenderbuffers (m_depthStencilBuffer (fst s))] s)
      else s in
    release [eglMakeCurrent_none] s
  else s.

Definition CleanupEGL (s : Teardown) : Teardown :=
  if m_display (fst s) then
    let s := release [eglMakeCurrent_none] s in
    let s :=
      if m_drawEglContext (fst s) then
        update (fun f => f<|m_drawEglContext := false|>)
          (release [eglDestroyContext Draw] s)
      else s in
    let s :=
      if m_uploadEglContext (fst s) then
        update (fun f => f<|m_uploadEglContext := false|>)
          (release [eglDestroyContext Upload] s)
      else s in
    let s :=
      if m_drawSurface (fst s) then
        update (fun f => f<|m_drawSurface := false|>)
          (release [eglDestroySurface Draw] s)
      else s in
    let s :=
      if m_uploadSurface (fst s) then
        update (fun f => f<|m_uploadSurface := false|>)
          (release [eglDestroySurface Upload] s)
      else s in
    update (fun f => f<|m_display := false|>) (release [eglTerminate] s)
  else s.

(** The destructor [~AgusEglContextFactory()]. *)
Definition destroy (f : Factory) : Teardown :=
  let f := f<|m_drawContext := None|> in
  let f := f<|m_uploadContext := None|> in
  CleanupEGL (CleanupFramebuffer (f, [])).

(** The deletions of GL objects among the release calls. *)
Definition is_gl_deletion (c : ReleaseCall) : bool :=
  match c with
  | glDeleteFramebuffers _ | glDeleteTextures _ | glDeleteRenderbuffers _ => true
  | _ => false
  end.

Definition gl_deletions (log : list ReleaseCall) : list ReleaseCall :=
  List.filter is_gl_deletion log.

(** The deletions a factory holding the names [(fb, tex, rb)] owes. *)
Definition owed_deletions (names : Z * Z * Z) : list ReleaseCall :=
  let '(fb, tex, rb) := names in
  (if fb =? 0 then [] else [glDeleteFramebuffers fb]) ++
  (if tex =? 0 then [] else [glDeleteTextures tex]) ++
  (if rb =? 0 then [] else [glDeleteRenderbuffers rb]).

(** The destructions of EGL objects a factory holding [handles] owes. *)
Definition owed_destructions (h : bool * bool * bool * bool * bool)
  : list ReleaseCall :=
  let '(display, drawContext, uploadContext, drawSurface, uploadSurface) := h in
  if display then
    (if drawContext then [eglDestroyContext Draw] else []) ++
    (if uploadContext then [eglDestroyContext Upload] else []) ++
    (if drawSurface then [eglDestroySurface Draw] else []) ++
    (if uploadSurface then [eglDestroySurface Upload] else []) ++
    [eglTerminate]
  else [].

Definition is_egl_destruction (c : ReleaseCall) : bool :=
  match c with
  | eglDestroyContext _ | eglDestroySurface _ | eglTerminate => true
  | _ => false
  end.

(** *** Views used in the statements *)

(** The EGL objects [InitializeEGL] acquires. *)
Definition handles (f : Factory) :=
  (m_display f, m_drawEglContext f, m_uploadEglContext f,
   m_drawSurface f, m_uploadSurface f).

(** The names of the GL objects [CreateFramebuffer] generates. *)
Definition gl_names (f : Factory) :=
  (m_framebuffer f, m_renderTexture f, m_depthStencilBuffer f).

(** What the per-frame methods never write. *)
Definition setup (f : Factory) :=
  (handles f, m_useSurfaceless f, gl_names f,
   (m_initialized f, m_presentAvailable f, m_framebufferDeferred f,
    m_glFunctionsInitialized f),
   (m_frameCallback f, m_keepAliveCallback f,
    frame_callbacks f, keep_alive_callbacks f)).

(** No GL object exists unless there is a draw context to own it. *)
Definition names_owned (f : Factory) : Prop :=
  m_drawEglContext f = false ->
  m_framebufferDeferred f = false /\ gl_names f = (0, 0, 0).

(** What every entry point keeps: the EGL objects, and the ownership of
    the GL names; validity can be lost but not gained. *)
Definition kept (f g : Factory) : Prop :=
  handles g = handles f /\ m_useSurfaceless g = m_useSurfaceless f /\
  (m_initialized g = true -> m_initialized f = true) /\
  (names_owned f -> names_owned g).

(** The requests of a burst of resize events. *)
Definition resize_requests (sizes : list (Z * Z)) : list Call :=
  map (fun s => call_SetSurfaceSize (fst s) (snd s)) sizes.

End EglSupport.

(* ================================================================== *)
(** ** The WGL factory: accessors, counters and the CPU pixel copy *)
(* ================================================================== *)

Module WglSupport.
Import Wgl.

Definition GetWidth (f : Factory) : Z := m_width f.
Definition GetHeight (f : Factory) : Z := m_height f.
Definition GetSharedTextureHandle (f : Factory) : bool := m_sharedHandle f.
Definition GetFramebufferID (f : Factory) : Z := m_framebuffer f.

(** The callbacks and the number of times each was invoked. *)
Definition counters (f : Factory) :=
  (m_frameCallback f, m_keepAliveCallback f,
   frame_callbacks f, keep_alive_callbacks f).

(** The surface size and the published rendered size. *)
Definition sizes (f : Factory) :=
  (m_width f, m_height f, m_renderedWidth f, m_renderedHeight f).

(** Calls on the keyed mutex and on the interop lock. *)
Definition is_acquire (c : NativeCall) : bool :=
  match c with AcquireSync _ => true | _ => false end.

Definition is_release (c : NativeCall) : bool :=
  match c with ReleaseSync _ => true | _ => false end.

Definition is_lock (c : NativeCall) : bool :=
  match c with wglDXLockObjectsNV => true | _ => false end.

Definition is_unlock (c : NativeCall) : bool :=
  match c with wglDXUnlockObjectsNV => true | _ => false end.

Definition is_copy_resource (c : NativeCall) : bool :=
  match c with CopyResource => true | _ => false end.

Definition count (p : NativeCall -> bool) (log : list NativeCall) : nat :=
  length (List.filter p log).

(** [p] ignores the calls that save and restore the current context and
    query the viewport. *)
Definition ignores_context (p : NativeCall -> bool) : Prop :=
  (forall t, p (wglMakeCurrent t) = false) /\ p glGetIntegerv_viewport = false.

(** The frame reaches the GPU on the interop path: the keyed mutex, if
    any, is acquired, and the interop object is locked. *)
Definition mutex_held (env : CopyEnv) (f : Factory) : bool :=
  negb (m_keyedMutex f)
  || match acquire_sync env with S_OK => true | _ => false end.

Definition plus (b : bool) (n : nat) : nat := if b then S n else n.

(** *** The CPU copy of [CopyToSharedTexture] *)

(** [pixels] after [glReadPixels]: byte [i] is [read i]. *)
Definition read_back (read : nat -> byte) (readWidth readHeight : nat)
  : list byte :=
  map read (seq 0 (readWidth * readHeight * 4)).

(** [p[i]] for a byte pointer into a buffer. *)
Definition at_ (buf : list byte) (i : nat) : byte := nth i buf Byte.x00.

(** The body of the inner loop: one pixel, RGBA to BGRA. *)
Definition swizzle_pixel (pixels : list byte) (srcRow dstRow x : nat)
    (dst : list byte) : list byte :=
  let src := (srcRow + x * 4)%nat in
  let out := (dstRow + x * 4)%nat in
  let dst := <[out := at_ pixels (src + 2)]> dst in
  let dst := <[(out + 1)%nat := at_ pixels (src + 1)]> dst in
  let dst := <[(out + 2)%nat := at_ pixels src]> dst in
  <[(out + 3)%nat := at_ pixels (src + 3)]> dst.

(** [for (int x = 0; x < readWidth; ++x)]. *)
Definition swizzle_row (pixels : list byte) (readWidth srcRow dstRow : nat)
    (dst : list byte) : list byte :=
  fold_left (fun dst x => swizzle_pixel pixels srcRow dstRow x dst)
    (seq 0 readWidth) dst.

(** [for (int y = 0; y < readHeight; ++y)]. *)
Definition swizzle_rows (pixels : list byte)
    (readWidth readHeight rowPitch : nat) (dst : list byte) : list byte :=
  fold_left
    (fun dst y =>
       let srcRow := ((readHeight - 1 - y) * readWidth * 4)%nat in
       let dstRow := (y * rowPitch)%nat in
       swizzle_row pixels readWidth srcRow dstRow dst)
    (seq 0 readHeight) dst.

(** The mapped staging texture when it is unmapped: [memset] to zero over
    [RowPitch * m_height] bytes, then the rows. *)
Definition fill_staging (pixels : list byte)
    (readWidth readHeight rowPitch height : nat) : list byte :=
  swizzle_rows pixels readWidth readHeight rowPitch
    (replicate (rowPitch * height) Byte.x00).

(** The channel read for byte [k] of an output pixel. *)
Definition bgra (k : nat) : nat :=
  match k with
  | 0 => 2
  | 1 => 1
  | 2 => 0
  | _ => 3
  end%nat.

(** *** Construction and destruction *)

(** The window, the device context and the two GL contexts. *)
Definition window_objects (f : Factory) :=
  (m_hiddenWindow f, m_hdc f, m_drawGlrc f, m_uploadGlrc f).

(** The D3D11 device, the two textures and the shared handle. *)
Definition d3d_objects (f : Factory) :=
  (m_d3dDevice f, m_sharedTexture f, m_stagingTexture f, m_sharedHandle f).

(** The state of the interop registration. *)
Definition interop_objects (f : Factory) :=
  (m_interopDevice f, m_interopObject f, m_interopFramebuffer f,
   m_interopTexture f).

(** What the interop registration leaves alone. *)
Definition outside_interop (f : Factory) :=
  (window_objects f, d3d_objects f, m_keyedMutex f, m_useKeyedMutex f,
   m_width f, m_height f, m_wglDXOpenDeviceNV f, m_wglDXCloseDeviceNV f,
   m_wglDXUnregisterObjectNV f).

(** The answers of the driver, stage by stage: the window and both GL
    contexts are created; the GL functions load and the offscreen
    framebuffer is complete; a D3D11 device is created; the shared texture,
    its handle, its keyed mutex when one is requested, and the staging
    texture are created. *)
Definition contexts_created (w : WglEnv) : bool :=
  register_class w && create_window w && get_dc w
  && choose_pixel_format w && set_pixel_format w
  && create_draw_context w && create_upload_context w.

Definition gl_ready (w : WglEnv) : bool :=
  load_fbo_extensions w && (framebuffer_status w =? GL_FRAMEBUFFER_COMPLETE).

Definition device_created (d : D3DEnv) : bool :=
  (preferred_adapter d && create_on_preferred d) || create_on_default d.

Definition textures_created (s : SharedTextureEnv) : bool :=
  (context_is_current s || make_current s)
  && create_shared s && as_dxgi_resource s && get_shared_handle s
  && (negb (keyed_mutex_requested s) || as_keyed_mutex s)
  && create_staging s.

Definition all_steps_succeed (env : ConstructEnv) : bool :=
  contexts_created (wgl_env env) && gl_ready (wgl_env env)
  && device_created (d3d_env env) && textures_created (shared_env env).

(** The destructor [~AgusWglContextFactory()]. The display lists and the
    GDI font of the diagnostics overlay, which the factory record does not
    hold, are left out. *)
Definition destroy (f : Factory) : Factory :=
  let f := f<|m_drawContext := None|><|m_uploadContext := None|> in
  let f :=
    if m_drawGlrc f then
      let f := native [wglMakeCurrent draw_glrc] f in
      let f := if negb (m_framebuffer f =? 0)
               then native [glDeleteFramebuffers (m_framebuffer f)] f else f in
      let f := if negb (m_renderTexture f =? 0)
               then native [glDeleteTextures (m_renderTexture f)] f else f in
      let f := if negb (m_depthBuffer f =? 0)
               then native [glDeleteRenderbuffers (m_depthBuffer f)] f else f in
      let f := if negb (m_interopRenderbuffer f =? 0)
               then (native [glDeleteRenderbuffers (m_interopRenderbuffer f)] f)
                      <|m_interopRenderbuffer := 0|> else f in
      native [wglMakeCurrent no_glrc] f
    else f in
  CleanupD3D11 (CleanupWGL f).

(** The calls that end the interop registration. *)
Definition ends_interop (c : NativeCall) : bool :=
  match c with
  | wglDXUnregisterObjectNV | wglDXCloseDeviceNV => true
  | _ => false
  end.

(** The GL names [glDelete*] is called on. *)
Definition deleted (c : NativeCall) : option Z :=
  match c with
  | glDeleteFramebuffers n | glDeleteTextures n | glDeleteRenderbuffers n =>
      Some n
  | _ => None
  end.

(** The GL names the factory created for its offscreen framebuffer and
    for the interop renderbuffer, without the unset ones. *)
Definition owed_deletions (f : Factory) : list Z :=
  List.filter (fun n => negb (n =? 0))
    [m_framebuffer f; m_renderTexture f; m_depthBuffer f;
     m_interopRenderbuffer f].

(** What the GL deletions of the destructor leave alone. *)
Definition outside_deletions (f : Factory) :=
  (window_objects f, d3d_objects f, m_interopDevice f, m_interopObject f,
   m_framebuffer f, m_renderTexture f, m_depthBuffer f,
   m_drawContext f, m_uploadContext f).

Definition is_close_handle (c : NativeCall) : bool :=
  match c with CloseHandle => true | _ => false end.

(** [g] is [f] after further native calls: its log extends the log of
    [f]. *)
Definition extends (f g : Factory) : Prop :=
  exists calls, native_log g = native_log f ++ calls.

(** A read-back whose eight bytes are all different: two rows of one
    pixel. *)
Definition ramp (i : nat) : byte :=
  nth i [Byte.x01; Byte.x02; Byte.x03; Byte.x04;
         Byte.x05; Byte.x06; Byte.x07; Byte.x08] Byte.x00.

End WglSupport.

(* ================================================================== *)
(** ** The JNI glue: callback registration and the position mode *)
(* ================================================================== *)

Module AndroidGlue.
Import Android.

(** What the Java VM answers during [nativeInitFrameCallback]: the result
    of [NewGlobalRef(thiz)] and of [GetMethodID(cls, "onFrameReady", "()V")],
    each [false] for a null result. *)
Record InitEnv := {
  new_global_ref : bool;
  method_onFrameReady : bool
}.

(** [nativeInitFrameCallback], on the globals the frame notifier reads. *)
Definition nativeInitFrameCallback (env : InitEnv) (s : Notifier) : Notifier :=
  let s := s<|g_pluginInstance := new_global_ref env|> in
  s<|g_notifyFrameReadyMethod := method_onFrameReady env|>.

(** [nativeCleanupFrameCallback], on the same globals. *)
Definition nativeCleanupFrameCallback (s : Notifier) : Notifier :=
  let s := if g_pluginInstance s then s<|g_pluginInstance := false|> else s in
  s<|g_notifyFrameReadyMethod := false|>.

(** Time of every call of a list of notifier calls is at most [t]. *)
Definition before (t : Z) (calls : list (Z * JniEnv)) : Prop :=
  Forall (fun call => fst call <= t) calls.

(** *** nativeSetMyPositionMode *)

Definition maxAttempts : nat := 5.

(** The loop [while (currentMode != mode && attempts < maxAttempts)] with
    [left = maxAttempts - attempts] iterations left: the mode read last and
    the number of calls of [SwitchMyPositionNextMode]. [modes k] is what
    [GetMyPositionMode] answers after [k] switches. *)
Fixpoint switch_until (modes : nat -> Z) (mode : Z) (left attempts : nat)
  : Z * nat :=
  match left with
  | O => (modes attempts, attempts)
  | S left' =>
      if modes attempts =? mode then (modes attempts, attempts)
      else switch_until modes mode left' (S attempts)
  end.

(** [ready] is [g_framework && g_drapeEngineCreated]; the result is [None]
    when the function returns before it reads the mode. *)
Definition nativeSetMyPositionMode (ready : bool) (modes : nat -> Z)
    (mode : Z) : option (Z * nat) :=
  if negb ready then None
  else Some (switch_until modes mode maxAttempts O).

End AndroidGlue.

(* ================================================================== *)
(** ** Proof tools *)
(* ================================================================== *)

(** Case analysis on every test of a straight-line method body. *)
Ltac case_ifs :=
  repeat (cbv beta iota zeta;
          match goal with
          | |- context [if ?c then _ else _] => destruct c eqn:?
          | |- context [match ?o with Some _ => _ | None => _ end] =>
              destruct o eqn:?
          end);
  cbv beta iota zeta; cbn [fst snd].

(** Turn the recorded outcomes of boolean tests into usable facts. *)
Ltac bool_hyps :=
  repeat match goal with
         | H : negb _ = true |- _ => apply negb_true_iff in H
         | H : negb _ = false |- _ => apply negb_false_iff in H
         | H : _ && _ = true |- _ => apply andb_true_iff in H; destruct H
         | H : _ || _ = false |- _ => apply orb_false_iff in H; destruct H
         end.

(** Compute the fields of updated records. *)
Ltac record_simpl := cbn in *; unfold constant in *; cbn in *.

Ltac close_case :=
  bool_hyps; record_simpl; subst; first [reflexivity | congruence | lia].

(* ================================================================== *)
(** ** Buffers: copies, rows and the vertical flip *)
(* ================================================================== *)

Section Buffers.

Implicit Types (dst src buf temp : list byte) (doff soff n i y : nat).

Lemma length_memcpy dst doff src soff n :
  (doff + n <= length dst)%nat -> (soff + n <= length src)%nat ->
  length (memcpy dst doff src soff n) = length dst.
Proof.
  intros Hd Hs. unfold memcpy.
  rewrite !length_app, !length_take, !length_drop. lia.
Qed.

(** A byte of the destination after the copy: inside the copied range it
    is the corresponding source byte, outside it is what it was. *)
Lemma lookup_memcpy dst doff src soff n i :
  (doff + n <= length dst)%nat -> (soff + n <= length src)%nat ->
  memcpy dst doff src soff n !! i =
    if decide (doff <= i < doff + n)%nat
    then src !! (soff + (i - doff))%nat
    else dst !! i.
Proof.
  intros Hd Hs. unfold memcpy.
  destruct (decide (i < doff)%nat) as [Hlt|Hge].
  - rewrite lookup_app_l by (rewrite length_take; lia).
    rewrite lookup_take_lt by lia.
    destruct (decide _) as [H|H]; [lia|done].
  - rewrite lookup_app_r by (rewrite length_take; lia).
    rewrite length_take, Nat.min_l by lia.
    destruct (decide (i - doff < n)%nat) as [Hin|Hout].
    + rewrite lookup_app_l by (rewrite length_take, length_drop; lia).
      rewrite lookup_take_lt by lia. rewrite lookup_drop.
      destruct (decide _) as [H|H]; [done|lia].
    + rewrite lookup_app_r by (rewrite length_take, length_drop; lia).
      rewrite length_take, length_drop, Nat.min_l by lia.
      rewrite lookup_drop.
      destruct (decide _) as [H|H]; [lia|].
      f_equal. lia.
Qed.

Lemma length_vector_resize n (v : list byte) : length (vector_resize n v) = n.
Proof.
  unfold vector_resize. rewrite length_app, length_take, length_replicate. lia.
Qed.

Lemma length_tempBuffer env n : length (Egl.tempBuffer env n) = n.
Proof. unfold Egl.tempBuffer. now rewrite length_map, length_seq. Qed.

(** The state of the flip loop after its first [k] iterations. *)
Lemma flip_rows_prefix height rowSize temp buf k :
  (k <= height)%nat ->
  length temp = (height * rowSize)%nat ->
  length buf = (height * rowSize)%nat ->
  let out := fold_left
    (fun b y => memcpy b (y * rowSize) temp ((height - 1 - y) * rowSize) rowSize)
    (seq 0 k) buf in
  length out = (height * rowSize)%nat /\
  (forall y j, (y < k)%nat -> (j < rowSize)%nat ->
     out !! (y * rowSize + j)%nat = temp !! ((height - 1 - y) * rowSize + j)%nat) /\
  (forall i, (k * rowSize <= i)%nat -> out !! i = buf !! i).
Proof.
  intros Hk Htemp Hbuf. induction k as [|k IH]; cbv zeta.
  - simpl. split; [done|]. split; [intros; lia|done].
  - rewrite seq_S, fold_left_app. simpl.
    destruct IH as (Hlen & Hrows & Hrest); [lia|].
    set (prev := fold_left _ (seq 0 k) buf) in *.
    assert (Hd : (k * rowSize + rowSize <= length prev)%nat) by (rewrite Hlen; nia).
    assert (Hs : ((height - 1 - k) * rowSize + rowSize <= length temp)%nat)
      by (rewrite Htemp; nia).
    split; [rewrite length_memcpy; auto|]. split.
    + intros y j Hy Hj. rewrite lookup_memcpy by assumption.
      destruct (decide (y = k)) as [->|Hne].
      * destruct (decide _) as [H|H]; [f_equal; lia|lia].
      * destruct (decide _) as [H|H]; [nia|]. apply Hrows; lia.
    + intros i Hi. rewrite lookup_memcpy by assumption.
      destruct (decide _) as [H|H]; [nia|]. apply Hrest. nia.
Qed.

(** After the whole loop every row of the output is the mirrored row of the
    read-back. *)
Lemma flip_rows_spec height rowSize temp buf :
  length temp = (height * rowSize)%nat ->
  length buf = (height * rowSize)%nat ->
  length (Egl.flip_rows height rowSize temp buf) = (height * rowSize)%nat /\
  forall y, (y < height)%nat ->
    row rowSize y (Egl.flip_rows height rowSize temp buf) =
    row rowSize (height - 1 - y) temp.
Proof.
  intros Htemp Hbuf.
  destruct (flip_rows_prefix height rowSize temp buf height) as (Hlen & Hrows & _);
    [lia|assumption|assumption|].
  split; [exact Hlen|].
  intros y Hy. unfold row. apply list_eq. intros j.
  destruct (decide (j < rowSize)%nat) as [Hj|Hj].
  - rewrite !lookup_take_lt, !lookup_drop by lia. now apply Hrows.
  - rewrite !lookup_take_ge by lia. done.
Qed.

End Buffers.

(* ================================================================== *)
(** ** The EGL factory: what each method leaves alone *)
(* ================================================================== *)

Section EglFrames.

Import Egl.

Lemma create_pbuffers_surface_state env b f :
  surface_state (snd (create_pbuffers env b f)) = surface_state f.
Proof.
  unfold create_pbuffers.
  repeat match goal with
         | |- context [if ?c then _ else _] => destruct c
         end; reflexivity.
Qed.

Lemma InitializeEGL_surface_state env f :
  surface_state (snd (InitializeEGL env f)) = surface_state f.
Proof.
  unfold InitializeEGL. cbv zeta.
  repeat match goal with
         | |- context [if ?c then _ else _] => destruct c; try reflexivity
         end.
  all: match goal with
       | |- context [create_pbuffers ?e ?b ?g] =>
           pose proof (create_pbuffers_surface_state e b g) as Hpb;
           destruct (create_pbuffers e b g) as [ok g']; cbn [snd] in Hpb
       end.
  all: repeat match goal with
         | |- context [if ?c then _ else _] => destruct c; try reflexivity
         end.
  all: cbn [snd]; (etransitivity; [|exact Hpb]); reflexivity.
Qed.

End EglFrames.

(* ================================================================== *)
(** ** The EGL factory: what each method changes *)
(* ================================================================== *)

Section EglMethods.

Import Egl.

#[local] Arguments CreateFramebuffer : simpl never.
#[local] Arguments CheckPendingResize : simpl never.
#[local] Arguments ApplyPendingResize : simpl never.
#[local] Arguments CaptureFramePixels : simpl never.
#[local] Arguments OnFrameReady : simpl never.

Lemma storage_sizes_app l1 l2 :
  storage_sizes (l1 ++ l2) = storage_sizes l1 ++ storage_sizes l2.
Proof. unfold storage_sizes. apply List.filter_app. Qed.

(** Issuing GPU calls changes the log and nothing else. *)
Lemma gpu_view calls f :
  view (gpu calls f) =
  (wrappers f, m_pixelBuffer f, geometry f, pending f,
   storage_sizes (gpu_log f) ++ storage_sizes calls).
Proof.
  unfold view, wrappers, geometry, pending, gpu. destruct f; cbn.
  now rewrite storage_sizes_app.
Qed.

Lemma SetSurfaceSize_frame w h f :
  wrappers (SetSurfaceSize w h f) = wrappers f /\
  m_pixelBuffer (SetSurfaceSize w h f) = m_pixelBuffer f /\
  geometry (SetSurfaceSize w h f) = geometry f /\
  gpu_log (SetSurfaceSize w h f) = gpu_log f.
Proof. unfold SetSurfaceSize. case_ifs; repeat split; reflexivity. Qed.

Lemma ApplyPendingResize_view status f :
  view (ApplyPendingResize status f) =
  (wrappers f, m_pixelBuffer f,
   (m_pendingWidth f, m_pendingHeight f, m_pendingWidth f, m_pendingHeight f),
   pending f,
   storage_sizes (gpu_log f) ++
     [glTexImage2D (m_pendingWidth f) (m_pendingHeight f);
      glRenderbufferStorage (m_pendingWidth f) (m_pendingHeight f)]).
Proof.
  unfold ApplyPendingResize, view, wrappers, geometry, pending.
  destruct f; cbn. case_ifs; rewrite !storage_sizes_app, <- app_assoc; reflexivity.
Qed.

(** Without a pending request [CheckPendingResize] does nothing at all. *)
Lemma CheckPendingResize_idle status f :
  m_pendingResize f = false -> CheckPendingResize status f = f.
Proof. intros H. unfold CheckPendingResize. now rewrite H. Qed.

Lemma CheckPendingResize_frame status f :
  wrappers (CheckPendingResize status f) = wrappers f /\
  m_pixelBuffer (CheckPendingResize status f) = m_pixelBuffer f /\
  m_pendingResize (CheckPendingResize status f) = false.
Proof.
  unfold CheckPendingResize, ApplyPendingResize, wrappers.
  destruct f; cbn. case_ifs; repeat split; close_case.
Qed.


Lemma CreateFramebuffer_frame env w h f :
  let r := CreateFramebuffer env w h f in
  wrappers (snd r) = wrappers f /\
  m_pixelBuffer (snd r) = m_pixelBuffer f /\
  pending (snd r) = pending f /\
  m_width (snd r) = m_width f /\ m_height (snd r) = m_height f /\
  (fst r = true -> m_renderedWidth (snd r) = w /\ m_renderedHeight (snd r) = h) /\
  (fst r = false -> m_renderedWidth (snd r) = m_renderedWidth f /\
                    m_renderedHeight (snd r) = m_renderedHeight f) /\
  storage_sizes (gpu_log (snd r)) =
    storage_sizes (gpu_log f) ++
    (if negb ((w <=? 0) || (h <=? 0)) && make_current env
     then [glTexImage2D w h; glRenderbufferStorage w h] else []).
Proof.
  unfold CreateFramebuffer, wrappers, pending. destruct f; cbn.
  case_ifs; try (cbn in *; discriminate); repeat split;
    try (intros; cbn in *; congruence).
  all: try (bool_hyps; cbn in *; congruence).
  all: cbn; rewrite ?storage_sizes_app; cbn; rewrite ?app_nil_r, <- ?app_assoc; cbn.
  all: reflexivity.
Qed.

Lemma GetDrawContext_frame env f :
  let g := snd (GetDrawContext env f) in
  m_pixelBuffer g = m_pixelBuffer f /\
  pending g = pending f /\
  m_width g = m_width f /\ m_height g = m_height f /\
  (sizes_agree f -> geometry g = geometry f) /\
  m_uploadContext g = m_uploadContext f /\
  (forall c, m_drawContext g = Some c ->
     m_drawContext f = Some c \/ Ctx.m_isDrawContext c = true) /\
  storage_sizes (gpu_log g) =
    storage_sizes (gpu_log f) ++
    (if m_framebufferDeferred f && (m_framebuffer f =? 0)
        && (negb ((m_width f <=? 0) || (m_height f <=? 0)) && make_current env)
     then [glTexImage2D (m_width f) (m_height f);
           glRenderbufferStorage (m_width f) (m_height f)]
     else []).
Proof.
  pose proof (CreateFramebuffer_frame env (m_width f) (m_height f) f) as H.
  cbv zeta in H. unfold GetDrawContext.
  destruct (CreateFramebuffer env (m_width f) (m_height f) f) as [ok g].
  cbn [fst snd] in H.
  destruct H as (Hw & Hp & Hpend & Hwd & Hht & Hrt & Hrf & Hl).
  unfold wrappers, pending, geometry, sizes_agree in *.
  destruct (m_framebufferDeferred f && (m_framebuffer f =? 0)); cbn [andb].
  - destruct ok; cbn [negb].
    + destruct (Hrt eq_refl) as [Hrw Hrh]. clear Hrt Hrf.
      destruct f, g; cbn in *. simplify_eq.
      case_ifs; cbn; repeat split; try reflexivity; try assumption;
        try (intros [? ?]; congruence);
        intros c Hc; record_simpl; simplify_eq; cbn; auto.
    + destruct (Hrf eq_refl) as [Hrw Hrh]. clear Hrt Hrf.
      destruct f, g; cbn in *. simplify_eq.
      repeat split; try reflexivity; try assumption. intros c Hc. auto.
  - rewrite app_nil_r. clear Hw Hp Hpend Hwd Hht Hrt Hrf Hl.
    destruct f; cbn.
    case_ifs; cbn; repeat split; try reflexivity;
      intros c Hc; record_simpl; simplify_eq; cbn; auto.
Qed.

Lemma CaptureFramePixels_frame env f :
  let g := CaptureFramePixels env f in
  wrappers g = wrappers f /\ geometry g = geometry f /\ pending g = pending f /\
  storage_sizes (gpu_log g) = storage_sizes (gpu_log f).
Proof.
  unfold CaptureFramePixels, wrappers, geometry, pending. destruct f; cbn.
  case_ifs; repeat split; try reflexivity.
  all: cbn; unfold storage_sizes; rewrite ?List.filter_app; cbn;
    now rewrite ?app_nil_r.
Qed.

Lemma CaptureFramePixels_failed env f :
  read_error env <> GL_NO_ERROR ->
  m_pixelBuffer (CaptureFramePixels env f) = m_pixelBuffer f.
Proof.
  intros Herr. unfold CaptureFramePixels. cbv zeta.
  apply Z.eqb_neq in Herr. rewrite Herr. cbn [negb]. case_ifs; reflexivity.
Qed.

(** The staging buffer after a successful read-back. *)
Lemma CaptureFramePixels_captured env f :
  0 < m_renderedWidth f -> 0 < m_renderedHeight f ->
  read_error env = GL_NO_ERROR ->
  m_pixelBuffer (CaptureFramePixels env f) =
    flip_rows (Z.to_nat (m_renderedHeight f)) (Z.to_nat (m_renderedWidth f * 4))
      (tempBuffer env (Z.to_nat (m_renderedWidth f * m_renderedHeight f * 4)))
      (vector_resize (Z.to_nat (m_renderedWidth f * m_renderedHeight f * 4))
         (m_pixelBuffer f)).
Proof.
  intros Hw Hh Herr. unfold CaptureFramePixels. cbv zeta.
  rewrite Herr.
  replace ((m_renderedWidth f <=? 0) || (m_renderedHeight f <=? 0)) with false
    by (symmetry; apply orb_false_iff; split; apply Z.leb_gt; assumption).
  destruct f; reflexivity.
Qed.

Lemma OnFrameReady_view f : view (OnFrameReady f) = view f.
Proof. unfold OnFrameReady. case_ifs; destruct f; reflexivity. Qed.

Lemma RequestActiveFrame_view f : view (RequestActiveFrame f) = view f.
Proof. unfold RequestActiveFrame. case_ifs; destruct f; reflexivity. Qed.

(** GPU calls that allocate no storage leave the view alone. *)
Lemma gpu_quiet calls f :
  storage_sizes calls = [] -> view (gpu calls f) = view f.
Proof. intros H. rewrite gpu_view, H, app_nil_r. reflexivity. Qed.

Lemma MakeCurrent_view ok c f : view (MakeCurrent ok c f) = view f.
Proof.
  unfold MakeCurrent. case_ifs; rewrite ?gpu_quiet by reflexivity; reflexivity.
Qed.

Lemma DoneCurrent_view f : view (DoneCurrent f) = view f.
Proof. unfold DoneCurrent. now rewrite gpu_quiet. Qed.

Lemma SetFramebuffer_view fb f : view (SetFramebuffer fb f) = view f.
Proof. unfold SetFramebuffer. destruct fb; now rewrite gpu_quiet. Qed.

(** [Present] on a wrapper that is not the draw context only flushes. *)
Lemma Present_upload env c f :
  Ctx.m_isDrawContext c = false -> view (Present env c f) = view f.
Proof.
  intros H. unfold Present. rewrite H.
  destruct (negb _); [reflexivity|]. now rewrite gpu_quiet.
Qed.

Lemma view_eq g f :
  view g = view f ->
  wrappers g = wrappers f /\ m_pixelBuffer g = m_pixelBuffer f /\
  geometry g = geometry f /\ pending g = pending f /\
  storage_sizes (gpu_log g) = storage_sizes (gpu_log f).
Proof.
  unfold view. intros H. injection H; intros.
  unfold wrappers, geometry, pending. repeat split; congruence.
Qed.

Lemma geometry_agree g f :
  geometry g = geometry f -> sizes_agree f -> sizes_agree g.
Proof.
  unfold geometry, sizes_agree. intros H [H1 H2]. injection H; intros.
  split; congruence.
Qed.

Lemma CheckPendingResize_agree status f :
  sizes_agree f -> sizes_agree (CheckPendingResize status f).
Proof.
  unfold CheckPendingResize, ApplyPendingResize, sizes_agree.
  destruct f; cbn. intros [-> ->]. case_ifs; cbn; auto.
Qed.

Lemma Present_frame env c f :
  let g := Present env c f in
  wrappers g = wrappers f /\
  (read_error env <> GL_NO_ERROR -> m_pixelBuffer g = m_pixelBuffer f) /\
  (m_pendingResize f = false ->
     geometry g = geometry f /\ pending g = pending f /\
     storage_sizes (gpu_log g) = storage_sizes (gpu_log f)) /\
  (sizes_agree f -> sizes_agree g).
Proof.
  cbv zeta.
  destruct (Ctx.m_isDrawContext c) eqn:Hrole.
  2: { destruct (view_eq _ _ (Present_upload env c f Hrole)) as (?&?&?&?&?).
       split; [assumption|]. split; [auto|]. split; [auto|].
       now apply geometry_agree. }
  unfold Present. rewrite Hrole.
  destruct (negb (Ctx.m_presentAvailable c)); [tauto|].
  set (f1 := CheckPendingResize (resize_status env) f).
  set (f2 := gpu [glFinish] f1).
  destruct (view_eq _ _ (OnFrameReady_view (CaptureFramePixels env f2)))
    as (Ho1 & Ho2 & Ho3 & Ho4 & Ho5).
  pose proof (CaptureFramePixels_frame env f2) as (Hcw & Hcg & Hcp & Hcs).
  destruct (view_eq _ _ (gpu_quiet [glFinish] f1 eq_refl))
    as (Hg1 & Hg2 & Hg3 & Hg4 & Hg5).
  fold f2 in Hg1, Hg2, Hg3, Hg4, Hg5.
  pose proof (CheckPendingResize_frame (resize_status env) f) as (Hrw & Hrp & Hrf).
  pose proof (CheckPendingResize_agree (resize_status env) f) as Hra.
  fold f1 in Hrw, Hrp, Hrf, Hra.
  split; [congruence|]. split.
  { intros Herr. rewrite Ho2, (CaptureFramePixels_failed env f2 Herr). congruence. }
  split.
  { intros Hidle.
    assert (f1 = f) as Ef by (apply CheckPendingResize_idle; exact Hidle).
    rewrite Ef in *. repeat split; congruence. }
  intros Hagree. specialize (Hra Hagree).
  eapply geometry_agree; [|exact Hra]. congruence.
Qed.

End EglMethods.

(* ================================================================== *)
(** ** The EGL factory: runs of entry points *)
(* ================================================================== *)

Section EglRuns.

Import Egl.

Lemma step_quiet f c : quiet c = true -> view (step f c) = view f.
Proof.
  destruct c; try discriminate; intros _; cbn [step]; unfold on_context.
  - destruct f; reflexivity.
  - destruct f; reflexivity.
  - destruct f; reflexivity.
  - apply RequestActiveFrame_view.
  - unfold CopyToPixelBuffer. case_ifs; reflexivity.
  - destruct (context r f); [apply MakeCurrent_view|reflexivity].
  - destruct (context r f); [apply DoneCurrent_view|reflexivity].
  - destruct (context r f); [apply SetFramebuffer_view|reflexivity].
Qed.

Lemma GetResourcesUploadContext_frame f :
  let g := snd (GetResourcesUploadContext f) in
  m_pixelBuffer g = m_pixelBuffer f /\ geometry g = geometry f /\
  pending g = pending f /\ gpu_log g = gpu_log f /\
  m_drawContext g = m_drawContext f /\
  (forall c, m_uploadContext g = Some c ->
     m_uploadContext f = Some c \/ Ctx.m_isDrawContext c = false).
Proof.
  unfold GetResourcesUploadContext, geometry, pending. destruct f; cbn.
  case_ifs; repeat split; try reflexivity;
    intros c Hc; record_simpl; simplify_eq; cbn; auto.
Qed.

Lemma SetPresentAvailable_frame r b f :
  let g := step f (call_SetPresentAvailable r b) in
  m_pixelBuffer g = m_pixelBuffer f /\ geometry g = geometry f /\
  pending g = pending f /\ gpu_log g = gpu_log f /\
  (forall c, m_drawContext g = Some c ->
     exists c0, m_drawContext f = Some c0 /\
                Ctx.m_isDrawContext c = Ctx.m_isDrawContext c0) /\
  (forall c, m_uploadContext g = Some c ->
     exists c0, m_uploadContext f = Some c0 /\
                Ctx.m_isDrawContext c = Ctx.m_isDrawContext c0).
Proof.
  cbn [step]. unfold on_context, set_context, SetPresentAvailable, context,
    geometry, pending.
  destruct f, r; cbn; case_ifs; repeat split; try reflexivity;
    intros c Hc; record_simpl; simplify_eq; eauto.
Qed.

Lemma step_roles_ok f c : roles_ok f -> roles_ok (step f c).
Proof.
  intros [Hd Hu]. unfold roles_ok.
  destruct (quiet c) eqn:Hq.
  { destruct (view_eq _ _ (step_quiet f c Hq)) as (Hw & _).
    unfold wrappers in Hw. injection Hw as -> ->. auto. }
  destruct c; try discriminate; clear Hq.
  - pose proof (GetDrawContext_frame env f) as (_&_&_&_&_&Eu&Ed&_).
    cbn [step]. rewrite Eu. split; [|assumption].
    intros c Hc. destruct (Ed c Hc); auto.
  - pose proof (GetResourcesUploadContext_frame f) as (_&_&_&_&Ed&Eu).
    cbn [step]. rewrite Ed. split; [assumption|].
    intros c Hc. destruct (Eu c Hc); auto.
  - destruct (SetSurfaceSize_frame width height f) as (Hw & _).
    cbn [step]. unfold wrappers in Hw. injection Hw as -> ->. auto.
  - pose proof (SetPresentAvailable_frame r available f) as (_&_&_&_&Ed&Eu).
    split; intros c Hc.
    + destruct (Ed c Hc) as (c0 & H0 & ->). auto.
    + destruct (Eu c Hc) as (c0 & H0 & ->). auto.
  - cbn [step]. unfold on_context.
    destruct (context r f) as [ctx|]; [|auto].
    pose proof (Present_frame env ctx f) as (Hw & _).
    unfold wrappers in Hw. injection Hw as -> ->. auto.
Qed.

Lemma step_sizes_agree f c : sizes_agree f -> sizes_agree (step f c).
Proof.
  intros Ha.
  destruct (quiet c) eqn:Hq.
  { destruct (view_eq _ _ (step_quiet f c Hq)) as (_ & _ & Hg & _).
    eapply geometry_agree; eauto. }
  destruct c; try discriminate; clear Hq.
  - pose proof (GetDrawContext_frame env f) as (_&_&_&_&Hg&_).
    eapply geometry_agree; [apply Hg|]; assumption.
  - pose proof (GetResourcesUploadContext_frame f) as (_&Hg&_).
    eapply geometry_agree; eauto.
  - destruct (SetSurfaceSize_frame width height f) as (_ & _ & Hg & _).
    eapply geometry_agree; eauto.
  - pose proof (SetPresentAvailable_frame r available f) as (_&Hg&_).
    eapply geometry_agree; eauto.
  - cbn [step]. unfold on_context.
    destruct (context r f) as [ctx|]; [|auto].
    now apply Present_frame.
Qed.

Lemma run_cons f c calls : run f (c :: calls) = run (step f c) calls.
Proof. reflexivity. Qed.

(** Both invariants hold in every state a run reaches from a constructed
    factory. *)
Lemma run_invariants f calls :
  roles_ok f -> sizes_agree f ->
  roles_ok (run f calls) /\ sizes_agree (run f calls).
Proof.
  revert f. induction calls as [|c calls IH]; intros f Hr Ha; [auto|].
  rewrite run_cons. apply IH; [now apply step_roles_ok | now apply step_sizes_agree].
Qed.

Lemma constructed_surface_state env w h :
  surface_state (AgusEglContextFactory env w h) =
  (w, h, w, h, (false, 0, 0), [], [], 0, (None, None)).
Proof.
  unfold AgusEglContextFactory.
  pose proof (InitializeEGL_surface_state env
    (members0<|m_width := w|><|m_height := h|>
             <|m_renderedWidth := w|><|m_renderedHeight := h|>)) as H.
  cbv zeta. destruct (InitializeEGL env _) as [ok g]. cbn [snd] in H.
  destruct ok; cbn [negb]; [|exact H]. 
  etransitivity; [|exact H]. destruct g; reflexivity.
Qed.

Lemma constructed_invariants env w h :
  roles_ok (AgusEglContextFactory env w h) /\
  sizes_agree (AgusEglContextFactory env w h).
Proof.
  pose proof (constructed_surface_state env w h) as H.
  unfold surface_state in H. injection H; intros.
  unfold roles_ok, sizes_agree. repeat split; intros; congruence.
Qed.

End EglRuns.

(* ================================================================== *)
(** ** The staging buffer and [CopyToPixelBuffer] *)
(* ================================================================== *)

Section EglStaging.

Import Egl.

Lemma step_pixelBuffer f c :
  roles_ok f -> captures c = false ->
  m_pixelBuffer (step f c) = m_pixelBuffer f.
Proof.
  intros [Hd Hu] Hc.
  destruct (quiet c) eqn:Hq.
  { now destruct (view_eq _ _ (step_quiet f c Hq)) as (_ & ? & _). }
  destruct c; try discriminate; clear Hq.
  - now pose proof (GetDrawContext_frame env f) as (?&_).
  - now pose proof (GetResourcesUploadContext_frame f) as (?&_).
  - now destruct (SetSurfaceSize_frame width height f) as (_ & ? & _).
  - now pose proof (SetPresentAvailable_frame r available f) as (?&_).
  - cbn [step]. unfold on_context.
    destruct (context r f) as [ctx|] eqn:Hctx; [|reflexivity].
    destruct r; cbn in Hc, Hctx.
    + apply Present_frame. now apply Z.eqb_neq.
    + now destruct (view_eq _ _ (Present_upload env ctx f (Hu ctx Hctx)))
        as (_ & ? & _).
Qed.

Lemma run_pixelBuffer f calls :
  roles_ok f -> Forall (fun c => captures c = false) calls ->
  m_pixelBuffer (run f calls) = m_pixelBuffer f.
Proof.
  revert f. induction calls as [|c calls IH]; intros f Hr Hc; [reflexivity|].
  inversion Hc as [|? ? Hc1 Hc2]; subst. rewrite run_cons.
  rewrite IH by (auto using step_roles_ok). now apply step_pixelBuffer.
Qed.

Lemma CopyToPixelBuffer_empty buffer bufferSize f :
  m_pixelBuffer f = [] ->
  CopyToPixelBuffer buffer bufferSize f = (false, buffer, f).
Proof.
  intros H. unfold CopyToPixelBuffer. rewrite H.
  destruct buffer; [|reflexivity]. now destruct (bufferSize <=? 0).
Qed.

Lemma CopyToPixelBuffer_copies dst bufferSize f :
  0 < bufferSize -> m_pixelBuffer f <> [] ->
  CopyToPixelBuffer (Some dst) bufferSize f =
    (true,
     Some (memcpy dst 0 (m_pixelBuffer f) 0
             (Z.to_nat (Z.min bufferSize (Z.of_nat (length (m_pixelBuffer f)))))),
     f).
Proof.
  intros Hpos Hne. unfold CopyToPixelBuffer.
  destruct (bufferSize <=? 0) eqn:E; [apply Z.leb_le in E; lia|].
  destruct (m_pixelBuffer f) eqn:Eb; [congruence|]. reflexivity.
Qed.

(** C6. [CopyToPixelBuffer] before any frame has been captured, that is
    after a run of entry points none of which is a [Present] of the draw
    context with a successful read-back, returns [false], leaves the
    destination buffer as it was and leaves the factory, in particular its
    log of GPU calls, as it was. *)
Theorem CopyToPixelBuffer_before_first_frame
    (env : EglEnv) (w h : Z) (calls : list Call)
    (buffer : option (list byte)) (bufferSize : Z) :
  Forall (fun c => captures c = false) calls ->
  let f := run (AgusEglContextFactory env w h) calls in
  CopyToPixelBuffer buffer bufferSize f = (false, buffer, f) /\
  gpu_log (snd (CopyToPixelBuffer buffer bufferSize f)) = gpu_log f.
Proof.
  intros Hc f.
  assert (m_pixelBuffer f = []) as Hempty.
  { unfold f. rewrite run_pixelBuffer; [|apply constructed_invariants|exact Hc].
    pose proof (constructed_surface_state env w h) as H.
    unfold surface_state in H. now injection H. }
  rewrite (CopyToPixelBuffer_empty _ _ _ Hempty). split; reflexivity.
Qed.

Lemma CopyToPixelBuffer_before_first_frame_witness :
  let f := run (AgusEglContextFactory Scenario.egl 2 2)
             [call_GetDrawContext (Scenario.framebuffer GL_FRAMEBUFFER_COMPLETE);
              call_Present Draw
                (Scenario.frame GL_FRAMEBUFFER_COMPLETE Scenario.GL_INVALID_OPERATION)] in
  CopyToPixelBuffer (Some [Byte.x07; Byte.x07]) 2 f
    = (false, Some [Byte.x07; Byte.x07], f) /\
  gpu_log (snd (CopyToPixelBuffer (Some [Byte.x07; Byte.x07]) 2 f)) = gpu_log f.
Proof.
  apply (CopyToPixelBuffer_before_first_frame Scenario.egl 2 2).
  repeat constructor.
Defined.



(** C10. With a destination of at least [bufferSize > 0] bytes and a
    non-empty staging buffer, [CopyToPixelBuffer] returns [true] and writes
    exactly [n = min(bufferSize, staging size)] bytes: the first [n] bytes
    of the destination become the first [n] staging bytes, every later
    byte and the length of the destination are unchanged, and [n] exceeds
    neither bound; this also when the destination is smaller than the
    frame. For a null buffer or a non-positive size it returns [false] and
    writes nothing. *)
Theorem CopyToPixelBuffer_bounded
    (dst : list byte) (bufferSize : Z) (f : Factory) :
  0 < bufferSize -> bufferSize <= Z.of_nat (length dst) ->
  m_pixelBuffer f <> [] ->
  let n := Z.to_nat (Z.min bufferSize (Z.of_nat (length (m_pixelBuffer f)))) in
  (exists out,
     CopyToPixelBuffer (Some dst) bufferSize f = (true, Some out, f) /\
     length out = length dst /\
     take n out = take n (m_pixelBuffer f) /\
     drop n out = drop n dst) /\
  (n <= length (m_pixelBuffer f))%nat /\ Z.of_nat n <= bufferSize /\
  (forall size, CopyToPixelBuffer None size f = (false, None, f)) /\
  (forall size, size <= 0 ->
     CopyToPixelBuffer (Some dst) size f = (false, Some dst, f)).
Proof.
  intros Hpos Hfit Hne n.
  assert (Hn : n = Z.to_nat (Z.min bufferSize (Z.of_nat (length (m_pixelBuffer f)))))
    by reflexivity.
  clearbody n.
  assert (Hn1 : (n <= length (m_pixelBuffer f))%nat) by lia.
  assert (Hn2 : (n <= length dst)%nat) by lia.
  split; [|split; [exact Hn1|split; [lia|split]]].
  - exists (memcpy dst 0 (m_pixelBuffer f) 0 n). split; [|split; [|split]].
    + rewrite CopyToPixelBuffer_copies by assumption. now rewrite Hn.
    + apply length_memcpy; cbn; lia.
    + unfold memcpy. simpl. rewrite ?drop_0.
      rewrite take_app_le by (rewrite length_take; lia).
      rewrite take_take, Nat.min_id. reflexivity.
    + unfold memcpy. simpl. rewrite ?drop_0.
      rewrite drop_app_length' by (rewrite length_take; lia). reflexivity.
  - reflexivity.
  - intros size Hsize. unfold CopyToPixelBuffer.
    destruct (size <=? 0) eqn:E; [reflexivity|apply Z.leb_gt in E; lia].
Qed.

(** A destination of 4 bytes against the 16-byte frame of the 2 x 2
    scenario: a partial copy. *)
Lemma CopyToPixelBuffer_bounded_witness :
  let dst := [Byte.x00; Byte.x00; Byte.x00; Byte.x00] in
  let f := Scenario.egl_2x2_frame in
  let n := Z.to_nat (Z.min 3 (Z.of_nat (length (m_pixelBuffer f)))) in
  (exists out,
     CopyToPixelBuffer (Some dst) 3 f = (true, Some out, f) /\
     length out = length dst /\
     take n out = take n (m_pixelBuffer f) /\
     drop n out = drop n dst) /\
  (n <= length (m_pixelBuffer f))%nat /\ Z.of_nat n <= 3 /\
  (forall size, CopyToPixelBuffer None size f = (false, None, f)) /\
  (forall size, size <= 0 ->
     CopyToPixelBuffer (Some dst) size f = (false, Some dst, f)).
Proof.
  apply (CopyToPixelBuffer_bounded
           [Byte.x00; Byte.x00; Byte.x00; Byte.x00] 3 Scenario.egl_2x2_frame).
  - lia.
  - simpl. lia.
  - vm_compute. discriminate.
Defined.

(** A captured frame of rendered size [(w, h)] is the read-back flipped
    vertically: the staging buffer holds [w * h * 4] bytes and its row [y]
    is row [h - 1 - y] of the bytes [glReadPixels] delivered, so the first
    row [CopyToPixelBuffer] hands out is the last row read back, the
    topmost row of the GL image. *)
Lemma capture_flips_vertically (env : FrameEnv) (f : Factory) :
  let w := m_renderedWidth f in
  let h := m_renderedHeight f in
  let rowSize := Z.to_nat (w * 4) in
  let raw := tempBuffer env (Z.to_nat (w * h * 4)) in
  let g := CaptureFramePixels env f in
  0 < w -> 0 < h -> w * h * 4 <= INT_MAX ->
  read_error env = GL_NO_ERROR ->
  length (m_pixelBuffer g) = Z.to_nat (w * h * 4) /\
  (forall y, (y < Z.to_nat h)%nat ->
     row rowSize y (m_pixelBuffer g) = row rowSize (Z.to_nat h - 1 - y) raw) /\
  (forall dst, length dst = rowSize ->
     CopyToPixelBuffer (Some dst) (w * 4) g =
       (true, Some (row rowSize (Z.to_nat h - 1) raw), g)).
Proof.
  intros w h rowSize raw g Hw Hh _ Herr.
  assert (Hsize : Z.to_nat (w * h * 4) = (Z.to_nat h * rowSize)%nat).
  { unfold rowSize. rewrite <- Z2Nat.inj_mul by lia. f_equal. ring. }
  assert (Hbuf : m_pixelBuffer g =
                 flip_rows (Z.to_nat h) rowSize raw
                   (vector_resize (Z.to_nat (w * h * 4)) (m_pixelBuffer f)))
    by (apply CaptureFramePixels_captured; assumption).
  destruct (flip_rows_spec (Z.to_nat h) rowSize raw
              (vector_resize (Z.to_nat (w * h * 4)) (m_pixelBuffer f)))
    as [Hlen Hrows].
  { unfold raw. rewrite length_tempBuffer. exact Hsize. }
  { rewrite length_vector_resize. exact Hsize. }
  rewrite <- Hbuf in Hlen, Hrows.
  split; [congruence|]. split; [exact Hrows|].
  intros dst Hdst.
  assert (Hrow0 : (0 < rowSize)%nat) by (unfold rowSize; lia).
  assert (Hh0 : (0 < Z.to_nat h)%nat) by lia.
  rewrite CopyToPixelBuffer_copies;
    [|lia|intros E; rewrite E in Hlen; cbn in Hlen; nia].
  replace (Z.to_nat (Z.min (w * 4) (Z.of_nat (length (m_pixelBuffer g)))))
    with rowSize by (unfold rowSize; rewrite Hlen; nia).
  f_equal. f_equal. f_equal.
  pose proof (Hrows 0%nat Hh0) as Htop. rewrite Nat.sub_0_r in Htop.
  rewrite <- Htop.
  unfold memcpy, row. simpl. rewrite ?drop_0.
  rewrite (drop_ge dst) by lia. now rewrite app_nil_r.
Qed.

End EglStaging.

(* ================================================================== *)
(** ** The published size and the deferred resize *)
(* ================================================================== *)

Section EglResize.

Import Egl.

(** Away from [SetSurfaceSize], and with no request pending, a call leaves
    the sizes and the pending-resize record alone. *)
Lemma step_without_request f c :
  is_SetSurfaceSize c = false ->
  sizes_agree f -> m_pendingResize f = false ->
  geometry (step f c) = geometry f /\ pending (step f c) = pending f.
Proof.
  intros Hc Ha Hp.
  destruct (quiet c) eqn:Hq.
  { now destruct (view_eq _ _ (step_quiet f c Hq)) as (_ & _ & ? & ? & _). }
  destruct c; try discriminate; clear Hq.
  - pose proof (GetDrawContext_frame env f) as (_&?&_&_&Hg&_). auto.
  - now pose proof (GetResourcesUploadContext_frame f) as (_&?&?&_).
  - now pose proof (SetPresentAvailable_frame r available f) as (_&?&?&_).
  - cbn [step]. unfold on_context.
    destruct (context r f) as [ctx|]; [|auto].
    pose proof (Present_frame env ctx f) as (_ & _ & H & _).
    destruct (H Hp) as (? & ? & _). auto.
Qed.

Lemma run_without_request f calls :
  Forall (fun c => is_SetSurfaceSize c = false) calls ->
  sizes_agree f -> m_pendingResize f = false ->
  geometry (run f calls) = geometry f.
Proof.
  revert f. induction calls as [|c calls IH]; intros f Hc Ha Hp; [reflexivity|].
  inversion Hc as [|? ? Hc1 Hc2]; subst. rewrite run_cons.
  destruct (step_without_request f c Hc1 Ha Hp) as [Hg Hpend].
  rewrite IH; [exact Hg|exact Hc2|now apply step_sizes_agree|].
  unfold pending in Hpend. injection Hpend; intros. congruence.
Qed.

(** C8. For [w, h > 0], once the constructor has succeeded
    ([IsValid() = true]) and as long as no resize has been requested,
    whatever other entry points have been called, [GetRenderedWidth()] is
    [w] and [GetRenderedHeight()] is [h]. *)
Theorem rendered_size_is_initial_size
    (env : EglEnv) (w h : Z) (calls : list Call) :
  0 < w -> 0 < h ->
  IsValid (AgusEglContextFactory env w h) = true ->
  Forall (fun c => is_SetSurfaceSize c = false) calls ->
  let f := run (AgusEglContextFactory env w h) calls in
  GetRenderedWidth f = w /\ GetRenderedHeight f = h.
Proof.
  intros _ _ _ Hc f.
  pose proof (constructed_surface_state env w h) as H0.
  unfold surface_state in H0. injection H0; intros.
  assert (Hg : geometry f = geometry (AgusEglContextFactory env w h)).
  { apply run_without_request; [exact Hc|apply constructed_invariants|assumption]. }
  unfold geometry in Hg. injection Hg; intros.
  unfold GetRenderedWidth, GetRenderedHeight. split; congruence.
Qed.

Lemma rendered_size_is_initial_size_witness :
  let f := run (AgusEglContextFactory Scenario.egl 2 2)
             [call_GetDrawContext (Scenario.framebuffer GL_FRAMEBUFFER_COMPLETE);
              call_SetFrameCallback true;
              call_Present Draw Scenario.frame_ok;
              call_CopyToPixelBuffer (Some [Byte.x00]) 1] in
  GetRenderedWidth f = 2 /\ GetRenderedHeight f = 2.
Proof.
  apply (rendered_size_is_initial_size Scenario.egl 2 2).
  - lia.
  - lia.
  - reflexivity.
  - repeat constructor.
Defined.

(** [SetSurfaceSize] touches the pending-resize record and nothing else. *)
Lemma SetSurfaceSize_only_pending w h f :
  SetSurfaceSize w h f =
    f<|m_pendingWidth := m_pendingWidth (SetSurfaceSize w h f)|>
     <|m_pendingHeight := m_pendingHeight (SetSurfaceSize w h f)|>
     <|m_pendingResize := m_pendingResize (SetSurfaceSize w h f)|>.
Proof. unfold SetSurfaceSize. destruct f; cbn. case_ifs; reflexivity. Qed.

(** What a call can do to the published size and to GPU storage. *)
Lemma step_rendered f c :
  roles_ok f -> sizes_agree f -> is_Present c = false ->
  GetRenderedWidth (step f c) = GetRenderedWidth f /\
  GetRenderedHeight (step f c) = GetRenderedHeight f /\
  (is_GetDrawContext c = false ->
   storage_sizes (gpu_log (step f c)) = storage_sizes (gpu_log f)).
Proof.
  intros [Hd Hu] Ha Hc.
  assert (Hgeo : forall g, geometry g = geometry f ->
            GetRenderedWidth g = GetRenderedWidth f /\
            GetRenderedHeight g = GetRenderedHeight f).
  { unfold geometry, GetRenderedWidth, GetRenderedHeight.
    intros g Hg. injection Hg; intros. split; congruence. }
  destruct (quiet c) eqn:Hq.
  { destruct (view_eq _ _ (step_quiet f c Hq)) as (_ & _ & Hg & _ & Hs).
    destruct (Hgeo _ Hg). auto. }
  destruct c; try discriminate; clear Hq.
  - pose proof (GetDrawContext_frame env f) as (_&_&_&_&Hg&_).
    destruct (Hgeo _ (Hg Ha)). repeat split; auto. discriminate.
  - pose proof (GetResourcesUploadContext_frame f) as (_&Hg&_&Hl&_).
    destruct (Hgeo _ Hg). cbn [step]. rewrite Hl. auto.
  - destruct (SetSurfaceSize_frame width height f) as (_ & _ & Hg & Hl).
    destruct (Hgeo _ Hg). cbn [step]. rewrite Hl. auto.
  - pose proof (SetPresentAvailable_frame r available f) as (_&Hg&_&Hl&_).
    destruct (Hgeo _ Hg). rewrite Hl. auto.
  - cbn [step]. unfold on_context.
    destruct (context r f) as [ctx|] eqn:Hctx; [|auto].
    destruct r; [discriminate|]. cbn in Hctx.
    destruct (view_eq _ _ (Present_upload env ctx f (Hu ctx Hctx)))
      as (_ & _ & Hg & _ & Hs).
    destruct (Hgeo _ Hg). auto.
Qed.

(** The run that shows a stale request being applied: the surface is
    2 x 2, a resize to 4 x 3 is requested and then a resize back to 2 x 2,
    all before the next [Present]. *)
Lemma pending_after_resize_back :
  pending (run Scenario.egl_2x2 [call_SetSurfaceSize 4 3; call_SetSurfaceSize 2 2])
  = (true, 4, 3).
Proof. reflexivity. Qed.

(** C2 (the code departs from the claim). Two requests with distinct
    positive sizes, the last one equal to the size in use: [Present] applies
    the first request, not the last. *)
Theorem resize_back_applies_stale_request :
  let f := run Scenario.egl_2x2
             [call_SetSurfaceSize 4 3; call_SetSurfaceSize 2 2;
              call_Present Draw Scenario.frame_ok] in
  (GetRenderedWidth f, GetRenderedHeight f) = (4, 3).
Proof. vm_compute. reflexivity. Qed.

(** The requests a burst of [SetSurfaceSize] calls makes. *)
Lemma SetSurfaceSize_pending w h f :
  0 < w -> 0 < h -> (w, h) <> (m_width f, m_height f) ->
  pending (SetSurfaceSize w h f) = (true, w, h).
Proof.
  intros Hw Hh Hne. unfold SetSurfaceSize, pending.
  destruct ((w <=? 0) || (h <=? 0)) eqn:E.
  { apply orb_true_iff in E. destruct E as [E|E]; apply Z.leb_le in E; lia. }
  destruct ((w =? m_width f) && (h =? m_height f)) eqn:E2.
  { apply andb_true_iff in E2. destruct E2 as [E1 E2].
    apply Z.eqb_eq in E1, E2. congruence. }
  destruct f; reflexivity.
Qed.

Lemma ApplyPendingResize_geometry status f :
  geometry (ApplyPendingResize status f) =
  (m_pendingWidth f, m_pendingHeight f, m_pendingWidth f, m_pendingHeight f).
Proof.
  unfold ApplyPendingResize, geometry. destruct f; cbn. case_ifs; reflexivity.
Qed.

(** Where coalescing does hold: a request that differs from the size in
    use replaces whatever was pending, and the next [Present] of the draw
    context applies it. *)
Lemma last_request_applied env c w h f :
  Ctx.m_isDrawContext c = true -> Ctx.m_presentAvailable c = true ->
  0 < w -> 0 < h -> (w, h) <> (m_width f, m_height f) ->
  let g := Present env c (SetSurfaceSize w h f) in
  GetRenderedWidth g = w /\ GetRenderedHeight g = h.
Proof.
  intros Hrole Hav Hw Hh Hne.
  pose proof (SetSurfaceSize_pending w h f Hw Hh Hne) as Hp.
  destruct (SetSurfaceSize_frame w h f) as (_ & _ & Hg & _).
  set (f1 := SetSurfaceSize w h f) in *. cbv zeta.
  unfold pending in Hp. injection Hp as Hp1 Hp2 Hp3.
  unfold geometry in Hg. injection Hg as Hg1 Hg2 Hg3 Hg4.
  unfold Present. rewrite Hrole, Hav. cbn [negb].
  assert (Hcheck : CheckPendingResize (resize_status env) f1 =
                   ApplyPendingResize (resize_status env) (f1<|m_pendingResize := false|>)).
  { unfold CheckPendingResize. rewrite Hp1, Hp2, Hp3. cbn [negb].
    replace ((w <=? 0) || (h <=? 0)) with false
      by (symmetry; apply orb_false_iff; split; apply Z.leb_gt; lia).
    replace ((w =? m_width (f1<|m_pendingResize := false|>))
             && (h =? m_height (f1<|m_pendingResize := false|>))) with false.
    - reflexivity.
    - symmetry. apply andb_false_iff.
      destruct (Z.eqb_spec w (m_width (f1<|m_pendingResize := false|>))) as [E1|]; [|auto].
      destruct (Z.eqb_spec h (m_height (f1<|m_pendingResize := false|>))) as [E2|]; [|auto].
      exfalso. apply Hne. f_equal.
      + rewrite E1. destruct f1; cbn in *. congruence.
      + rewrite E2. destruct f1; cbn in *. congruence. }
  rewrite Hcheck.
  destruct (view_eq _ _ (OnFrameReady_view
     (CaptureFramePixels env (gpu [glFinish]
        (ApplyPendingResize (resize_status env) (f1<|m_pendingResize := false|>))))))
    as (_ & _ & Ho & _).
  pose proof (CaptureFramePixels_frame env (gpu [glFinish]
        (ApplyPendingResize (resize_status env) (f1<|m_pendingResize := false|>))))
    as (_ & Hc & _).
  destruct (view_eq _ _ (gpu_quiet [glFinish]
        (ApplyPendingResize (resize_status env) (f1<|m_pendingResize := false|>)) eq_refl))
    as (_ & _ & Hq & _).
  rewrite Hc, Hq, ApplyPendingResize_geometry in Ho.
  unfold geometry, GetRenderedWidth, GetRenderedHeight in *.
  injection Ho; intros. destruct f1; cbn in *. split; congruence.
Qed.

End EglResize.

(* ================================================================== *)
(** ** Where a resize reaches the GPU *)
(* ================================================================== *)

Section ResizeEffects.

Import Egl.

(** On the EGL backend, in every state [f] a factory can reach:
    [SetSurfaceSize(w, h)] issues no GPU call and changes nothing but the
    pending-resize record, so the published rendered size is what it was;
    and an entry point [c] other than [Present] of the draw context leaves
    the published rendered size alone and asks the GPU for no storage,
    except that a [GetDrawContext] call may allocate the storage, at most
    once in the call and at the size already published. *)
Lemma egl_SetSurfaceSize_is_deferred
    (env : EglEnv) (w0 h0 : Z) (calls : list Call) (w h : Z) (c : Call) :
  is_Present c = false ->
  let f := run (AgusEglContextFactory env w0 h0) calls in
  (SetSurfaceSize w h f =
     f<|m_pendingWidth := m_pendingWidth (SetSurfaceSize w h f)|>
      <|m_pendingHeight := m_pendingHeight (SetSurfaceSize w h f)|>
      <|m_pendingResize := m_pendingResize (SetSurfaceSize w h f)|> /\
   gpu_log (SetSurfaceSize w h f) = gpu_log f /\
   GetRenderedWidth (SetSurfaceSize w h f) = GetRenderedWidth f /\
   GetRenderedHeight (SetSurfaceSize w h f) = GetRenderedHeight f) /\
  (GetRenderedWidth (step f c) = GetRenderedWidth f /\
   GetRenderedHeight (step f c) = GetRenderedHeight f /\
   (is_GetDrawContext c = false ->
    storage_sizes (gpu_log (step f c)) = storage_sizes (gpu_log f)) /\
   (forall fenv, c = call_GetDrawContext fenv ->
    exists l, storage_sizes (gpu_log (step f c)) = storage_sizes (gpu_log f) ++ l /\
      (l = [] \/
       l = [glTexImage2D (GetRenderedWidth f) (GetRenderedHeight f);
            glRenderbufferStorage (GetRenderedWidth f) (GetRenderedHeight f)]))).
Proof.
  intros Hc f.
  destruct (run_invariants (AgusEglContextFactory env w0 h0) calls)
    as [Hroles Hagree]; try apply constructed_invariants.
  fold f in Hroles, Hagree.
  split.
  - split; [apply SetSurfaceSize_only_pending|].
    destruct (SetSurfaceSize_frame w h f) as (_ & _ & Hg & Hl).
    split; [exact Hl|]. unfold geometry in Hg. injection Hg; intros.
    unfold GetRenderedWidth, GetRenderedHeight. split; congruence.
  - destruct (step_rendered f c Hroles Hagree Hc) as (Hw & Hh & Hs).
    split; [exact Hw|]. split; [exact Hh|]. split; [exact Hs|].
    intros fenv ->. cbn [step].
    pose proof (GetDrawContext_frame fenv f) as (_&_&_&_&_&_&_&Hl).
    destruct Hagree as [Ew Eh]. unfold GetRenderedWidth, GetRenderedHeight.
    rewrite Ew, Eh. eexists. split; [exact Hl|].
    destruct (_ && _); auto.
Qed.





End ResizeEffects.

(* ================================================================== *)
(** ** The WGL factory: the transfer strategy of a frame *)
(* ================================================================== *)

Section WglTransfer.

Import Wgl.

Lemma registrations_app l1 l2 :
  registrations (l1 ++ l2) = (registrations l1 + registrations l2)%nat.
Proof. unfold registrations. now rewrite List.filter_app, length_app. Qed.

Lemma blits_app l1 l2 : blits (l1 ++ l2) = (blits l1 + blits l2)%nat.
Proof. unfold blits. now rewrite List.filter_app, length_app. Qed.

Lemma readbacks_app l1 l2 :
  readbacks (l1 ++ l2) = (readbacks l1 + readbacks l2)%nat.
Proof. unfold readbacks. now rewrite List.filter_app, length_app. Qed.

Lemma filter_none {A} (p q : A -> bool) l :
  forallb q l = true -> (forall x, q x = true -> p x = false) ->
  List.filter p l = [].
Proof.
  intros Hq Hpq. induction l as [|x l IH]; [reflexivity|].
  cbn in *. apply andb_true_iff in Hq. destruct Hq as [Hx Hl].
  rewrite (Hpq x Hx). auto.
Qed.

Lemma frame_of_refl allowed f : frame_of allowed f f.
Proof.
  repeat split. exists []. split; [now rewrite app_nil_r|reflexivity].
Qed.

Lemma frame_of_native allowed calls f g :
  frame_of allowed f g -> forallb allowed calls = true ->
  frame_of allowed f (native calls g).
Proof.
  intros (Hi & Hc & Hs & l & Hl & Hall) Hcalls.
  split; [exact Hi|]. split; [exact Hc|]. split; [exact Hs|].
  exists (l ++ calls). split.
  - change (native_log (native calls g)) with (native_log g ++ calls).
    now rewrite Hl, app_assoc.
  - rewrite forallb_app, Hall, Hcalls. reflexivity.
Qed.

Lemma frame_of_trans allowed f g k :
  frame_of allowed f g -> frame_of allowed g k -> frame_of allowed f k.
Proof.
  intros (Hi & Hc & Hs & l & Hl & Hall) (Hi' & Hc' & Hs' & l' & Hl' & Hall').
  split; [congruence|]. split; [congruence|]. split; [congruence|].
  exists (l ++ l'). split.
  - now rewrite Hl', Hl, app_assoc.
  - rewrite forallb_app, Hall, Hall'. reflexivity.
Qed.

Ltac frame_calls :=
  repeat first
    [ apply frame_of_refl
    | apply frame_of_native; [|reflexivity] ].

Lemma zero_copy_path_frame env fbo w h f :
  frame_of interop_frame_call f (zero_copy_path env fbo w h f).
Proof.
  unfold zero_copy_path. cbv zeta.
  change (m_keyedMutex (native [glFinish] f)) with (m_keyedMutex f).
  destruct (m_keyedMutex f) eqn:Hk.
  - destruct (acquire_sync env); [|frame_calls..].
    destruct (copy_lock_objects env);
      change (m_keyedMutex (native _ _)) with (m_keyedMutex f); rewrite Hk;
      frame_calls.
  - destruct (copy_lock_objects env);
      change (m_keyedMutex (native _ _)) with (m_keyedMutex f); rewrite Hk;
      frame_calls.
Qed.

Lemma cpu_copy_path_frame env fbo w h f :
  frame_of cpu_frame_call f (cpu_copy_path env fbo w h f).
Proof.
  unfold cpu_copy_path. cbv zeta.
  destruct (map_staging env); [|frame_calls].
  change (m_keyedMutex (native [Unmap_staging] _)) with (m_keyedMutex f).
  destruct (m_keyedMutex f) eqn:Hk.
  - change (m_keyedMutex (native [CopyResource] _)) with (m_keyedMutex f).
    rewrite Hk. frame_calls.
  - change (m_keyedMutex (native [CopyResource] _)) with (m_keyedMutex f).
    rewrite Hk. frame_calls.
Qed.

(** One frame: what the strategy depends on is read, never changed, and
    the calls of the frame are those of the strategy in force. *)
Lemma CopyToSharedTexture_frame env f :
  frame_of (if useInterop f then interop_frame_call else cpu_frame_call)
    f (CopyToSharedTexture env f).
Proof.
  unfold CopyToSharedTexture. cbv zeta.
  destruct (negb (useInterop f)
            && (negb (m_stagingTexture f) || negb (m_sharedTexture f)));
    [apply frame_of_refl|].
  set (f1 := if negb (was_our_context env)
             then native [wglMakeCurrent draw_glrc] f else f).
  assert (H1 : frame_of (if useInterop f then interop_frame_call else cpu_frame_call) f f1).
  { unfold f1. destruct (negb (was_our_context env)), (useInterop f); frame_calls. }
  set (f2 := (native [glGetIntegerv_viewport] f1)
               <|m_renderedWidth := _|><|m_renderedHeight := _|>).
  assert (H2 : frame_of (if useInterop f then interop_frame_call else cpu_frame_call) f f2).
  { change (frame_of (if useInterop f then interop_frame_call else cpu_frame_call)
              f (native [glGetIntegerv_viewport] f1)).
    destruct (useInterop f); frame_calls; exact H1. }
  clearbody f1 f2.
  match goal with
  | |- frame_of _ _ (if _ then (if _ then native _ ?x else native _ ?x) else ?x) =>
      assert (H3 : frame_of (if useInterop f then interop_frame_call else cpu_frame_call) f x)
  end.
  { destruct (useInterop f).
    - eapply frame_of_trans; [exact H2|apply zero_copy_path_frame].
    - eapply frame_of_trans; [exact H2|apply cpu_copy_path_frame]. }
  destruct (negb (was_our_context env)); [|exact H3].
  destruct (copy_prev_context env), (useInterop f); frame_calls; exact H3.
Qed.

End WglTransfer.

Section WglRegistration.
Import Wgl.

(** Both registration attempts refused: the interop block leaves the
    factory on the CPU path. *)
Lemma setup_interop_refused (env : SharedTextureEnv) (f : Factory) :
  m_wglDXOpenDeviceNV f = true ->
  register_object (texture_interop env) = false ->
  register_object (renderbuffer_interop env) = false ->
  useInterop (setup_interop env f) = false.
Proof.
  intros Hfn Ht Hr.
  assert (forall g, m_interopDevice g = false -> useInterop g = false) as Hdev.
  { intros g Hg. unfold useInterop. rewrite Hg.
    now rewrite andb_false_r. }
  unfold setup_interop. rewrite Hfn.
  destruct (open_device env) eqn:Hopen.
  - cbn [m_interopDevice]. 
    assert (m_interopDevice ((native [wglDXOpenDeviceNV] f)<|m_interopDevice := true|>) = true) as -> by reflexivity.
    unfold tryTextureInterop. cbv zeta.
    assert (forall g : Factory, m_interopObject (g<|m_interopObject := register_object (texture_interop env)|>) = false) as Ho.
    { intros g. rewrite Ht. reflexivity. }
    rewrite Ho. cbn [negb].
    unfold tryRenderbufferInterop. cbv zeta.
    assert (forall g : Factory, m_interopObject (g<|m_interopObject := register_object (renderbuffer_interop env)|>) = false) as Ho'.
    { intros g. rewrite Hr. reflexivity. }
    rewrite Ho'. cbn [negb].
    apply Hdev. reflexivity.
  - apply Hdev. reflexivity.
Qed.

End WglRegistration.

Section WglFrames.

Import Wgl.

Lemma frame_of_useInterop allowed f g :
  frame_of allowed f g -> useInterop g = useInterop f.
Proof.
  intros (Hi & _). unfold interop_state in Hi. injection Hi; intros.
  unfold useInterop. congruence.
Qed.

Lemma frame_of_counts allowed f g :
  frame_of allowed f g ->
  (forall c, allowed c = true -> is_registration c = false) ->
  registrations (native_log g) = registrations (native_log f).
Proof.
  intros (_ & _ & _ & l & Hl & Hall) Hreg.
  assert (Hzero : registrations l = 0%nat).
  { unfold registrations.
    now rewrite (filter_none is_registration allowed l Hall Hreg). }
  rewrite Hl, registrations_app, Hzero. lia.
Qed.

Lemma cpu_frame_call_spec c :
  cpu_frame_call c = true -> is_registration c = false /\ is_blit c = false.
Proof.
  unfold cpu_frame_call. intros H. apply andb_true_iff in H.
  destruct H as [H1 H2]. now apply negb_true_iff in H1, H2.
Qed.

Lemma interop_frame_call_spec c :
  interop_frame_call c = true ->
  is_registration c = false /\ is_readback c = false.
Proof.
  unfold interop_frame_call. intros H. apply andb_true_iff in H.
  destruct H as [H1 H2]. now apply negb_true_iff in H1, H2.
Qed.

Lemma wgl_OnFrameReady_frame env f :
  frame_of (if useInterop f then interop_frame_call else cpu_frame_call)
    f (OnFrameReady env f).
Proof.
  unfold OnFrameReady. destruct (m_frameCallback _);
    exact (CopyToSharedTexture_frame env f).
Qed.

Lemma wgl_RequestActiveFrame_frame allowed f g :
  frame_of allowed f g -> frame_of allowed f (RequestActiveFrame g).
Proof.
  intros H. unfold RequestActiveFrame.
  destruct (m_keepAliveCallback g); exact H.
Qed.

Lemma wgl_Present_frame env c f :
  frame_of (if useInterop f then interop_frame_call else cpu_frame_call)
    f (snd (Present env c f)).
Proof.
  unfold Present.
  destruct (Ctx.m_isDraw c); [|apply frame_of_refl].
  destruct (0 <? Ctx.m_initialFrameCount c); cbn [snd].
  - apply wgl_RequestActiveFrame_frame, wgl_OnFrameReady_frame.
  - apply wgl_OnFrameReady_frame.
Qed.

(** On the CPU path a run of frames stays on the CPU path, registers
    nothing and blits nothing. *)
Lemma present_all_cpu frames c f :
  useInterop f = false ->
  let g := snd (present_all c f frames) in
  useInterop g = false /\
  registrations (native_log g) = registrations (native_log f) /\
  blits (native_log g) = blits (native_log f).
Proof.
  revert c f. induction frames as [|env frames IH]; intros c f Hcpu; [auto|].
  cbv zeta. unfold present_all. cbn [fold_left fst snd].
  pose proof (wgl_Present_frame env c f) as H. rewrite Hcpu in H.
  destruct (Present env c f) as [c1 f1]. cbn [snd] in H.
  assert (Hcpu1 : useInterop f1 = false)
    by (rewrite (frame_of_useInterop _ _ _ H); exact Hcpu).
  destruct (IH c1 f1 Hcpu1) as (Hu & Hr & Hb).
  unfold present_all in Hu, Hr, Hb. cbn [fst snd] in *.
  split; [exact Hu|]. split.
  - rewrite Hr. eapply frame_of_counts; [exact H|]. apply cpu_frame_call_spec.
  - rewrite Hb. destruct H as (_ & _ & _ & l & Hl & Hall).
    assert (Hzero : blits l = 0%nat).
    { unfold blits. rewrite (filter_none is_blit cpu_frame_call l Hall);
        [reflexivity|apply cpu_frame_call_spec]. }
    rewrite Hl, blits_app, Hzero. lia.
Qed.

(** C4 (the claim fails as stated). The factory fell back to the CPU path
    at construction; a later [SetSurfaceSize] runs [CreateSharedTexture]
    again, the registration is attempted again and, the driver accepting it
    this time, the following frame goes through the interop blit. *)
Lemma resize_retries_registration :
  let f := Scenario.wgl_fallback in
  let g := SetSurfaceSize (Scenario.resize GL_FRAMEBUFFER_COMPLETE true) 400 300 f in
  useInterop f = false /\
  registrations (native_log f) = 2%nat /\
  registrations (native_log g) = 3%nat /\
  useInterop g = true /\
  blits (native_log (OnFrameReady Scenario.copy g)) = 1%nat.
Proof. vm_compute. repeat split; reflexivity. Qed.

(** C1 (the claim fails as stated). On the WGL backend [SetSurfaceSize]
    makes the draw context current and reallocates the texture storage
    within the call. *)
Lemma wgl_SetSurfaceSize_resizes_at_once :
  let f := Scenario.wgl_fallback in
  let g := SetSurfaceSize (Scenario.resize GL_FRAMEBUFFER_COMPLETE false) 400 300 f in
  native_log g <> native_log f /\
  take 3 (drop (length (native_log f)) (native_log g)) =
    [wglMakeCurrent draw_glrc; glBindTexture 1; glTexImage2D 400 300].
Proof. vm_compute. split; [discriminate|reflexivity]. Qed.

End WglFrames.

(* ================================================================== *)
(** ** The frame-ready notifiers *)
(* ================================================================== *)

Section Notifiers.

Import Android.

Lemma notify_pending s call :
  g_frameNotificationPending s = false ->
  g_frameNotificationPending (notifyFlutterFrameReady s call) = false.
Proof.
  intros Hp. unfold notifyFlutterFrameReady. destruct call as [now jni].
  rewrite Hp. destruct s, (get_env jni); cbn in *; case_ifs; close_case.
Qed.

(** A call that comes too soon changes nothing. *)
Lemma notify_too_soon s now jni :
  now - g_lastFrameNotification s < kMinFrameInterval ->
  notifyFlutterFrameReady s (now, jni) = s.
Proof.
  intros H. unfold notifyFlutterFrameReady.
  apply Z.ltb_lt in H. now rewrite H.
Qed.

(** A call that passes the rate limit with no notification pending records
    its time and delivers when the Java side can be reached. *)
Lemma notify_accepted s now jni :
  kMinFrameInterval <= now - g_lastFrameNotification s ->
  g_frameNotificationPending s = false ->
  let s' := notifyFlutterFrameReady s (now, jni) in
  g_lastFrameNotification s' = now /\
  g_frameNotificationPending s' = false /\
  delivered s' = (delivered s + if can_deliver s jni then 1 else 0)%nat.
Proof.
  intros H Hp. cbv zeta. unfold notifyFlutterFrameReady, can_deliver.
  replace (now - g_lastFrameNotification s <? kMinFrameInterval) with false
    by (symmetry; apply Z.ltb_ge; exact H).
  rewrite Hp. destruct s, (get_env jni); cbn in *;
    case_ifs; repeat split; close_case.
Qed.






End Notifiers.

(* ================================================================== *)
(** ** Symbolic execution of a method body *)
(* ================================================================== *)

(** For a hypothesis [H : r = body], where [body] is an unfolded method:
    [exec H] walks through the body one [let] and one test at a time,
    splitting on the tests that are not decided. *)

Ltac simpl_cond c :=
  let c1 := eval cbn in c in
  let c2 := eval unfold constant in c1 in
  let c3 := eval cbn in c2 in c3.

Ltac split_on H c :=
  let c' := simpl_cond c in
  change c with c' in H;
  lazymatch c' with
  | true => cbv iota in H
  | false => cbv iota in H
  | _ => destruct c' eqn:?; cbv iota in H
  end.

Ltac exec_step H :=
  lazymatch type of H with
  | ?l = (let x := (let y := ?a in @?v y) in @?b x) =>
      change (l = (let y := a in let x := v y in b x)) in H; cbv beta in H
  | ?l = (let x := (if ?c then _ else _) in @?b x) => split_on H c
  | ?l = (let x := ?a in @?b x) =>
      let a' := simpl_cond a in change (l = b a') in H; cbv beta in H
  | ?l = (if ?c then _ else _) => split_on H c
  end.

Ltac exec H := repeat exec_step H.

(** For a goal [Q (let x := a in b)], where [Q] is a predicate on the
    result of a method body: name the value of the [let] and go on with
    the rest of the body. *)
Lemma let_intro {A B} (a : A) (b : A -> B) (Q : B -> Prop) :
  (forall x, x = a -> Q (b x)) -> Q (let x := a in b x).
Proof. intros H. exact (H a eq_refl). Qed.

Ltac open_let x K :=
  lazymatch goal with
  | |- ?Q (let y := ?a in @?b y) =>
      apply (let_intro a b Q); intros x K;
      let bx := eval cbv beta in (b x) in change (Q bx)
  end.

(** A fact about the value named by [open_let], by executing its
    definition [K] from the state [prev] it was computed from. *)
Ltac by_exec K prev :=
  clear -K; destruct prev; exec K; subst; repeat split; reflexivity.

(* ================================================================== *)
(** ** The EGL factory: what initialisation acquires *)
(* ================================================================== *)

Section EglResources.
Import Egl EglSupport.
#[local] Arguments try_configs : simpl never.

Lemma create_pbuffers_handles env hsc f ok g :
  create_pbuffers env hsc f = (ok, g) ->
  m_drawSurface f = false -> m_uploadSurface f = false ->
  m_display g = m_display f /\ m_drawEglContext g = m_drawEglContext f /\
  m_uploadEglContext g = m_uploadEglContext f /\
  (gl_names g, m_framebufferDeferred g, m_initialized g) =
    (gl_names f, m_framebufferDeferred f, m_initialized f) /\
  (ok = true ->
   if m_useSurfaceless g
   then (m_useSurfaceless f = true \/
         hsc = true /\ (draw_pbuffer env = false \/ upload_pbuffer env = false)) /\
        m_drawSurface g = false /\ m_uploadSurface g = false
   else m_drawSurface g = true /\ m_uploadSurface g = true).
Proof.
  intros H Hd Hu. symmetry in H. cbv beta delta [create_pbuffers] in H.
  destruct f. cbn in Hd, Hu. subst.
  exec H.
  all: injection H as -> ->; bool_hyps; record_simpl; subst;
    repeat split; intros; try discriminate; try reflexivity; auto.
Qed.

Lemma InitializeEGL_handles env f ok g :
  InitializeEGL env f = (ok, g) ->
  handles f = (false, false, false, false, false) ->
  (gl_names g, m_framebufferDeferred g, m_initialized g) =
    (gl_names f, m_framebufferDeferred f, m_initialized f) /\
  (ok = true ->
   m_display g = true /\ m_drawEglContext g = true /\
   m_uploadEglContext g = true /\
   (if m_useSurfaceless g
    then display_surfaceless_context env = true /\
         m_drawSurface g = false /\ m_uploadSurface g = false
    else m_drawSurface g = true /\ m_uploadSurface g = true) /\
   (default_display env = true -> m_useSurfaceless g = true ->
    draw_pbuffer env = false \/ upload_pbuffer env = false)) /\
  (ok = false -> m_drawEglContext g = false /\ m_uploadEglContext g = false) /\
  (m_display g = false -> m_drawSurface g = false /\ m_uploadSurface g = false).
Proof.
  intros H Hf. symmetry in H. cbv beta delta [InitializeEGL] in H.
  unfold handles in Hf. destruct f. cbn in Hf.
  injection Hf as Hf1 Hf2 Hf3 Hf4 Hf5. subst.
  exec H.
  all: try (injection H as -> ->; split; [reflexivity|];
            split; [discriminate|]; record_simpl; now auto).
  all: lazymatch type of H with
       | context [create_pbuffers ?e ?b ?x] =>
           destruct (create_pbuffers e b x) as [? ?] eqn:Hpb;
           cbv beta iota in H
       end;
    apply create_pbuffers_handles in Hpb; [|reflexivity..];
    destruct Hpb as (Hp1 & Hp2 & Hp3 & Hp0 & Hp4).
  all: match goal with g1 : Factory |- _ => destruct g1 end; exec H.
  all: injection H as -> ->; bool_hyps; record_simpl; subst.
  all: split; [exact Hp0|].
  all: split; [|split; [now auto|intros; discriminate]].
  all: intros Hok; try discriminate;
    specialize (Hp4 eq_refl); destruct m_useSurfaceless1;
    intuition (try discriminate; try congruence; auto).
Qed.

(** X1. A factory whose constructor succeeded owns every EGL object it
    needs: a display, the draw context and the upload context, and either
    both pbuffer surfaces or, in surfaceless mode, none, which the display
    must support. With the default display available, surfaceless mode is
    only the fallback for a pbuffer that could not be created. No GL object
    and no wrapper exists yet; the framebuffer is due at the first
    [GetDrawContext]. *)
Theorem valid_factory_owns_its_resources (env : EglEnv) (w h : Z) :
  let f := AgusEglContextFactory env w h in
  IsValid f = true ->
  m_display f = true /\ m_drawEglContext f = true /\
  m_uploadEglContext f = true /\
  (if m_useSurfaceless f
   then display_surfaceless_context env = true /\
        m_drawSurface f = false /\ m_uploadSurface f = false
   else m_drawSurface f = true /\ m_uploadSurface f = true) /\
  (default_display env = true -> m_useSurfaceless f = true ->
   draw_pbuffer env = false \/ upload_pbuffer env = false) /\
  m_framebufferDeferred f = true /\ gl_names f = (0, 0, 0) /\
  m_drawContext f = None /\ m_uploadContext f = None.
Proof.
  cbv zeta. unfold IsValid.
  pose proof (constructed_surface_state env w h) as Hs.
  unfold surface_state in Hs. injection Hs as _ _ _ _ _ _ _ _ _ _ Hd Hu.
  revert Hd Hu. unfold AgusEglContextFactory. cbv zeta.
  set (f0 := members0<|m_width := w|><|m_height := h|>
                     <|m_renderedWidth := w|><|m_renderedHeight := h|>).
  pose proof (InitializeEGL_handles env f0) as Hh.
  destruct (InitializeEGL env f0) as [ok g].
  specialize (Hh ok g eq_refl eq_refl). destruct Hh as (Hn & Hok & _ & _).
  destruct ok; cbn [negb]; intros Hd Hu Hv.
  - destruct (Hok eq_refl) as (H1 & H2 & H3 & H4 & H5).
    destruct g; record_simpl. injection Hn as -> -> -> _ _.
    repeat split; auto.
  - destruct g; record_simpl. injection Hn as _ _ _ _ Hi. congruence.
Qed.

Lemma valid_factory_owns_its_resources_witness :
  let f := AgusEglContextFactory Scenario.egl 2 2 in
  m_display f = true /\ m_drawEglContext f = true /\
  m_uploadEglContext f = true /\
  (if m_useSurfaceless f
   then display_surfaceless_context Scenario.egl = true /\
        m_drawSurface f = false /\ m_uploadSurface f = false
   else m_drawSurface f = true /\ m_uploadSurface f = true) /\
  (default_display Scenario.egl = true -> m_useSurfaceless f = true ->
   draw_pbuffer Scenario.egl = false \/ upload_pbuffer Scenario.egl = false) /\
  m_framebufferDeferred f = true /\ gl_names f = (0, 0, 0) /\
  m_drawContext f = None /\ m_uploadContext f = None.
Proof.
  apply (valid_factory_owns_its_resources Scenario.egl 2 2). reflexivity.
Defined.

End EglResources.

(* ================================================================== *)
(** ** The EGL factory: what the entry points leave alone *)
(* ================================================================== *)

Section EglSetup.
Import Egl EglSupport.

#[local] Arguments CreateFramebuffer : simpl never.
#[local] Arguments CheckPendingResize : simpl never.
#[local] Arguments ApplyPendingResize : simpl never.
#[local] Arguments CaptureFramePixels : simpl never.
#[local] Arguments OnFrameReady : simpl never.
#[local] Arguments Present : simpl never.
#[local] Arguments GetDrawContext : simpl never.

Lemma gpu_setup calls f : setup (gpu calls f) = setup f.
Proof. destruct f; reflexivity. Qed.

Lemma SetSurfaceSize_setup w h f : setup (SetSurfaceSize w h f) = setup f.
Proof. unfold SetSurfaceSize. destruct f. case_ifs; reflexivity. Qed.

Lemma ApplyPendingResize_setup status f :
  setup (ApplyPendingResize status f) = setup f.
Proof. unfold ApplyPendingResize. destruct f. case_ifs; reflexivity. Qed.

Lemma CheckPendingResize_setup status f :
  setup (CheckPendingResize status f) = setup f.
Proof.
  unfold CheckPendingResize. case_ifs; try (destruct f; reflexivity).
  rewrite ApplyPendingResize_setup. destruct f; reflexivity.
Qed.

Lemma CaptureFramePixels_setup env f :
  setup (CaptureFramePixels env f) = setup f.
Proof. unfold CaptureFramePixels. destruct f. case_ifs; reflexivity. Qed.

Lemma MakeCurrent_setup ok c f : setup (MakeCurrent ok c f) = setup f.
Proof. unfold MakeCurrent. destruct f. case_ifs; reflexivity. Qed.

Lemma CreateFramebuffer_fixtures env w h f :
  let g := snd (CreateFramebuffer env w h f) in
  handles g = handles f /\ m_useSurfaceless g = m_useSurfaceless f /\
  (m_initialized g, m_presentAvailable g, m_framebufferDeferred g) =
    (m_initialized f, m_presentAvailable f, m_framebufferDeferred f) /\
  (m_frameCallback g, m_keepAliveCallback g,
   frame_callbacks g, keep_alive_callbacks g) =
    (m_frameCallback f, m_keepAliveCallback f,
     frame_callbacks f, keep_alive_callbacks f).
Proof.
  cbv zeta. destruct (CreateFramebuffer env w h f) as [ok g] eqn:H.
  symmetry in H. cbv beta delta [CreateFramebuffer] in H. destruct f.
  exec H; injection H as -> ->; repeat split; reflexivity.
Qed.

Lemma GetDrawContext_fixtures env f :
  let g := snd (GetDrawContext env f) in
  handles g = handles f /\ m_useSurfaceless g = m_useSurfaceless f /\
  (m_initialized g = true -> m_initialized f = true) /\
  m_presentAvailable g = m_presentAvailable f /\
  (m_frameCallback g, m_keepAliveCallback g,
   frame_callbacks g, keep_alive_callbacks g) =
    (m_frameCallback f, m_keepAliveCallback f,
     frame_callbacks f, keep_alive_callbacks f) /\
  (m_framebufferDeferred f = false ->
   m_framebufferDeferred g = false /\ gl_names g = gl_names f).
Proof.
  cbv zeta. unfold GetDrawContext.
  destruct (m_framebufferDeferred f && (m_framebuffer f =? 0)) eqn:Hdue.
  - pose proof (CreateFramebuffer_fixtures env (m_width f) (m_height f) f) as Hc.
    cbv zeta in Hc.
    destruct (CreateFramebuffer env (m_width f) (m_height f) f) as [ok f1].
    cbn [snd] in Hc. destruct Hc as (H1 & H2 & H3 & H4).
    assert (m_framebufferDeferred f = false -> False) as Hno.
    { intros E. rewrite E in Hdue. discriminate. }
    destruct f, f1. unfold handles in *. cbn in *. simplify_eq.
    destruct ok; cbn; case_ifs; cbn; unfold constant; repeat split;
      try reflexivity; try tauto; intros; congruence.
  - destruct f. cbn. case_ifs; cbn; repeat split; try reflexivity; auto.
Qed.

Lemma Present_setup env c f :
  let g := Present env c f in
  handles g = handles f /\ m_useSurfaceless g = m_useSurfaceless f /\
  gl_names g = gl_names f /\
  (m_initialized g, m_presentAvailable g, m_framebufferDeferred g,
   m_glFunctionsInitialized g) =
    (m_initialized f, m_presentAvailable f, m_framebufferDeferred f,
     m_glFunctionsInitialized f) /\
  (m_frameCallback g, m_keepAliveCallback g, keep_alive_callbacks g) =
    (m_frameCallback f, m_keepAliveCallback f, keep_alive_callbacks f) /\
  frame_callbacks g =
    if Ctx.m_presentAvailable c && Ctx.m_isDrawContext c && m_frameCallback f
    then S (frame_callbacks f) else frame_callbacks f.
Proof.
  cbv zeta. unfold Present.
  destruct (Ctx.m_presentAvailable c); cbn [negb andb];
    [|repeat split; reflexivity].
  destruct (Ctx.m_isDrawContext c); cbn [andb].
  - set (f1 := CheckPendingResize (resize_status env) f).
    set (f2 := gpu [glFinish] f1).
    assert (setup (CaptureFramePixels env f2) = setup f) as Hs.
    { rewrite CaptureFramePixels_setup. unfold f2. rewrite gpu_setup.
      unfold f1. apply CheckPendingResize_setup. }
    unfold OnFrameReady.
    destruct (CaptureFramePixels env f2) as [] eqn:E, f.
    unfold setup, handles, gl_names in Hs. cbn in Hs. simplify_eq.
    cbn. case_ifs; repeat split; reflexivity.
  - destruct f; repeat split; reflexivity.
Qed.

End EglSetup.

Section EglLifetime.
Import Egl EglSupport.

#[local] Arguments CreateFramebuffer : simpl never.
#[local] Arguments CheckPendingResize : simpl never.
#[local] Arguments ApplyPendingResize : simpl never.
#[local] Arguments CaptureFramePixels : simpl never.
#[local] Arguments OnFrameReady : simpl never.
#[local] Arguments Present : simpl never.
#[local] Arguments GetDrawContext : simpl never.
#[local] Arguments SetSurfaceSize : simpl never.
#[local] Arguments MakeCurrent : simpl never.

Ltac kept_direct :=
  unfold kept, names_owned, handles, gl_names; cbn; unfold constant; cbn;
  tauto.

Lemma kept_of_setup f g : setup g = setup f -> kept f g.
Proof.
  destruct f, g. unfold setup, kept, names_owned, handles, gl_names. cbn.
  intros H. simplify_eq. repeat split; auto; intros; apply H; auto.
Qed.

Lemma step_kept f c : kept f (step f c).
Proof.
  destruct c; cbn [step]; unfold on_context.
  - pose proof (GetDrawContext_fixtures env f) as H. cbv zeta in H.
    destruct H as (H1 & H2 & H3 & _ & _ & H6).
    unfold kept. split; [exact H1|]. split; [exact H2|]. split; [exact H3|].
    intros Ho Hd. unfold handles in H1.
    assert (m_drawEglContext f = false) as Hf.
    { clear -H1 Hd. destruct (snd (GetDrawContext env f)), f; cbn in *.
      congruence. }
    destruct (Ho Hf) as [Hdf Hn]. destruct (H6 Hdf). split; congruence.
  - apply kept_of_setup. unfold GetResourcesUploadContext.
    destruct f; cbn. case_ifs; reflexivity.
  - apply kept_of_setup, SetSurfaceSize_setup.
  - destruct f; kept_direct.
  - destruct f; kept_direct.
  - destruct f; kept_direct.
  - unfold RequestActiveFrame. destruct f. case_ifs; kept_direct.
  - apply kept_of_setup. unfold CopyToPixelBuffer.
    destruct buffer; [|reflexivity]. case_ifs; reflexivity.
  - destruct (context r f); [|apply kept_of_setup; reflexivity].
    apply kept_of_setup, MakeCurrent_setup.
  - destruct (context r f); apply kept_of_setup; [|reflexivity].
    destruct f; reflexivity.
  - destruct (context r f); apply kept_of_setup; [|reflexivity].
    unfold SetFramebuffer. destruct framebuffer, f; reflexivity.
  - destruct (context r f); apply kept_of_setup; [|reflexivity].
    destruct r, f; reflexivity.
  - destruct (context r f) as [c|]; [|apply kept_of_setup; reflexivity].
    pose proof (Present_setup env c f) as H. cbv zeta in H.
    destruct H as (H1 & H2 & H3 & H4 & _).
    destruct (Present env c f), f.
    unfold kept, names_owned, handles, gl_names in *. cbn in *.
    simplify_eq. repeat split; auto; apply H; assumption.
Qed.

Lemma run_kept f calls : kept f (run f calls).
Proof.
  revert f. induction calls as [|c calls IH]; intros f.
  - unfold kept. cbn. tauto.
  - rewrite run_cons. specialize (IH (step f c)).
    pose proof (step_kept f c) as Hs. unfold kept in *.
    destruct IH as (I1 & I2 & I3 & I4), Hs as (S1 & S2 & S3 & S4).
    split; [congruence|]. split; [congruence|]. split; auto.
Qed.

Lemma run_stays_invalid f calls :
  IsValid f = false -> IsValid (run f calls) = false.
Proof.
  intros H. destruct (run_kept f calls) as (_ & _ & Hv & _).
  unfold IsValid in *. destruct (m_initialized (run f calls)); [|reflexivity].
  rewrite Hv in H by reflexivity. discriminate.
Qed.

(** X2. Validity is never regained: once [IsValid()] is false, because
    the constructor failed or because the deferred framebuffer could not be
    created, no sequence of entry points makes it true again, not even a
    [GetDrawContext] whose retry succeeds; and the EGL objects the factory
    holds stay the same throughout. *)
Theorem validity_is_never_regained (f : Factory) (calls : list Call) :
  IsValid f = false ->
  IsValid (run f calls) = false /\ handles (run f calls) = handles f.
Proof.
  intros H. split; [now apply run_stays_invalid|].
  now destruct (run_kept f calls) as (Hh & _).
Qed.

Lemma validity_is_never_regained_witness :
  let f := snd (GetDrawContext
                  (Scenario.framebuffer Scenario.GL_FRAMEBUFFER_INCOMPLETE_ATTACHMENT)
                  (AgusEglContextFactory Scenario.egl 2 2)) in
  let calls := [call_GetDrawContext (Scenario.framebuffer GL_FRAMEBUFFER_COMPLETE);
                call_SetSurfaceSize 4 3;
                call_Present Draw Scenario.frame_ok] in
  IsValid (AgusEglContextFactory Scenario.egl 2 2) = true /\
  IsValid f = false /\
  IsValid (run f calls) = false /\ handles (run f calls) = handles f.
Proof.
  cbv zeta. split; [reflexivity|]. split; [reflexivity|].
  apply validity_is_never_regained. reflexivity.
Defined.

End EglLifetime.

(* ================================================================== *)
(** ** The EGL factory: the deferred framebuffer and the wrappers *)
(* ================================================================== *)

Section EglCreation.
Import Egl EglSupport.

#[local] Arguments CreateFramebuffer : simpl never.

(** Once the framebuffer exists or its creation is not due, and the draw
    wrapper exists, [GetDrawContext] is a pure lookup. *)
Lemma GetDrawContext_ready env g c :
  m_framebufferDeferred g && (m_framebuffer g =? 0) = false ->
  m_drawContext g = Some c ->
  GetDrawContext env g = (Some c, g).
Proof.
  intros Hdue Hc. unfold GetDrawContext. rewrite Hdue. cbv beta zeta.
  rewrite Hc. cbn. now rewrite Hc.
Qed.

(** X3. A [GetDrawContext] that handed out the draw wrapper need not be
    repeated: whatever the driver would answer, calling it again, any
    number of times in a row, returns the same wrapper and leaves the
    factory, its framebuffer and its log of GPU calls exactly as they
    are. *)
Theorem GetDrawContext_creates_once
    (env env' : FramebufferEnv) (f g : Factory) (c : Ctx.t) :
  GetDrawContext env f = (Some c, g) ->
  GetDrawContext env' g = (Some c, g).
Proof.
  intros H. unfold GetDrawContext in H.
  destruct (m_framebufferDeferred f && (m_framebuffer f =? 0)) eqn:Hdue.
  - destruct (CreateFramebuffer env (m_width f) (m_height f) f) as [ok f1].
    destruct ok; cbn [negb] in H; [|discriminate].
    cbv beta zeta in H. destruct f1. cbn in H.
    destruct m_drawContext0 eqn:Hw; [|destruct m_drawEglContext0];
      record_simpl; simplify_eq; apply GetDrawContext_ready; reflexivity.
  - cbv beta zeta in H. destruct f. cbn in H, Hdue.
    destruct m_drawContext0 eqn:Hw; [|destruct m_drawEglContext0];
      record_simpl; simplify_eq; apply GetDrawContext_ready; cbn; auto.
Qed.

Lemma GetDrawContext_creates_once_witness :
  let env := Scenario.framebuffer GL_FRAMEBUFFER_COMPLETE in
  let env' := Scenario.framebuffer Scenario.GL_FRAMEBUFFER_INCOMPLETE_ATTACHMENT in
  let f := AgusEglContextFactory Scenario.egl 2 2 in
  exists c g,
    GetDrawContext env f = (Some c, g) /\
    GetDrawContext env' g = (Some c, g).
Proof.
  cbv zeta. eexists _, _. split; [vm_compute; reflexivity|].
  eapply (GetDrawContext_creates_once
            (Scenario.framebuffer GL_FRAMEBUFFER_COMPLETE) _
            (AgusEglContextFactory Scenario.egl 2 2)).
  vm_compute. reflexivity.
Defined.

(** The outcome of a creation whose validation fails. *)
Lemma CreateFramebuffer_incomplete env w h f :
  0 < w -> 0 < h -> make_current env = true ->
  framebuffer_status env <> GL_FRAMEBUFFER_COMPLETE ->
  let r := CreateFramebuffer env w h f in
  fst r = false /\ m_framebuffer (snd r) = gen_framebuffer env /\
  m_drawContext (snd r) = m_drawContext f /\
  m_drawEglContext (snd r) = m_drawEglContext f /\
  m_framebufferDeferred (snd r) = m_framebufferDeferred f.
Proof.
  intros Hw Hh Hm Hs. cbv zeta.
  destruct (CreateFramebuffer env w h f) as [ok g] eqn:H.
  symmetry in H. cbv beta delta [CreateFramebuffer] in H. destruct f.
  exec H; injection H as -> ->; bool_hyps; cbn.
  all: try (repeat split; reflexivity).
  all: try lia; try congruence.
  all: exfalso; apply Hs; apply Z.eqb_eq; assumption.
Qed.

Lemma GetDrawContext_failed env f :
  m_framebufferDeferred f && (m_framebuffer f =? 0) = true ->
  fst (CreateFramebuffer env (m_width f) (m_height f) f) = false ->
  GetDrawContext env f =
    (None, (snd (CreateFramebuffer env (m_width f) (m_height f) f))
             <|m_initialized := false|>).
Proof.
  intros Hdue Hf. unfold GetDrawContext. rewrite Hdue.
  destruct (CreateFramebuffer env (m_width f) (m_height f) f) as [ok f1].
  cbn [fst] in Hf. subst ok. reflexivity.
Qed.

Lemma GetDrawContext_wraps env g :
  m_framebufferDeferred g && (m_framebuffer g =? 0) = false ->
  m_drawContext g = None -> m_drawEglContext g = true ->
  exists c, GetDrawContext env g = (Some c, g<|m_drawContext := Some c|>).
Proof.
  intros Hdue Hc He. unfold GetDrawContext. rewrite Hdue. cbv beta zeta.
  rewrite Hc, He. eexists. reflexivity.
Qed.

(** X4. A deferred creation that fails at the completeness check is not
    repeated. The failing [GetDrawContext] returns null and marks the
    factory invalid, but the framebuffer name it generated stays in place,
    so the next [GetDrawContext] skips the creation: it issues no GPU call,
    hands out a draw wrapper and leaves the factory invalid. *)
Theorem incomplete_framebuffer_is_not_recreated
    (env env' : FramebufferEnv) (f : Factory) :
  m_framebufferDeferred f = true -> m_framebuffer f = 0 ->
  m_drawContext f = None -> m_drawEglContext f = true ->
  0 < m_width f -> 0 < m_height f ->
  make_current env = true ->
  framebuffer_status env <> GL_FRAMEBUFFER_COMPLETE ->
  gen_framebuffer env <> 0 ->
  let g := snd (GetDrawContext env f) in
  let r := GetDrawContext env' g in
  fst (GetDrawContext env f) = None /\ IsValid g = false /\
  (exists c, fst r = Some c) /\
  gpu_log (snd r) = gpu_log g /\
  GetFramebufferId (snd r) = gen_framebuffer env /\
  IsValid (snd r) = false.
Proof.
  intros Hd Hfb Hc He Hw Hh Hm Hs Hg. cbv zeta.
  pose proof (CreateFramebuffer_incomplete env _ _ f Hw Hh Hm Hs) as Hcf.
  cbv zeta in Hcf. destruct Hcf as (H0 & H1 & H2 & H3 & H4).
  rewrite (GetDrawContext_failed env f) by
    (try exact H0; rewrite Hd, Hfb; reflexivity).
  cbn [fst snd].
  set (f1 := snd (CreateFramebuffer env (m_width f) (m_height f) f)) in *.
  assert (Hw1 : exists c, GetDrawContext env' (f1<|m_initialized := false|>) =
            (Some c, f1<|m_initialized := false|><|m_drawContext := Some c|>)).
  { apply GetDrawContext_wraps.
    - clearbody f1. destruct f1. cbn in *. subst.
      apply andb_false_iff. right. now apply Z.eqb_neq.
    - clearbody f1. destruct f1. cbn in *. congruence.
    - clearbody f1. destruct f1. cbn in *. congruence. }
  destruct Hw1 as [c Hw1]. rewrite Hw1. cbn [fst snd].
  clearbody f1. unfold IsValid, GetFramebufferId. destruct f1. cbn in *.
  repeat split; eauto.
Qed.

Lemma incomplete_framebuffer_is_not_recreated_witness :
  let env := Scenario.framebuffer Scenario.GL_FRAMEBUFFER_INCOMPLETE_ATTACHMENT in
  let env' := Scenario.framebuffer GL_FRAMEBUFFER_COMPLETE in
  let f := AgusEglContextFactory Scenario.egl 2 2 in
  let g := snd (GetDrawContext env f) in
  let r := GetDrawContext env' g in
  fst (GetDrawContext env f) = None /\ IsValid g = false /\
  (exists c, fst r = Some c) /\
  gpu_log (snd r) = gpu_log g /\
  GetFramebufferId (snd r) = gen_framebuffer env /\
  IsValid (snd r) = false.
Proof.
  apply (incomplete_framebuffer_is_not_recreated
           (Scenario.framebuffer Scenario.GL_FRAMEBUFFER_INCOMPLETE_ATTACHMENT)
           (Scenario.framebuffer GL_FRAMEBUFFER_COMPLETE)
           (AgusEglContextFactory Scenario.egl 2 2));
    try reflexivity; vm_compute; congruence.
Defined.

End EglCreation.

(* ================================================================== *)
(** ** The EGL factory: invalid factories, notifications, bursts of
       resize requests *)
(* ================================================================== *)

Section EglBehaviour.
Import Egl EglSupport.

#[local] Arguments CreateFramebuffer : simpl never.
#[local] Arguments CheckPendingResize : simpl never.
#[local] Arguments ApplyPendingResize : simpl never.
#[local] Arguments CaptureFramePixels : simpl never.
#[local] Arguments OnFrameReady : simpl never.
#[local] Arguments Present : simpl never.
#[local] Arguments GetDrawContext : simpl never.
#[local] Arguments SetSurfaceSize : simpl never.
#[local] Arguments MakeCurrent : simpl never.

(** A factory without EGL contexts, wrappers and a framebuffer to create
    stays so, and no entry point reaches the GPU or the staging buffer. *)
Lemma step_inert f c :
  m_drawEglContext f = false -> m_uploadEglContext f = false ->
  m_framebufferDeferred f = false ->
  m_drawContext f = None -> m_uploadContext f = None ->
  let g := step f c in
  (m_drawEglContext g = false /\ m_uploadEglContext g = false /\
   m_framebufferDeferred g = false /\
   m_drawContext g = None /\ m_uploadContext g = None) /\
  gpu_log g = gpu_log f /\ m_pixelBuffer g = m_pixelBuffer f.
Proof.
  intros H1 H2 H3 H4 H5. cbv zeta.
  destruct c; cbn [step]; unfold on_context, context;
    try (rewrite ?H4, ?H5; destruct f; cbn in *; now auto).
  - unfold GetDrawContext. rewrite H3. cbn [andb]. cbv beta zeta.
    rewrite H4, H1. cbn [snd]. auto 10.
  - unfold GetResourcesUploadContext. rewrite H5, H2. cbn [snd]. auto 10.
  - destruct (SetSurfaceSize_frame width height f) as (Hw & Hp & _ & Hl).
    pose proof (SetSurfaceSize_setup width height f) as Hs.
    unfold wrappers in Hw.
    destruct (SetSurfaceSize width height f), f.
    unfold setup, handles in Hs. cbn in *. simplify_eq. auto 10.
  - unfold RequestActiveFrame. destruct f; cbn in *.
    case_ifs; cbn; auto 10.
  - unfold CopyToPixelBuffer. destruct buffer; [|cbn; auto 10].
    case_ifs; cbn; auto 10.
  - destruct r; rewrite ?H4, ?H5; auto 10.
  - destruct r; rewrite ?H4, ?H5; auto 10.
  - destruct r; rewrite ?H4, ?H5; auto 10.
  - destruct r; rewrite ?H4, ?H5; auto 10.
  - destruct r; rewrite ?H4, ?H5; auto 10.
Qed.

Lemma run_inert f calls :
  m_drawEglContext f = false -> m_uploadEglContext f = false ->
  m_framebufferDeferred f = false ->
  m_drawContext f = None -> m_uploadContext f = None ->
  let g := run f calls in
  (m_framebufferDeferred g = false /\ m_drawEglContext g = false /\
   m_drawContext g = None /\ m_uploadContext g = None) /\
  gpu_log g = gpu_log f /\ m_pixelBuffer g = m_pixelBuffer f.
Proof.
  revert f. induction calls as [|c calls IH]; intros f H1 H2 H3 H4 H5.
  - cbn. auto 10.
  - cbv zeta. rewrite run_cons.
    destruct (step_inert f c H1 H2 H3 H4 H5) as ((S1 & S2 & S3 & S4 & S5) & Sl & Sp).
    destruct (IH (step f c) S1 S2 S3 S4 S5) as (I & Il & Ip).
    split; [exact I|]. split; congruence.
Qed.

(** X5. A factory whose constructor failed never renders: whatever entry
    points are called on it, no GPU call is issued, no wrapper is created,
    the staging buffer stays empty, [GetDrawContext] keeps returning null
    and [IsValid()] stays false. *)
Theorem invalid_factory_never_renders
    (env : EglEnv) (w h : Z) (calls : list Call) :
  let f := AgusEglContextFactory env w h in
  IsValid f = false ->
  let g := run f calls in
  gpu_log g = [] /\ m_pixelBuffer g = [] /\
  m_drawContext g = None /\ m_uploadContext g = None /\
  IsValid g = false /\
  forall env', fst (GetDrawContext env' g) = None.
Proof.
  cbv zeta. intros Hv.
  pose proof (constructed_surface_state env w h) as Hs.
  unfold surface_state in Hs. injection Hs as _ _ _ _ _ _ _ Hp Hl _ Hd Hu.
  assert (m_drawEglContext (AgusEglContextFactory env w h) = false /\
          m_uploadEglContext (AgusEglContextFactory env w h) = false /\
          m_framebufferDeferred (AgusEglContextFactory env w h) = false)
    as (H1 & H2 & H3).
  { revert Hv. unfold IsValid, AgusEglContextFactory. cbv zeta.
    set (f0 := members0<|m_width := w|><|m_height := h|>
                       <|m_renderedWidth := w|><|m_renderedHeight := h|>).
    pose proof (InitializeEGL_handles env f0) as Hh.
    destruct (InitializeEGL env f0) as [ok g].
    specialize (Hh ok g eq_refl eq_refl). destruct Hh as (Hn & _ & Hno & _).
    destruct ok; cbn [negb].
    - destruct g; cbn. discriminate.
    - intros _. destruct (Hno eq_refl) as [Ha Hb].
      injection Hn as _ _ _ Hdef _. repeat split; assumption. }
  destruct (run_inert _ calls H1 H2 H3 Hd Hu) as ((I1 & I2 & I3 & I4) & Il & Ip).
  split; [congruence|]. split; [congruence|]. split; [exact I3|].
  split; [exact I4|]. split; [now apply run_stays_invalid|].
  intros env'. unfold GetDrawContext. rewrite I1. cbn [andb]. cbv beta zeta.
  now rewrite I3, I2.
Qed.

Lemma invalid_factory_never_renders_witness :
  let env := Scenario.egl<|draw_context := false|> in
  let f := AgusEglContextFactory env 2 2 in
  let g := run f [call_GetDrawContext (Scenario.framebuffer GL_FRAMEBUFFER_COMPLETE);
                  call_SetSurfaceSize 4 3;
                  call_Present Draw Scenario.frame_ok] in
  IsValid f = false /\
  gpu_log g = [] /\ m_pixelBuffer g = [] /\
  m_drawContext g = None /\ m_uploadContext g = None /\
  IsValid g = false /\
  forall env', fst (GetDrawContext env' g) = None.
Proof.
  split; [reflexivity|].
  apply (invalid_factory_never_renders (Scenario.egl<|draw_context := false|>) 2 2).
  reflexivity.
Defined.

(** X6. A [Present] of the draw wrapper invokes the frame callback
    exactly once when one is installed, whether or not a resize was applied
    and whether or not the read-back succeeded; a [Present] of the upload
    wrapper, or of a wrapper whose presentation is switched off, never
    invokes it. The callback itself stays installed. This for frames whose
    size in bytes fits an [int], at the size in use and at the size of a
    pending request. *)
Theorem Present_notifies_exactly_once
    (env : FrameEnv) (c : Ctx.t) (f : Factory) :
  m_renderedWidth f * m_renderedHeight f * 4 <= INT_MAX ->
  m_pendingWidth f * m_pendingHeight f * 4 <= INT_MAX ->
  frame_callbacks (Present env c f) =
    (if Ctx.m_presentAvailable c && Ctx.m_isDrawContext c && m_frameCallback f
     then S (frame_callbacks f) else frame_callbacks f) /\
  m_frameCallback (Present env c f) = m_frameCallback f.
Proof.
  intros _ _.
  pose proof (Present_setup env c f) as H. cbv zeta in H.
  destruct H as (_ & _ & _ & _ & H5 & H6). split; [exact H6|].
  congruence.
Qed.

(** A frame of the 2 x 2 factory with a resize to 4 x 3 pending. *)
Lemma Present_notifies_exactly_once_witness :
  let c := {| Ctx.m_context := true; Ctx.m_isDrawContext := true;
              Ctx.m_surfaceless := false; Ctx.m_presentAvailable := true |} in
  let f := SetSurfaceSize 4 3 Scenario.egl_2x2 in
  (m_renderedWidth f * m_renderedHeight f * 4 = 16 /\
   m_pendingWidth f * m_pendingHeight f * 4 = 48 /\
   m_frameCallback f = true) /\
  frame_callbacks (Present Scenario.frame_ok c f) =
    (if Ctx.m_presentAvailable c && Ctx.m_isDrawContext c && m_frameCallback f
     then S (frame_callbacks f) else frame_callbacks f) /\
  m_frameCallback (Present Scenario.frame_ok c f) = m_frameCallback f.
Proof.
  cbv zeta. split; [repeat split; reflexivity|].
  apply (Present_notifies_exactly_once Scenario.frame_ok
           {| Ctx.m_context := true; Ctx.m_isDrawContext := true;
              Ctx.m_surfaceless := false; Ctx.m_presentAvailable := true |}
           (SetSurfaceSize 4 3 Scenario.egl_2x2));
    vm_compute; congruence.
Defined.

(** X7. The published rendered size is always the surface size the
    factory holds: after the constructor and any sequence of entry points,
    [GetRenderedWidth()] is [GetWidth()] and [GetRenderedHeight()] is
    [GetHeight()]; a pending request changes neither. *)
Theorem rendered_size_tracks_surface_size
    (env : EglEnv) (w h : Z) (calls : list Call) :
  let f := run (AgusEglContextFactory env w h) calls in
  GetRenderedWidth f = GetWidth f /\ GetRenderedHeight f = GetHeight f.
Proof.
  cbv zeta. destruct (constructed_invariants env w h) as [Hr Ha].
  destruct (run_invariants _ calls Hr Ha) as [_ H]. exact H.
Qed.

End EglBehaviour.

Section EglBursts.
Import Egl EglSupport.

#[local] Arguments CheckPendingResize : simpl never.
#[local] Arguments ApplyPendingResize : simpl never.
#[local] Arguments CaptureFramePixels : simpl never.
#[local] Arguments OnFrameReady : simpl never.
#[local] Arguments Present : simpl never.
#[local] Arguments SetSurfaceSize : simpl never.

(** Requests alone change neither the sizes in use, nor the log of GPU
    calls, nor the staging buffer. *)
Lemma run_resize_requests f sizes :
  let g := run f (resize_requests sizes) in
  geometry g = geometry f /\ gpu_log g = gpu_log f /\
  m_pixelBuffer g = m_pixelBuffer f.
Proof.
  revert f. induction sizes as [|[w h] sizes IH]; intros f; cbv zeta.
  - cbn. auto.
  - unfold resize_requests. cbn [map fst snd]. rewrite run_cons. cbn [step].
    destruct (SetSurfaceSize_frame w h f) as (_ & Hp & Hg & Hl).
    destruct (IH (SetSurfaceSize w h f)) as (I1 & I2 & I3).
    unfold resize_requests in *. repeat split; congruence.
Qed.

Lemma resize_requests_last f sizes w h :
  run f (resize_requests (sizes ++ [(w, h)])) =
  SetSurfaceSize w h (run f (resize_requests sizes)).
Proof.
  unfold resize_requests, run. rewrite map_app, fold_left_app. reflexivity.
Qed.

(** A [Present] of the draw wrapper with a request pending for a size
    other than the one in use. *)
Lemma Present_applies_pending env c w h f :
  Ctx.m_isDrawContext c = true -> Ctx.m_presentAvailable c = true ->
  0 < w -> 0 < h -> (w, h) <> (m_width f, m_height f) ->
  pending f = (true, w, h) ->
  let g := Present env c f in
  geometry g = (w, h, w, h) /\ m_pendingResize g = false /\
  storage_sizes (gpu_log g) =
    storage_sizes (gpu_log f) ++ [glTexImage2D w h; glRenderbufferStorage w h] /\
  m_pixelBuffer g =
    m_pixelBuffer
      (CaptureFramePixels env
         (gpu [glFinish]
            (ApplyPendingResize (resize_status env) (f<|m_pendingResize := false|>)))) /\
  geometry (gpu [glFinish]
     (ApplyPendingResize (resize_status env) (f<|m_pendingResize := false|>))) =
    (w, h, w, h).
Proof.
  intros Hrole Hav Hw Hh Hne Hp. cbv zeta.
  unfold pending in Hp. injection Hp as Hp1 Hp2 Hp3.
  unfold Present. rewrite Hrole, Hav. cbn [negb].
  set (f0 := f<|m_pendingResize := false|>).
  assert (Hf0 : m_width f0 = m_width f /\ m_height f0 = m_height f /\
                m_pendingWidth f0 = w /\ m_pendingHeight f0 = h /\
                m_pendingResize f0 = false /\ gpu_log f0 = gpu_log f).
  { unfold f0. destruct f; cbn in *. auto 10. }
  destruct Hf0 as (W0 & H0 & PW & PH & PR & L0).
  assert (Hcheck : CheckPendingResize (resize_status env) f =
                   ApplyPendingResize (resize_status env) f0).
  { unfold CheckPendingResize. rewrite Hp1, Hp2, Hp3. cbn [negb]. fold f0.
    replace ((w <=? 0) || (h <=? 0)) with false
      by (symmetry; apply orb_false_iff; split; apply Z.leb_gt; lia).
    replace ((w =? m_width f0) && (h =? m_height f0)) with false;
      [reflexivity|].
    symmetry. apply andb_false_iff. rewrite W0, H0.
    destruct (Z.eqb_spec w (m_width f)) as [E1|]; [|auto].
    destruct (Z.eqb_spec h (m_height f)) as [E2|]; [|auto].
    exfalso. apply Hne. congruence. }
  rewrite Hcheck.
  set (f1 := ApplyPendingResize (resize_status env) f0).
  pose proof (ApplyPendingResize_view (resize_status env) f0) as Hv.
  fold f1 in Hv. rewrite PW, PH, L0 in Hv.
  destruct (view_eq _ _ (gpu_quiet [glFinish] f1 eq_refl))
    as (_ & _ & Hq3 & Hq4 & Hq5).
  set (f2 := gpu [glFinish] f1) in *.
  pose proof (CaptureFramePixels_frame env f2) as (_ & Hc2 & Hc3 & Hc4).
  destruct (view_eq _ _ (OnFrameReady_view (CaptureFramePixels env f2)))
    as (_ & Ho2 & Ho3 & Ho4 & Ho5).
  clearbody f1. unfold view in Hv.
  assert (geometry f1 = (w, h, w, h) /\ pending f1 = pending f0 /\
          storage_sizes (gpu_log f1) =
            storage_sizes (gpu_log f) ++
              [glTexImage2D w h; glRenderbufferStorage w h]) as (G1 & P1 & S1).
  { repeat split; congruence. }
  split; [congruence|]. split.
  - assert (pending (OnFrameReady (CaptureFramePixels env f2)) = pending f0)
      as E by congruence.
    unfold pending in E. injection E as E _ _. rewrite E. exact PR.
  - split; [congruence|]. split; [exact Ho2|]. congruence.
Qed.

(** X8. Requests are coalesced when the last one asks for a size other
    than the one in use: after any burst of [SetSurfaceSize] calls ending
    in such a request [(w, h)], the next [Present] of the draw wrapper
    publishes exactly [(w, h)], allocates storage once, for that size only,
    and clears the request; if the read-back succeeds the staging buffer
    holds a frame of [w * h * 4] bytes. *)
Theorem burst_applies_last_request
    (env : FrameEnv) (c : Ctx.t) (f : Factory)
    (sizes : list (Z * Z)) (w h : Z) :
  Ctx.m_isDrawContext c = true -> Ctx.m_presentAvailable c = true ->
  0 < w -> 0 < h -> w * h * 4 <= INT_MAX ->
  (w, h) <> (m_width f, m_height f) ->
  let g := Present env c (run f (resize_requests (sizes ++ [(w, h)]))) in
  GetRenderedWidth g = w /\ GetRenderedHeight g = h /\
  GetWidth g = w /\ GetHeight g = h /\
  m_pendingResize g = false /\
  storage_sizes (gpu_log g) =
    storage_sizes (gpu_log f) ++ [glTexImage2D w h; glRenderbufferStorage w h] /\
  (read_error env = GL_NO_ERROR ->
   length (m_pixelBuffer g) = Z.to_nat (w * h * 4)).
Proof.
  intros Hrole Hav Hw Hh _ Hne. cbv zeta. rewrite resize_requests_last.
  destruct (run_resize_requests f sizes) as (Rg & Rl & _).
  set (f1 := run f (resize_requests sizes)) in *.
  assert (Hne1 : (w, h) <> (m_width f1, m_height f1)).
  { unfold geometry in Rg. congruence. }
  pose proof (SetSurfaceSize_pending w h f1 Hw Hh Hne1) as Hp.
  destruct (SetSurfaceSize_frame w h f1) as (_ & _ & Sg & Sl).
  set (f2 := SetSurfaceSize w h f1) in *.
  assert (Hne2 : (w, h) <> (m_width f2, m_height f2)).
  { unfold geometry in Sg. congruence. }
  destruct (Present_applies_pending env c w h f2 Hrole Hav Hw Hh Hne2 Hp)
    as (G & P & S & B & G2).
  unfold GetRenderedWidth, GetRenderedHeight, GetWidth, GetHeight.
  unfold geometry in G.
  do 4 (split; [congruence|]). split; [exact P|]. split.
  - rewrite S, Sl, Rl. reflexivity.
  - intros Herr. rewrite B.
    set (f3 := gpu [glFinish] (ApplyPendingResize (resize_status env)
                                 (f2<|m_pendingResize := false|>))) in *.
    assert (m_renderedWidth f3 = w /\ m_renderedHeight f3 = h) as [R1 R2]
      by (unfold geometry in G2; split; congruence).
    rewrite CaptureFramePixels_captured by (rewrite ?R1, ?R2; assumption).
    rewrite R1, R2.
    assert (Hsize : Z.to_nat (w * h * 4) = (Z.to_nat h * Z.to_nat (w * 4))%nat).
    { rewrite <- Z2Nat.inj_mul by lia. f_equal. ring. }
    destruct (flip_rows_spec (Z.to_nat h) (Z.to_nat (w * 4))
                (tempBuffer env (Z.to_nat (w * h * 4)))
                (vector_resize (Z.to_nat (w * h * 4)) (m_pixelBuffer f3)))
      as [Hlen _].
    + rewrite length_tempBuffer. exact Hsize.
    + rewrite length_vector_resize. exact Hsize.
    + rewrite Hlen. symmetry. exact Hsize.
Qed.

Lemma burst_applies_last_request_witness :
  let c := {| Ctx.m_context := true; Ctx.m_isDrawContext := true;
              Ctx.m_surfaceless := false; Ctx.m_presentAvailable := true |} in
  let f := Scenario.egl_2x2 in
  let g := Present Scenario.frame_ok c
             (run f (resize_requests ([(4, 3); (2, 2); (8, 8)] ++ [(3, 5)]))) in
  GetRenderedWidth g = 3 /\ GetRenderedHeight g = 5 /\
  GetWidth g = 3 /\ GetHeight g = 5 /\
  m_pendingResize g = false /\
  storage_sizes (gpu_log g) =
    storage_sizes (gpu_log f) ++ [glTexImage2D 3 5; glRenderbufferStorage 3 5] /\
  (read_error Scenario.frame_ok = GL_NO_ERROR ->
   length (m_pixelBuffer g) = Z.to_nat (3 * 5 * 4)).
Proof.
  apply (burst_applies_last_request Scenario.frame_ok
           {| Ctx.m_context := true; Ctx.m_isDrawContext := true;
              Ctx.m_surfaceless := false; Ctx.m_presentAvailable := true |}
           Scenario.egl_2x2 [(4, 3); (2, 2); (8, 8)] 3 5);
    try reflexivity; try lia; vm_compute; congruence.
Defined.

End EglBursts.

(* ================================================================== *)
(** ** The EGL factory: tear-down *)
(* ================================================================== *)

Section EglTeardown.
Import Egl EglSupport.

Ltac use_tests :=
  bool_hyps;
  repeat match goal with
         | H : (_ =? _) = true |- _ =>
             pose proof (proj1 (Z.eqb_eq _ _) H); rewrite ?H in *; clear H
         | H : (_ =? _) = false |- _ => rewrite ?H in *; clear H
         end.

Lemma CleanupFramebuffer_spec f log :
  let s := CleanupFramebuffer (f, log) in
  handles (fst s) = handles f /\ wrappers (fst s) = wrappers f /\
  List.filter is_egl_destruction (snd s) = List.filter is_egl_destruction log /\
  (m_drawEglContext f = true ->
   gl_names (fst s) = (0, 0, 0) /\
   gl_deletions (snd s) = gl_deletions log ++ owed_deletions (gl_names f)) /\
  (m_drawEglContext f = false -> s = (f, log)).
Proof.
  cbv zeta. destruct (CleanupFramebuffer (f, log)) as [g l] eqn:H.
  symmetry in H. cbv beta delta [CleanupFramebuffer release update] in H.
  destruct f.
  exec H; injection H as -> ->; cbn [fst snd].
  all: unfold handles, wrappers, gl_names, gl_deletions, owed_deletions.
  all: cbn; rewrite ?List.filter_app; cbn; use_tests; cbn;
    rewrite ?app_nil_r, <- ?app_assoc; cbn;
    repeat split; intros; try discriminate; try reflexivity;
    subst; reflexivity.
Qed.

Lemma CleanupEGL_spec f log :
  let s := CleanupEGL (f, log) in
  gl_names (fst s) = gl_names f /\ wrappers (fst s) = wrappers f /\
  gl_deletions (snd s) = gl_deletions log /\
  List.filter is_egl_destruction (snd s) =
    List.filter is_egl_destruction log ++ owed_destructions (handles f) /\
  (m_display f = true ->
   handles (fst s) = (false, false, false, false, false)) /\
  (m_display f = false -> s = (f, log)).
Proof.
  cbv zeta. destruct (CleanupEGL (f, log)) as [g l] eqn:H.
  symmetry in H. cbv beta delta [CleanupEGL release update] in H.
  destruct f.
  exec H; injection H as -> ->; cbn [fst snd].
  all: unfold handles, wrappers, gl_names, gl_deletions, owed_destructions.
  all: cbn; rewrite ?List.filter_app; cbn;
    rewrite ?app_nil_r, <- ?app_assoc; cbn;
    repeat split; intros; try discriminate; try reflexivity.
Qed.

(** Tear-down of a factory that owns its GL names and, without a display,
    holds no EGL object. *)
Lemma destroy_spec f :
  names_owned f ->
  (m_display f = false -> handles f = (false, false, false, false, false)) ->
  let g := fst (destroy f) in
  let log := snd (destroy f) in
  handles g = (false, false, false, false, false) /\
  gl_names g = (0, 0, 0) /\
  m_drawContext g = None /\ m_uploadContext g = None /\
  gl_deletions log = owed_deletions (gl_names f) /\
  List.filter is_egl_destruction log = owed_destructions (handles f) /\
  destroy g = (g, []).
Proof.
  intros Hown Hnd. cbv zeta. unfold destroy. cbv zeta.
  set (f' := f<|m_drawContext := None|><|m_uploadContext := None|>).
  assert (Hf' : handles f' = handles f /\ gl_names f' = gl_names f /\
                wrappers f' = (None, None) /\
                m_drawEglContext f' = m_drawEglContext f /\
                m_display f' = m_display f /\
                m_framebufferDeferred f' = m_framebufferDeferred f).
  { unfold f'. destruct f; cbn. auto 10. }
  destruct Hf' as (Fh & Fn & Fw & Fd & Fp & _).
  destruct (CleanupFramebuffer_spec f' []) as (C1 & C2 & C3 & C4 & C5).
  destruct (CleanupFramebuffer (f', [])) as [f1 l1]. cbn [fst snd] in *.
  destruct (CleanupEGL_spec f1 l1) as (E1 & E2 & E3 & E4 & E5 & E6).
  destruct (CleanupEGL (f1, l1)) as [g l2] eqn:Hg. cbn [fst snd] in *.
  assert (Hn1 : gl_names f1 = (0, 0, 0) /\
                gl_deletions l1 = owed_deletions (gl_names f)).
  { rewrite Fd in C4, C5. destruct (m_drawEglContext f) eqn:Hd.
    - destruct (C4 eq_refl) as [N D]. split; [exact N|].
      rewrite D, Fn. reflexivity.
    - injection (C5 eq_refl) as -> ->.
      destruct (Hown Hd) as [_ N].
      rewrite Fn, N. split; reflexivity. }
  destruct Hn1 as [N1 D1].
  assert (Hh : handles g = (false, false, false, false, false)).
  { assert (m_display f1 = m_display f) as Hpf
      by (unfold handles in C1, Fh; congruence).
    rewrite Hpf in E5, E6. destruct (m_display f) eqn:Hd; [now apply E5|].
    injection (E6 eq_refl) as -> ->. rewrite C1, Fh. now apply Hnd. }
  assert (Hw : wrappers g = (None, None)) by congruence.
  split; [exact Hh|]. split; [congruence|].
  unfold wrappers in Hw.
  split; [congruence|]. split; [congruence|]. split; [congruence|].
  split; [rewrite E4, C3, C1, Fh; reflexivity|].
  assert (Hg' : g<|m_drawContext := None|><|m_uploadContext := None|> = g).
  { destruct g; cbn in *. unfold constant. congruence. }
  rewrite Hg'.
  assert (Hdg : m_drawEglContext g = false /\ m_display g = false)
    by (unfold handles in Hh; split; congruence).
  destruct Hdg as [Hdg Hpg].
  destruct (CleanupFramebuffer_spec g []) as (_ & _ & _ & _ & G5).
  rewrite (G5 Hdg).
  destruct (CleanupEGL_spec g []) as (_ & _ & _ & _ & _ & G6).
  exact (G6 Hpg).
Qed.

(** What the constructor leaves satisfies the two conditions. *)
Lemma constructed_ownership env w h :
  let f := AgusEglContextFactory env w h in
  names_owned f /\
  (m_display f = false -> handles f = (false, false, false, false, false)).
Proof.
  cbv zeta. unfold AgusEglContextFactory. cbv zeta.
  set (f0 := members0<|m_width := w|><|m_height := h|>
                     <|m_renderedWidth := w|><|m_renderedHeight := h|>).
  pose proof (InitializeEGL_handles env f0) as Hh.
  destruct (InitializeEGL env f0) as [ok g].
  specialize (Hh ok g eq_refl eq_refl).
  destruct Hh as (Hn & Hok & Hno & Hd).
  assert (Hn' : gl_names g = (0, 0, 0) /\ m_framebufferDeferred g = false).
  { assert (gl_names f0 = (0, 0, 0)) as E1 by reflexivity.
    assert (m_framebufferDeferred f0 = false) as E2 by reflexivity.
    split; congruence. }
  destruct Hn' as [N D]. unfold names_owned, handles.
  destruct ok; cbn [negb].
  - destruct (Hok eq_refl) as (H1 & H2 & _).
    destruct g; unfold gl_names in *; cbn in *. split; intros; congruence.
  - destruct (Hno eq_refl) as [H1 H2]. split; [auto|].
    intros Hp. destruct (Hd Hp). congruence.
Qed.

(** X9. The destructor releases everything and nothing twice. For a
    factory in any state reachable from its constructor: afterwards every
    EGL handle is null, every GL name is zero and both wrappers are gone;
    the GL objects deleted are exactly the non-zero names the factory
    held, each once; the EGL objects destroyed are exactly those it held,
    followed by [eglTerminate] when there was a display; and tearing down
    again releases nothing. *)
Theorem teardown_releases_everything
    (env : EglEnv) (w h : Z) (calls : list Call) :
  let f := run (AgusEglContextFactory env w h) calls in
  let g := fst (destroy f) in
  let log := snd (destroy f) in
  handles g = (false, false, false, false, false) /\
  gl_names g = (0, 0, 0) /\
  m_drawContext g = None /\ m_uploadContext g = None /\
  gl_deletions log = owed_deletions (gl_names f) /\
  List.filter is_egl_destruction log = owed_destructions (handles f) /\
  destroy g = (g, []).
Proof.
  cbv zeta. destruct (constructed_ownership env w h) as [Ho Hd].
  destruct (run_kept (AgusEglContextFactory env w h) calls)
    as (Kh & _ & _ & Kn).
  apply destroy_spec; [auto|].
  intros Hp. rewrite Kh. apply Hd.
  unfold handles in Kh. congruence.
Qed.

End EglTeardown.

(* ================================================================== *)
(** ** The extension query *)
(* ================================================================== *)

Section Extensions.
Import EglSupport.

Lemma starts_with_spec needle s :
  starts_with needle s = true <-> exists post, s = needle ++ post.
Proof.
  revert s. induction needle as [|n needle IH]; intros s; cbn.
  - split; [intros _; now exists s|reflexivity].
  - destruct s as [|c s].
    + split; [discriminate|]. intros [post E]. discriminate.
    + rewrite andb_true_iff, IH. split.
      * intros [E [post ->]]. apply Byte.byte_dec_bl in E. subst.
        now exists post.
      * intros [post E]. injection E as -> ->.
        split; [now apply Byte.byte_dec_lb|now exists post].
Qed.

Lemma strstr_found haystack needle i :
  strstr haystack needle = Some i ->
  exists pre post, haystack = pre ++ needle ++ post /\ length pre = i.
Proof.
  revert i. induction haystack as [|c rest IH]; intros i; cbn [strstr].
  - destruct (starts_with needle []) eqn:E; [|discriminate].
    intros [= <-]. apply starts_with_spec in E. destruct E as [post E].
    now exists [], post.
  - destruct (starts_with needle (c :: rest)) eqn:E.
    + intros [= <-]. apply starts_with_spec in E. destruct E as [post E].
      now exists [], post.
    + destruct (strstr rest needle) as [j|]; [|discriminate].
      cbn. intros [= <-]. destruct (IH j eq_refl) as (pre & post & -> & <-).
      now exists (c :: pre), post.
Qed.

Lemma strstr_missing haystack needle :
  strstr haystack needle = None ->
  forall pre post, haystack <> pre ++ needle ++ post.
Proof.
  induction haystack as [|c rest IH]; cbn [strstr].
  - destruct (starts_with needle []) eqn:E; [discriminate|].
    intros _ pre post Heq. destruct pre; [|discriminate].
    assert (starts_with needle [] = true) as E'
      by (apply starts_with_spec; now exists post).
    congruence.
  - destruct (starts_with needle (c :: rest)) eqn:E; [discriminate|].
    destruct (strstr rest needle) as [j|] eqn:Es; [discriminate|].
    intros _ pre post Heq. destruct pre as [|p pre].
    + assert (starts_with needle (c :: rest) = true) as E'
        by (apply starts_with_spec; now exists post).
      congruence.
    + injection Heq as _ Heq. exact (IH eq_refl pre post Heq).
Qed.

(** X10. [HasEglExtension] is a plain substring search. It answers true
    exactly when the queried name occurs somewhere in the extension string,
    not necessarily as a whole space-separated word, so a name that is
    part of a longer advertised name counts as present; it answers false
    when [eglQueryString] returns null. *)
Theorem HasEglExtension_is_substring_search
    (extensions : list byte) (extension : list byte) :
  (HasEglExtension (Some extensions) extension = true <->
   exists pre post, extensions = pre ++ extension ++ post) /\
  HasEglExtension None extension = false.
Proof.
  split; [|reflexivity]. unfold HasEglExtension.
  destruct (strstr extensions extension) as [i|] eqn:E.
  - split; [intros _|reflexivity].
    destruct (strstr_found _ _ _ E) as (pre & post & H & _). eauto.
  - split; [discriminate|]. intros (pre & post & H).
    exfalso. exact (strstr_missing _ _ E pre post H).
Qed.

End Extensions.

(* ================================================================== *)
(** ** The WGL factory: frames on either transfer path *)
(* ================================================================== *)

Section WglCounters.
Import Wgl WglSupport.

#[local] Arguments zero_copy_path : simpl never.
#[local] Arguments cpu_copy_path : simpl never.
#[local] Arguments CopyToSharedTexture : simpl never.
#[local] Arguments read_size : simpl never.

Lemma native_counters calls f :
  (counters (native calls f), sizes (native calls f)) = (counters f, sizes f).
Proof. destruct f; reflexivity. Qed.

Lemma zero_copy_path_counters env fbo w h f :
  (counters (zero_copy_path env fbo w h f), sizes (zero_copy_path env fbo w h f))
  = (counters f, sizes f).
Proof.
  remember (zero_copy_path env fbo w h f) as g eqn:H.
  cbv beta delta [zero_copy_path] in H. destruct f.
  exec H; subst g; reflexivity.
Qed.

Lemma cpu_copy_path_counters env fbo w h f :
  (counters (cpu_copy_path env fbo w h f), sizes (cpu_copy_path env fbo w h f))
  = (counters f, sizes f).
Proof.
  remember (cpu_copy_path env fbo w h f) as g eqn:H.
  cbv beta delta [cpu_copy_path] in H. destruct f.
  exec H; subst g; reflexivity.
Qed.

Lemma read_size_native env calls f :
  read_size env (native calls f) = read_size env f.
Proof. destruct f; reflexivity. Qed.

(** A frame transfer leaves the callbacks, their counters and the surface
    size alone; it publishes the size it read, unless nothing can be
    transferred at all. *)
Lemma CopyToSharedTexture_counters env f :
  let g := CopyToSharedTexture env f in
  counters g = counters f /\
  (m_width g, m_height g) = (m_width f, m_height f) /\
  (m_renderedWidth g, m_renderedHeight g) =
    if negb (useInterop f)
       && (negb (m_stagingTexture f) || negb (m_sharedTexture f))
    then (m_renderedWidth f, m_renderedHeight f)
    else read_size env f.
Proof.
  cbv zeta.
  remember (CopyToSharedTexture env f) as g eqn:H.
  cbv beta delta [CopyToSharedTexture] in H.
  destruct (negb (useInterop f)
            && (negb (m_stagingTexture f) || negb (m_sharedTexture f))) eqn:E.
  { cbv zeta in H. rewrite E in H. subst g. auto. }
  cbv zeta in H. rewrite E in H.
  set (f1 := if negb (was_our_context env)
             then native [wglMakeCurrent draw_glrc] f else f) in H.
  assert (Hf1 : (counters f1, sizes f1) = (counters f, sizes f) /\
                read_size env (native [glGetIntegerv_viewport] f1) =
                  read_size env f).
  { unfold f1. destruct (negb (was_our_context env));
      rewrite ?read_size_native, ?native_counters; auto. }
  destruct Hf1 as (C1 & R1). rewrite R1 in H.
  set (f2 := (native [glGetIntegerv_viewport] f1)
               <|m_renderedWidth := fst (read_size env f)|>
               <|m_renderedHeight := snd (read_size env f)|>) in H.
  assert (Hf2 : counters f2 = counters f /\
                (m_width f2, m_height f2) = (m_width f, m_height f) /\
                (m_renderedWidth f2, m_renderedHeight f2) = read_size env f).
  { unfold f2. clearbody f1. destruct (read_size env f) as [rw rh].
    destruct f1, f. unfold counters, sizes in *. cbn in *.
    simplify_eq. repeat split; reflexivity. }
  clearbody f2. clear C1 R1.
  set (f3 := if useInterop f then zero_copy_path env _ _ _ f2
             else cpu_copy_path env _ _ _ f2) in H.
  assert (Hf3 : (counters f3, sizes f3) = (counters f2, sizes f2)).
  { unfold f3. destruct (useInterop f);
      [apply zero_copy_path_counters|apply cpu_copy_path_counters]. }
  clearbody f3.
  assert (Hg : (counters g, sizes g) = (counters f3, sizes f3)).
  { subst g. destruct (negb (was_our_context env)); [|reflexivity].
    destruct (copy_prev_context env); apply native_counters. }
  clear H. destruct Hf2 as (A & B & C).
  destruct g, f3, f2, f. unfold counters, sizes in *. cbn in *.
  simplify_eq. repeat split; congruence.
Qed.

End WglCounters.

(* ================================================================== *)
(** ** The WGL factory: the synchronisation protocol of a frame *)
(* ================================================================== *)

Section WglProtocol.
Import Wgl WglSupport.

#[local] Arguments zero_copy_path : simpl never.
#[local] Arguments cpu_copy_path : simpl never.
#[local] Arguments CopyToSharedTexture : simpl never.
#[local] Arguments read_size : simpl never.
#[local] Arguments count : simpl never.

Lemma count_app p l1 l2 : count p (l1 ++ l2) = (count p l1 + count p l2)%nat.
Proof. unfold count. now rewrite List.filter_app, length_app. Qed.

Lemma count_native p calls f :
  count p (native_log (native calls f)) =
  (count p (native_log f) + count p calls)%nat.
Proof. destruct f. cbn. apply count_app. Qed.

Ltac count_log :=
  cbn; rewrite <- ?app_assoc; rewrite ?count_app;
  unfold count, plus; cbn; rewrite ?Nat.add_0_r; try reflexivity; try lia.

(** The interop path, call by call. *)
Lemma zero_copy_path_protocol env fbo w h f log0 :
  native_log f = log0 ->
  let g := zero_copy_path env fbo w h f in
  let held := mutex_held env f in
  let done := held && copy_lock_objects env in
  count is_acquire (native_log g) = plus (m_keyedMutex f) (count is_acquire log0) /\
  count is_lock (native_log g) = plus held (count is_lock log0) /\
  count is_blit (native_log g) = plus done (count is_blit log0) /\
  count is_unlock (native_log g) = plus done (count is_unlock log0) /\
  count is_release (native_log g) =
    plus (m_keyedMutex f && held) (count is_release log0) /\
  count is_readback (native_log g) = count is_readback log0 /\
  count is_copy_resource (native_log g) = count is_copy_resource log0.
Proof.
  intros Hlog. cbv zeta. unfold mutex_held.
  remember (zero_copy_path env fbo w h f) as g eqn:H.
  cbv beta delta [zero_copy_path] in H.
  destruct f. cbn in Hlog. subst native_log0.
  destruct m_keyedMutex0, (acquire_sync env), (copy_lock_objects env);
    exec H; subst g; cbn [m_keyedMutex negb orb andb];
    repeat split; count_log.
Qed.

(** The CPU path, call by call. *)
Lemma cpu_copy_path_protocol env fbo w h f log0 :
  native_log f = log0 ->
  let g := cpu_copy_path env fbo w h f in
  let copied := map_staging env in
  count is_readback (native_log g) = S (count is_readback log0) /\
  count is_copy_resource (native_log g) =
    plus copied (count is_copy_resource log0) /\
  count is_acquire (native_log g) =
    plus (m_keyedMutex f && copied) (count is_acquire log0) /\
  count is_release (native_log g) =
    plus (m_keyedMutex f && copied) (count is_release log0) /\
  count is_lock (native_log g) = count is_lock log0 /\
  count is_blit (native_log g) = count is_blit log0 /\
  count is_unlock (native_log g) = count is_unlock log0.
Proof.
  intros Hlog. cbv zeta.
  remember (cpu_copy_path env fbo w h f) as g eqn:H.
  cbv beta delta [cpu_copy_path] in H.
  destruct f. cbn in Hlog. subst native_log0.
  destruct m_keyedMutex0, (map_staging env);
    exec H; subst g; cbn [m_keyedMutex negb orb andb];
    repeat split; count_log.
Qed.

(** Around the path a frame transfer only saves and restores the current
    context and queries the viewport. *)
Lemma CopyToSharedTexture_path env f :
  negb (useInterop f)
    && (negb (m_stagingTexture f) || negb (m_sharedTexture f)) = false ->
  exists f2 fbo w h,
    m_keyedMutex f2 = m_keyedMutex f /\
    (forall p, ignores_context p ->
       count p (native_log f2) = count p (native_log f)) /\
    (forall p, ignores_context p ->
       count p (native_log (CopyToSharedTexture env f)) =
       count p (native_log
                  (if useInterop f then zero_copy_path env fbo w h f2
                   else cpu_copy_path env fbo w h f2))).
Proof.
  intros E.
  remember (CopyToSharedTexture env f) as g eqn:H.
  cbv beta delta [CopyToSharedTexture] in H. cbv zeta in H. rewrite E in H.
  set (f1 := if negb (was_our_context env)
             then native [wglMakeCurrent draw_glrc] f else f) in H.
  set (f2 := (native [glGetIntegerv_viewport] f1)
               <|m_renderedWidth := _|><|m_renderedHeight := _|>) in H.
  eexists f2, _, _, _. split; [|split].
  - unfold f2, f1. destruct (negb (was_our_context env)), f; reflexivity.
  - intros p [Hp1 Hp2].
    assert (native_log f2 = native_log f1 ++ [glGetIntegerv_viewport]) as ->
      by (unfold f2; clearbody f1; destruct f1; reflexivity).
    rewrite count_app. unfold f1.
    destruct (negb (was_our_context env)); rewrite ?count_native;
      unfold count; cbn; rewrite ?Hp1, ?Hp2; cbn; lia.
  - intros p [Hp1 Hp2]. subst g.
    assert (forall t, count p [wglMakeCurrent t] = 0%nat) as Hz
      by (intros t; unfold count; cbn; now rewrite Hp1).
    destruct (negb (was_our_context env)); [|reflexivity].
    destruct (copy_prev_context env);
      rewrite count_native, Hz, Nat.add_0_r; reflexivity.
Qed.

End WglProtocol.

Section WglFrameTheorems.
Import Wgl WglSupport.

#[local] Arguments zero_copy_path : simpl never.
#[local] Arguments cpu_copy_path : simpl never.
#[local] Arguments CopyToSharedTexture : simpl never.
#[local] Arguments read_size : simpl never.
#[local] Arguments count : simpl never.

Ltac ignores := split; [intros t|]; reflexivity.





End WglFrameTheorems.

(* ================================================================== *)
(** ** The WGL factory: what a run of frames transfers *)
(* ================================================================== *)

Section WglTransfers.
Import Wgl WglSupport.

#[local] Arguments zero_copy_path : simpl never.
#[local] Arguments cpu_copy_path : simpl never.
#[local] Arguments CopyToSharedTexture : simpl never.
#[local] Arguments read_size : simpl never.
#[local] Arguments count : simpl never.

Ltac ignores := split; [intros t|]; reflexivity.

(** A frame on the CPU path is read back once when there is a staging and
    a shared texture; otherwise nothing happens at all. *)
Lemma frame_readbacks env f :
  useInterop f = false ->
  if m_stagingTexture f && m_sharedTexture f
  then readbacks (native_log (CopyToSharedTexture env f)) =
         S (readbacks (native_log f))
  else CopyToSharedTexture env f = f.
Proof.
  intros Hi.
  destruct (m_stagingTexture f) eqn:Hs, (m_sharedTexture f) eqn:Ht; cbn [andb].
  2-4: cbv beta delta [CopyToSharedTexture]; cbv zeta;
       rewrite Hi, Hs, Ht; reflexivity.
  destruct (CopyToSharedTexture_path env f) as (f2 & fbo & w & h & Hk & H2 & Hg).
  { rewrite Hi, Hs, Ht. reflexivity. }
  rewrite Hi in Hg.
  destruct (cpu_copy_path_protocol env fbo w h f2 _ eq_refl) as (P1 & _).
  change readbacks with (count is_readback).
  rewrite Hg by ignores. rewrite <- (H2 is_readback) by ignores. exact P1.
Qed.

(** A frame on the interop path is blitted exactly when the keyed mutex,
    if any, was acquired and the interop object could be locked. *)
Lemma frame_blits env f :
  useInterop f = true ->
  blits (native_log (CopyToSharedTexture env f)) =
    plus (mutex_held env f && copy_lock_objects env) (blits (native_log f)).
Proof.
  intros Hi.
  destruct (CopyToSharedTexture_path env f) as (f2 & fbo & w & h & Hk & H2 & Hg).
  { rewrite Hi. reflexivity. }
  rewrite Hi in Hg.
  destruct (zero_copy_path_protocol env fbo w h f2 _ eq_refl) as (_ & _ & P3 & _).
  cbv zeta in P3. unfold mutex_held in *. rewrite Hk in P3.
  change blits with (count is_blit).
  rewrite Hg by ignores. rewrite <- (H2 is_blit) by ignores. exact P3.
Qed.

Lemma native_keyedMutex calls f :
  m_keyedMutex (native calls f) = m_keyedMutex f.
Proof. destruct f; reflexivity. Qed.

Lemma zero_copy_path_keyedMutex env fbo w h f :
  m_keyedMutex (zero_copy_path env fbo w h f) = m_keyedMutex f.
Proof.
  remember (zero_copy_path env fbo w h f) as g eqn:H.
  cbv beta delta [zero_copy_path] in H. destruct f.
  exec H; subst g; reflexivity.
Qed.

Lemma cpu_copy_path_keyedMutex env fbo w h f :
  m_keyedMutex (cpu_copy_path env fbo w h f) = m_keyedMutex f.
Proof.
  remember (cpu_copy_path env fbo w h f) as g eqn:H.
  cbv beta delta [cpu_copy_path] in H. destruct f.
  exec H; subst g; reflexivity.
Qed.

Lemma CopyToSharedTexture_keyedMutex env f :
  m_keyedMutex (CopyToSharedTexture env f) = m_keyedMutex f.
Proof.
  cbv beta delta [CopyToSharedTexture]. cbv zeta.
  destruct (negb (useInterop f)
            && (negb (m_stagingTexture f) || negb (m_sharedTexture f)));
    [reflexivity|].
  set (f1 := if negb (was_our_context env)
             then native [wglMakeCurrent draw_glrc] f else f).
  assert (H1 : m_keyedMutex f1 = m_keyedMutex f)
    by (unfold f1; destruct (negb (was_our_context env));
        rewrite ?native_keyedMutex; reflexivity).
  set (f2 := (native [glGetIntegerv_viewport] f1)
               <|m_renderedWidth := _|><|m_renderedHeight := _|>).
  assert (H2 : m_keyedMutex f2 = m_keyedMutex f)
    by (rewrite <- H1; unfold f2; clearbody f1; destruct f1; reflexivity).
  clearbody f2. clear H1. clearbody f1.
  match goal with
  | |- m_keyedMutex (if _ then (if _ then native _ ?x else native _ ?x) else ?x) = _ =>
      assert (H3 : m_keyedMutex x = m_keyedMutex f)
  end.
  { rewrite <- H2. destruct (useInterop f);
      [apply zero_copy_path_keyedMutex|apply cpu_copy_path_keyedMutex]. }
  destruct (negb (was_our_context env)); [|exact H3].
  destruct (copy_prev_context env); rewrite native_keyedMutex; exact H3.
Qed.

(** A [Present]: the wrapper keeps its role; the log and the keyed mutex
    are those of the frame transfer, which only the draw wrapper runs. *)
Lemma Present_transfer env c f :
  let c' := fst (Present env c f) in
  let g := snd (Present env c f) in
  Ctx.m_isDraw c' = Ctx.m_isDraw c /\
  m_keyedMutex g = m_keyedMutex f /\
  native_log g =
    native_log (if Ctx.m_isDraw c then CopyToSharedTexture env f else f).
Proof.
  cbv zeta. unfold Present.
  destruct (Ctx.m_isDraw c) eqn:Hd; [|auto].
  pose proof (CopyToSharedTexture_keyedMutex env f) as Hk.
  unfold OnFrameReady, RequestActiveFrame.
  set (f1 := CopyToSharedTexture env f) in *. clearbody f1.
  destruct c, f1. cbn in *. subst.
  match goal with |- context [0 <? ?k] => destruct (0 <? k) end; cbn;
    repeat match goal with
           | |- context [if ?b then _ else _] => is_var b; destruct b; cbn
           end; auto.
Qed.

End WglTransfers.

(* ================================================================== *)
(** ** The WGL factory: runs of frames *)
(* ================================================================== *)

Section WglRuns.
Import Wgl WglSupport.

#[local] Arguments CopyToSharedTexture : simpl never.
#[local] Arguments read_size : simpl never.

(** On the interop path a run of frames stays on the interop path,
    registers nothing and reads nothing back. *)
Lemma present_all_interop frames c f :
  useInterop f = true ->
  let g := snd (present_all c f frames) in
  useInterop g = true /\
  registrations (native_log g) = registrations (native_log f) /\
  readbacks (native_log g) = readbacks (native_log f).
Proof.
  revert c f. induction frames as [|env frames IH]; intros c f Hi; [auto|].
  cbv zeta. unfold present_all. cbn [fold_left fst snd].
  pose proof (wgl_Present_frame env c f) as H. rewrite Hi in H.
  destruct (Present env c f) as [c1 f1]. cbn [snd] in H.
  assert (Hi1 : useInterop f1 = true)
    by (rewrite (frame_of_useInterop _ _ _ H); exact Hi).
  destruct (IH c1 f1 Hi1) as (Hu & Hr & Hb).
  unfold present_all in Hu, Hr, Hb. cbn [fst snd] in *.
  split; [exact Hu|]. split.
  - rewrite Hr. eapply frame_of_counts; [exact H|].
    apply interop_frame_call_spec.
  - rewrite Hb. destruct H as (_ & _ & _ & l & Hl & Hall).
    assert (Hzero : readbacks l = 0%nat).
    { unfold readbacks.
      rewrite (filter_none is_readback interop_frame_call l Hall);
        [reflexivity|]. apply interop_frame_call_spec. }
    rewrite Hl, readbacks_app, Hzero. lia.
Qed.

(** On the CPU path every frame of the draw wrapper is read back once,
    provided there is a staging and a shared texture to carry it. *)
Lemma present_all_readbacks frames c f :
  useInterop f = false ->
  let g := snd (present_all c f frames) in
  if Ctx.m_isDraw c && m_stagingTexture f && m_sharedTexture f
  then readbacks (native_log g) = (readbacks (native_log f) + length frames)%nat
  else native_log g = native_log f.
Proof.
  revert c f. induction frames as [|env frames IH]; intros c f Hcpu; cbv zeta.
  - cbn. destruct (_ && _); [lia|reflexivity].
  - unfold present_all. cbn [fold_left fst snd length].
    pose proof (wgl_Present_frame env c f) as H. rewrite Hcpu in H.
    destruct (Present_transfer env c f) as (T1 & _ & T3).
    destruct (Present env c f) as [c1 f1]. cbn [fst snd] in *.
    assert (Hcpu1 : useInterop f1 = false)
      by (rewrite (frame_of_useInterop _ _ _ H); exact Hcpu).
    destruct H as (Hs & _).
    assert (m_stagingTexture f1 = m_stagingTexture f /\
            m_sharedTexture f1 = m_sharedTexture f) as [S1 S2]
      by (unfold interop_state in Hs; split; congruence).
    specialize (IH c1 f1 Hcpu1). cbv zeta in IH. unfold present_all in IH.
    rewrite T1, S1, S2 in IH.
    pose proof (frame_readbacks env f Hcpu) as F.
    destruct (Ctx.m_isDraw c); cbn [andb] in *.
    + destruct (m_stagingTexture f && m_sharedTexture f).
      * rewrite IH, T3, F. lia.
      * rewrite IH, T3, F. reflexivity.
    + rewrite IH. exact T3.
Qed.

(** On the interop path the frames blitted are those of the draw wrapper
    for which the mutex was acquired and the interop object locked. *)
Lemma present_all_blits frames c f :
  useInterop f = true ->
  let g := snd (present_all c f frames) in
  if Ctx.m_isDraw c
  then blits (native_log g) =
         (blits (native_log f) +
          length (List.filter
                    (fun env => mutex_held env f && copy_lock_objects env)
                    frames))%nat
  else native_log g = native_log f.
Proof.
  revert c f. induction frames as [|env frames IH]; intros c f Hi; cbv zeta.
  - cbn. destruct (Ctx.m_isDraw c); [lia|reflexivity].
  - unfold present_all. cbn [fold_left fst snd].
    pose proof (wgl_Present_frame env c f) as H. rewrite Hi in H.
    destruct (Present_transfer env c f) as (T1 & T2 & T3).
    destruct (Present env c f) as [c1 f1]. cbn [fst snd] in *.
    assert (Hi1 : useInterop f1 = true)
      by (rewrite (frame_of_useInterop _ _ _ H); exact Hi).
    specialize (IH c1 f1 Hi1). cbv zeta in IH. unfold present_all in IH.
    rewrite T1 in IH. unfold mutex_held in *. rewrite T2 in IH.
    pose proof (frame_blits env f Hi) as F. unfold mutex_held in F.
    destruct (Ctx.m_isDraw c).
    + rewrite IH, T3, F. cbn [List.filter].
      destruct (_ && copy_lock_objects env); cbn [plus length]; lia.
    + rewrite IH. exact T3.
Qed.

(** X13. The zero-copy strategy is as stable as the fallback. Once the
    interop registration has succeeded, the factory stays on the interop
    path however many [Present] calls follow: none of them reads pixels
    back with [glReadPixels] and none registers again. The frames that
    reach the shared texture are those presented through the draw wrapper
    for which the keyed mutex, if there is one, was acquired and the
    interop object could be locked: each of them is blitted once; every
    other frame is dropped. *)
Theorem interop_lasts_for_all_frames
    (c : Ctx.t) (f : Factory) (frames : list CopyEnv) :
  useInterop f = true ->
  let g := snd (present_all c f frames) in
  useInterop g = true /\
  registrations (native_log g) = registrations (native_log f) /\
  readbacks (native_log g) = readbacks (native_log f) /\
  if Ctx.m_isDraw c
  then blits (native_log g) =
         (blits (native_log f) +
          length (List.filter
                    (fun env => mutex_held env f && copy_lock_objects env)
                    frames))%nat
  else native_log g = native_log f.
Proof.
  intros H. cbv zeta.
  destruct (present_all_interop frames c f H) as (H1 & H2 & H3).
  repeat (split; [assumption|]).
  now apply present_all_blits.
Qed.

(** Three frames after a successful registration; the interop lock is
    refused for the second one. *)
Lemma interop_lasts_for_all_frames_witness :
  let c := {| Ctx.m_glrc := true; Ctx.m_isDraw := true;
              Ctx.m_initialFrameCount := 120 |} in
  let f := SetSurfaceSize (Scenario.resize GL_FRAMEBUFFER_COMPLETE true) 400 300
             Scenario.wgl_fallback in
  let frames := [Scenario.copy; Scenario.copy<|copy_lock_objects := false|>;
                 Scenario.copy] in
  let g := snd (present_all c f frames) in
  useInterop f = true /\
  blits (native_log g) = (blits (native_log f) + 2)%nat /\
  useInterop g = true /\
  registrations (native_log g) = registrations (native_log f) /\
  readbacks (native_log g) = readbacks (native_log f) /\
  if Ctx.m_isDraw c
  then blits (native_log g) =
         (blits (native_log f) +
          length (List.filter
                    (fun env => mutex_held env f && copy_lock_objects env)
                    frames))%nat
  else native_log g = native_log f.
Proof.
  cbv zeta. split; [reflexivity|]. split; [reflexivity|].
  apply (interop_lasts_for_all_frames
           {| Ctx.m_glrc := true; Ctx.m_isDraw := true;
              Ctx.m_initialFrameCount := 120 |}
           (SetSurfaceSize (Scenario.resize GL_FRAMEBUFFER_COMPLETE true) 400 300
              Scenario.wgl_fallback)
           [Scenario.copy; Scenario.copy<|copy_lock_objects := false|>;
            Scenario.copy]).
  reflexivity.
Defined.

(** C4 (amended). Once registration has failed, i.e. the factory is on the
    CPU path, it stays there as long as no resize is applied: however many
    [Present] calls follow, none retries the registration, none blits
    through the interop object, and the strategy the next frame will use
    is still the CPU path. Every frame presented through the draw wrapper
    is read back with [glReadPixels] exactly once when the staging and the
    shared texture exist; without them, or through the upload wrapper, a
    frame issues no native call at all. *)
Theorem fallback_keeps_the_cpu_path
    (c : Ctx.t) (f : Factory) (frames : list CopyEnv) :
  useInterop f = false ->
  let g := snd (present_all c f frames) in
  useInterop g = false /\
  registrations (native_log g) = registrations (native_log f) /\
  blits (native_log g) = blits (native_log f) /\
  if Ctx.m_isDraw c && m_stagingTexture f && m_sharedTexture f
  then readbacks (native_log g) = (readbacks (native_log f) + length frames)%nat
  else native_log g = native_log f.
Proof.
  intros H. cbv zeta.
  destruct (present_all_cpu frames c f H) as (H1 & H2 & H3).
  repeat (split; [assumption|]).
  now apply present_all_readbacks.
Qed.

(** Three frames on the factory whose registration was refused at
    construction. *)
Lemma fallback_keeps_the_cpu_path_witness :
  let c := {| Ctx.m_glrc := true; Ctx.m_isDraw := true;
              Ctx.m_initialFrameCount := 120 |} in
  let f := Scenario.wgl_fallback in
  let frames := [Scenario.copy; Scenario.copy; Scenario.copy] in
  let g := snd (present_all c f frames) in
  useInterop f = false /\
  readbacks (native_log g) = (readbacks (native_log f) + 3)%nat /\
  useInterop g = false /\
  registrations (native_log g) = registrations (native_log f) /\
  blits (native_log g) = blits (native_log f) /\
  if Ctx.m_isDraw c && m_stagingTexture f && m_sharedTexture f
  then readbacks (native_log g) = (readbacks (native_log f) + length frames)%nat
  else native_log g = native_log f.
Proof.
  cbv zeta. split; [reflexivity|]. split; [reflexivity|].
  apply (fallback_keeps_the_cpu_path
           {| Ctx.m_glrc := true; Ctx.m_isDraw := true;
              Ctx.m_initialFrameCount := 120 |}
           Scenario.wgl_fallback [Scenario.copy; Scenario.copy; Scenario.copy]).
  reflexivity.
Defined.

(** One [Present] of the draw wrapper, in terms of the counters. *)
Lemma Present_counters env c f :
  Ctx.m_isDraw c = true ->
  let c' := fst (Present env c f) in
  let g := snd (Present env c f) in
  let k := Ctx.m_initialFrameCount c in
  Ctx.m_isDraw c' = true /\
  Ctx.m_initialFrameCount c' = (if 0 <? k then k - 1 else k) /\
  counters g =
    (m_frameCallback f, m_keepAliveCallback f,
     if m_frameCallback f then S (frame_callbacks f) else frame_callbacks f,
     if m_keepAliveCallback f && (0 <? k)
     then S (keep_alive_callbacks f) else keep_alive_callbacks f).
Proof.
  intros Hd. cbv zeta. unfold Present. rewrite Hd.
  destruct (CopyToSharedTexture_counters env f) as (C & _ & _).
  unfold OnFrameReady, RequestActiveFrame.
  set (f1 := CopyToSharedTexture env f) in *. clearbody f1.
  destruct c, f1, f. unfold counters in *. cbn in *. simplify_eq.
  match goal with |- context [0 <? ?k] => destruct (0 <? k) end; cbn;
    rewrite ?andb_true_r, ?andb_false_r;
    repeat match goal with
           | |- context [if ?b then _ else _] => is_var b; destruct b; cbn
           end;
    unfold constant; repeat split; reflexivity.
Qed.

Lemma present_all_counters frames c f :
  Ctx.m_isDraw c = true -> 0 <= Ctx.m_initialFrameCount c ->
  let n := Z.of_nat (length frames) in
  let k := Ctx.m_initialFrameCount c in
  let c' := fst (present_all c f frames) in
  let g := snd (present_all c f frames) in
  Ctx.m_initialFrameCount c' = Z.max 0 (k - n) /\
  (m_frameCallback g, m_keepAliveCallback g) =
    (m_frameCallback f, m_keepAliveCallback f) /\
  Z.of_nat (frame_callbacks g) =
    Z.of_nat (frame_callbacks f) + (if m_frameCallback f then n else 0) /\
  Z.of_nat (keep_alive_callbacks g) =
    Z.of_nat (keep_alive_callbacks f) +
    (if m_keepAliveCallback f then Z.min n k else 0).
Proof.
  revert c f. induction frames as [|env frames IH]; intros c f Hd Hk; cbv zeta.
  - cbn. repeat split; try lia; destruct (m_frameCallback f), (m_keepAliveCallback f); lia.
  - unfold present_all. cbn [fold_left fst snd length].
    destruct (Present_counters env c f Hd) as (D1 & K1 & C1).
    destruct (Present env c f) as [c1 f1]. cbn [fst snd] in *.
    assert (Hk1 : 0 <= Ctx.m_initialFrameCount c1)
      by (rewrite K1; destruct (Z.ltb_spec 0 (Ctx.m_initialFrameCount c)); lia).
    destruct (IH c1 f1 D1 Hk1) as (I1 & I2 & I3 & I4).
    unfold present_all in I1, I2, I3, I4. cbn [fst snd] in *.
    unfold counters in C1.
    assert (m_frameCallback f1 = m_frameCallback f /\
            m_keepAliveCallback f1 = m_keepAliveCallback f /\
            frame_callbacks f1 =
              (if m_frameCallback f then S (frame_callbacks f)
               else frame_callbacks f) /\
            keep_alive_callbacks f1 =
              (if m_keepAliveCallback f && (0 <? Ctx.m_initialFrameCount c)
               then S (keep_alive_callbacks f) else keep_alive_callbacks f))
      as (A1 & A2 & A3 & A4) by (repeat split; congruence).
    rewrite I1, I3, I4, K1, A1, A2, A3, A4.
    split; [|split; [congruence|]].
    + destruct (Z.ltb_spec 0 (Ctx.m_initialFrameCount c)); lia.
    + destruct (m_frameCallback f), (m_keepAliveCallback f); cbn [andb];
        destruct (Z.ltb_spec 0 (Ctx.m_initialFrameCount c)); split; lia.
Qed.

(** X14. The keep-alive budget of a draw wrapper. Over any run of [n]
    [Present] calls on a wrapper with [k >= 0] initial frames left (120
    for a new wrapper), the frame callback is invoked [n] times and the
    keep-alive callback [min n k] times, each if installed; the budget left
    is [max 0 (k - n)] and is never refilled. *)
Theorem keep_alive_budget (c : Ctx.t) (f : Factory) (frames : list CopyEnv) :
  Ctx.m_isDraw c = true -> 0 <= Ctx.m_initialFrameCount c ->
  let n := Z.of_nat (length frames) in
  let k := Ctx.m_initialFrameCount c in
  let c' := fst (present_all c f frames) in
  let g := snd (present_all c f frames) in
  Ctx.m_initialFrameCount c' = Z.max 0 (k - n) /\
  Z.of_nat (frame_callbacks g) =
    Z.of_nat (frame_callbacks f) + (if m_frameCallback f then n else 0) /\
  Z.of_nat (keep_alive_callbacks g) =
    Z.of_nat (keep_alive_callbacks f) +
    (if m_keepAliveCallback f then Z.min n k else 0).
Proof.
  intros Hd Hk. cbv zeta.
  destruct (present_all_counters frames c f Hd Hk) as (H1 & _ & H3 & H4).
  auto.
Qed.

Lemma keep_alive_budget_witness :
  let c := {| Ctx.m_glrc := true; Ctx.m_isDraw := true;
              Ctx.m_initialFrameCount := 2 |} in
  let f := Scenario.wgl_fallback<|m_keepAliveCallback := true|>
                                <|m_frameCallback := true|> in
  let frames := [Scenario.copy; Scenario.copy; Scenario.copy] in
  let n := Z.of_nat (length frames) in
  let k := Ctx.m_initialFrameCount c in
  let c' := fst (present_all c f frames) in
  let g := snd (present_all c f frames) in
  (Ctx.m_isDraw c = true /\ 0 <= Ctx.m_initialFrameCount c) /\
  Ctx.m_initialFrameCount c' = Z.max 0 (k - n) /\
  Z.of_nat (frame_callbacks g) =
    Z.of_nat (frame_callbacks f) + (if m_frameCallback f then n else 0) /\
  Z.of_nat (keep_alive_callbacks g) =
    Z.of_nat (keep_alive_callbacks f) +
    (if m_keepAliveCallback f then Z.min n k else 0).
Proof.
  split; [split; [reflexivity|cbn; lia]|].
  apply (keep_alive_budget
           {| Ctx.m_glrc := true; Ctx.m_isDraw := true;
              Ctx.m_initialFrameCount := 2 |}
           (Scenario.wgl_fallback<|m_keepAliveCallback := true|>
                                 <|m_frameCallback := true|>)
           [Scenario.copy; Scenario.copy; Scenario.copy]);
    [reflexivity|cbn; lia].
Defined.

Lemma read_size_bounds env f :
  let rs := read_size env f in
  fst rs <= m_width f /\ snd rs <= m_height f /\
  (0 < m_width f -> 0 < m_height f -> 0 < fst rs /\ 0 < snd rs) /\
  (0 < viewport_width env <= m_width f ->
   0 < viewport_height env <= m_height f ->
   rs = (viewport_width env, viewport_height env)).
Proof.
  cbv zeta. unfold read_size.
  destruct ((viewport_width env <=? 0) || (viewport_height env <=? 0)) eqn:E.
  - apply orb_true_iff in E. cbn [fst snd].
    destruct (Z.ltb_spec (m_width f) (m_width f)),
             (Z.ltb_spec (m_height f) (m_height f)); cbn [fst snd];
      repeat split; try lia;
      intros; destruct E as [E|E]; apply Z.leb_le in E; lia.
  - apply orb_false_iff in E. destruct E as [E1 E2].
    apply Z.leb_gt in E1, E2.
    destruct (Z.ltb_spec (m_width f) (viewport_width env)),
             (Z.ltb_spec (m_height f) (viewport_height env)); cbn [fst snd];
      repeat split; try lia; intros; f_equal; lia.
Qed.

(** X15. The size a frame transfer publishes never exceeds the surface:
    whenever a transfer takes place, the published rendered size is the
    viewport clamped to the surface size, the surface size itself when the
    viewport is empty; it is positive when the surface size is, and it is
    the viewport when that fits. The surface size is not changed. *)
Theorem published_size_is_clamped (env : CopyEnv) (f : Factory) :
  negb (useInterop f)
    && (negb (m_stagingTexture f) || negb (m_sharedTexture f)) = false ->
  let g := CopyToSharedTexture env f in
  (GetWidth g, GetHeight g) = (GetWidth f, GetHeight f) /\
  m_renderedWidth g <= GetWidth g /\ m_renderedHeight g <= GetHeight g /\
  (0 < GetWidth f -> 0 < GetHeight f ->
   0 < m_renderedWidth g /\ 0 < m_renderedHeight g) /\
  (0 < viewport_width env <= GetWidth f ->
   0 < viewport_height env <= GetHeight f ->
   (m_renderedWidth g, m_renderedHeight g) =
     (viewport_width env, viewport_height env)).
Proof.
  intros E. cbv zeta. unfold GetWidth, GetHeight.
  destruct (CopyToSharedTexture_counters env f) as (_ & S & R).
  rewrite E in R.
  destruct (read_size_bounds env f) as (B1 & B2 & B3 & B4).
  set (g := CopyToSharedTexture env f) in *. clearbody g.
  destruct (read_size env f) as [rw rh]. cbn [fst snd] in *.
  assert (m_renderedWidth g = rw /\ m_renderedHeight g = rh /\
          m_width g = m_width f /\ m_height g = m_height f)
    as (-> & -> & -> & ->) by (repeat split; congruence).
  repeat split; try assumption; try (apply B3; assumption).
Qed.

Lemma published_size_is_clamped_witness :
  let f := Scenario.wgl_fallback in
  let env := Scenario.copy<|viewport_width := 5000|><|viewport_height := 0|> in
  let g := CopyToSharedTexture env f in
  (GetWidth g, GetHeight g) = (GetWidth f, GetHeight f) /\
  m_renderedWidth g <= GetWidth g /\ m_renderedHeight g <= GetHeight g /\
  (0 < GetWidth f -> 0 < GetHeight f ->
   0 < m_renderedWidth g /\ 0 < m_renderedHeight g) /\
  (0 < viewport_width env <= GetWidth f ->
   0 < viewport_height env <= GetHeight f ->
   (m_renderedWidth g, m_renderedHeight g) =
     (viewport_width env, viewport_height env)).
Proof.
  apply (published_size_is_clamped
           (Scenario.copy<|viewport_width := 5000|><|viewport_height := 0|>)
           Scenario.wgl_fallback).
  reflexivity.
Defined.

End WglRuns.

(* ================================================================== *)
(** ** The WGL factory: the pixels of the CPU copy *)
(* ================================================================== *)

Section WglPixels.
Import WglSupport.

Lemma bgra_lt j : (j < 4)%nat -> (bgra j < 4)%nat.
Proof. intros H. do 4 (destruct j as [|j]; [cbn; lia|]). lia. Qed.

Lemma swizzle_pixel_spec pixels srcRow dstRow x dst :
  (dstRow + x * 4 + 4 <= length dst)%nat ->
  let out := swizzle_pixel pixels srcRow dstRow x dst in
  length out = length dst /\
  (forall j, (j < 4)%nat ->
     out !! (dstRow + x * 4 + j)%nat =
       Some (at_ pixels (srcRow + x * 4 + bgra j))) /\
  (forall i, (i < dstRow + x * 4 \/ dstRow + x * 4 + 4 <= i)%nat ->
     out !! i = dst !! i).
Proof.
  intros Hlen. cbv zeta. unfold swizzle_pixel. cbv zeta.
  set (o := (dstRow + x * 4)%nat) in *.
  set (s := (srcRow + x * 4)%nat).
  split; [now rewrite !length_insert|]. split.
  - intros j Hj.
    destruct j as [|[|[|[|j]]]]; [| | | |lia]; cbn [bgra].
    + rewrite Nat.add_0_r.
      rewrite !list_lookup_insert_ne by lia.
      rewrite list_lookup_insert_eq by lia. reflexivity.
    + rewrite !list_lookup_insert_ne by lia.
      rewrite list_lookup_insert_eq by (rewrite !length_insert; lia).
      reflexivity.
    + rewrite !list_lookup_insert_ne by lia.
      rewrite list_lookup_insert_eq by (rewrite !length_insert; lia).
      now rewrite Nat.add_0_r.
    + rewrite list_lookup_insert_eq by (rewrite !length_insert; lia).
      reflexivity.
  - intros i Hi. rewrite !list_lookup_insert_ne by lia. reflexivity.
Qed.

Lemma swizzle_row_prefix pixels srcRow dstRow dst k :
  (dstRow + k * 4 <= length dst)%nat ->
  let out := fold_left (fun d x => swizzle_pixel pixels srcRow dstRow x d)
               (seq 0 k) dst in
  length out = length dst /\
  (forall x j, (x < k)%nat -> (j < 4)%nat ->
     out !! (dstRow + x * 4 + j)%nat =
       Some (at_ pixels (srcRow + x * 4 + bgra j))) /\
  (forall i, (i < dstRow \/ dstRow + k * 4 <= i)%nat -> out !! i = dst !! i).
Proof.
  induction k as [|k IH]; intros Hlen; cbv zeta.
  - cbn. repeat split; intros; try lia; reflexivity.
  - rewrite seq_S, fold_left_app. cbn [fold_left Nat.add].
    destruct IH as (L & P & U); [lia|].
    set (out := fold_left _ (seq 0 k) dst) in *.
    destruct (swizzle_pixel_spec pixels srcRow dstRow k out) as (L' & P' & U');
      [lia|].
    split; [congruence|]. split.
    + intros x j Hx Hj. destruct (decide (x = k)) as [->|Hne].
      * now apply P'.
      * rewrite U' by lia. apply P; lia.
    + intros i Hi. rewrite U' by lia. apply U. lia.
Qed.

Lemma swizzle_rows_prefix pixels readWidth readHeight rowPitch dst k :
  (readWidth * 4 <= rowPitch)%nat -> (k <= readHeight)%nat ->
  (readHeight * rowPitch <= length dst)%nat ->
  let out := fold_left
    (fun d y =>
       swizzle_row pixels readWidth ((readHeight - 1 - y) * readWidth * 4)
         (y * rowPitch) d)
    (seq 0 k) dst in
  length out = length dst /\
  (forall y x j, (y < k)%nat -> (x < readWidth)%nat -> (j < 4)%nat ->
     out !! (y * rowPitch + x * 4 + j)%nat =
       Some (at_ pixels ((readHeight - 1 - y) * readWidth * 4 + x * 4 + bgra j))) /\
  (forall i,
     (forall y x j, (y < k)%nat -> (x < readWidth)%nat -> (j < 4)%nat ->
        i <> (y * rowPitch + x * 4 + j)%nat) ->
     out !! i = dst !! i).
Proof.
  intros Hw. induction k as [|k IH]; intros Hk Hlen; cbv zeta.
  - cbn. repeat split; intros; try lia; reflexivity.
  - rewrite seq_S, fold_left_app. cbn [fold_left Nat.add].
    destruct IH as (L & P & U); [lia|lia|].
    set (out := fold_left _ (seq 0 k) dst) in *.
    destruct (swizzle_row_prefix pixels ((readHeight - 1 - k) * readWidth * 4)
                (k * rowPitch) out readWidth) as (L' & P' & U').
    { rewrite L. nia. }
    fold (swizzle_row pixels readWidth ((readHeight - 1 - k) * readWidth * 4)
            (k * rowPitch) out) in L', P', U'.
    split; [congruence|]. split.
    + intros y x j Hy Hx Hj. destruct (decide (y = k)) as [->|Hne].
      * now apply P'.
      * rewrite U' by (left; nia). apply P; lia.
    + intros i Hi.
      destruct (decide (k * rowPitch <= i < k * rowPitch + readWidth * 4)%nat)
        as [Hin|Hout].
      * exfalso.
        apply (Hi k ((i - k * rowPitch) / 4)%nat ((i - k * rowPitch) mod 4)%nat).
        -- lia.
        -- apply Nat.Div0.div_lt_upper_bound. lia.
        -- apply Nat.mod_upper_bound. lia.
        -- pose proof (Nat.div_mod_eq (i - k * rowPitch) 4). lia.
      * rewrite U' by lia. apply U.
        intros y x j Hy Hx Hj. apply Hi; lia.
Qed.

Lemma at_read_back read w h i :
  (i < w * h * 4)%nat -> at_ (read_back read w h) i = read i.
Proof.
  intros Hi. unfold at_, read_back.
  rewrite (nth_indep _ Byte.x00 (read 0%nat)) by (now rewrite length_map, length_seq).
  rewrite map_nth, seq_nth by exact Hi. reflexivity.
Qed.

(** X16. The CPU copy flips the frame vertically and swaps red and blue.
    For a read-back of [w x h] pixels into a staging texture of row pitch
    [pitch >= 4 w] and height [H >= h]: byte [j] of the pixel in column [x]
    of row [y] of the staging texture is byte [2, 1, 0, 3] (for
    [j = 0, 1, 2, 3]) of the pixel in column [x] of row [h - 1 - y] of what
    [glReadPixels] delivered; every other byte of the [pitch * H] bytes,
    the padding of the rows and the rows below the frame, is zero. *)
Theorem cpu_copy_flips_and_swizzles
    (read : nat -> byte) (w h pitch H : nat) :
  (w * 4 <= pitch)%nat -> (h <= H)%nat ->
  let staging := fill_staging (read_back read w h) w h pitch H in
  length staging = (pitch * H)%nat /\
  (forall y x j, (y < h)%nat -> (x < w)%nat -> (j < 4)%nat ->
     staging !! (y * pitch + x * 4 + j)%nat =
       Some (read ((h - 1 - y) * w * 4 + x * 4 + bgra j)%nat)) /\
  (forall i, (i < pitch * H)%nat ->
     (forall y x j, (y < h)%nat -> (x < w)%nat -> (j < 4)%nat ->
        i <> (y * pitch + x * 4 + j)%nat) ->
     staging !! i = Some Byte.x00).
Proof.
  intros Hw Hh. cbv zeta. unfold fill_staging, swizzle_rows.
  destruct (swizzle_rows_prefix (read_back read w h) w h pitch
              (replicate (pitch * H) Byte.x00) h Hw (Nat.le_refl h))
    as (L & P & U).
  { rewrite length_replicate. nia. }
  rewrite length_replicate in L. split; [exact L|]. split.
  - intros y x j Hy Hx Hj. rewrite P by assumption. f_equal.
    apply at_read_back. pose proof (bgra_lt j Hj). nia.
  - intros i Hi Hfree. rewrite U by exact Hfree.
    now apply lookup_replicate_2.
Qed.

Lemma cpu_copy_flips_and_swizzles_witness :
  let staging :=
    fill_staging (read_back Scenario.two_tone 1 2) 1 2 8 3 in
  ((1 * 4 <= 8)%nat /\ (2 <= 3)%nat) /\
  length staging = (8 * 3)%nat /\
  (forall y x j, (y < 2)%nat -> (x < 1)%nat -> (j < 4)%nat ->
     staging !! (y * 8 + x * 4 + j)%nat =
       Some (Scenario.two_tone ((2 - 1 - y) * 1 * 4 + x * 4 + bgra j)%nat)) /\
  (forall i, (i < 8 * 3)%nat ->
     (forall y x j, (y < 2)%nat -> (x < 1)%nat -> (j < 4)%nat ->
        i <> (y * 8 + x * 4 + j)%nat) ->
     staging !! i = Some Byte.x00).
Proof.
  split; [lia|].
  apply (cpu_copy_flips_and_swizzles Scenario.two_tone 1 2 8 3); lia.
Defined.

End WglPixels.

(* ================================================================== *)
(** ** The orientation of a copied frame on both backends *)
(* ================================================================== *)

Section FrameOrientation.
Import Egl.

Lemma read_back_lookup read w h i :
  (i < w * h * 4)%nat -> WglSupport.read_back read w h !! i = Some (read i).
Proof.
  intros Hi. unfold WglSupport.read_back.
  rewrite list_lookup_fmap, lookup_seq_lt by exact Hi. reflexivity.
Qed.

(** C7 (amended). On the EGL backend a captured frame of rendered size
    [(w, h)] is the read-back flipped vertically: the staging buffer holds
    [w * h * 4] bytes and its row [y] is row [h - 1 - y] of the bytes
    [glReadPixels] delivered, so the first row [CopyToPixelBuffer] hands
    out is the last row read back, the topmost row of the GL image.
    On the WGL backend the CPU copy flips the rows in the same way, into
    rows that lie [pitch] bytes apart, and reorders the bytes of every
    pixel: byte [j] of pixel [x] of row [y] of the staging texture is byte
    [2, 1, 0, 3] (for [j = 0, 1, 2, 3]) of pixel [x] of row [h - 1 - y] of
    the read-back. *)
Theorem frame_copy_flips_vertically
    (env : FrameEnv) (f : Factory)
    (read : nat -> byte) (rw rh pitch H : nat) :
  (let w := m_renderedWidth f in
   let h := m_renderedHeight f in
   let rowSize := Z.to_nat (w * 4) in
   let raw := tempBuffer env (Z.to_nat (w * h * 4)) in
   let g := CaptureFramePixels env f in
   0 < w -> 0 < h -> w * h * 4 <= INT_MAX ->
   read_error env = GL_NO_ERROR ->
   length (m_pixelBuffer g) = Z.to_nat (w * h * 4) /\
   (forall y, (y < Z.to_nat h)%nat ->
      row rowSize y (m_pixelBuffer g) = row rowSize (Z.to_nat h - 1 - y) raw) /\
   (forall dst, length dst = rowSize ->
      CopyToPixelBuffer (Some dst) (w * 4) g =
        (true, Some (row rowSize (Z.to_nat h - 1) raw), g))) /\
  ((rw * 4 <= pitch)%nat -> (rh <= H)%nat ->
   let raw := WglSupport.read_back read rw rh in
   let staging := WglSupport.fill_staging raw rw rh pitch H in
   length staging = (pitch * H)%nat /\
   forall y x j, (y < rh)%nat -> (x < rw)%nat -> (j < 4)%nat ->
     staging !! (y * pitch + x * 4 + j)%nat =
       raw !! ((rh - 1 - y) * rw * 4 + x * 4 + WglSupport.bgra j)%nat).
Proof.
  split.
  - apply capture_flips_vertically.
  - intros Hw Hh. cbv zeta.
    unfold WglSupport.fill_staging, WglSupport.swizzle_rows.
    destruct (swizzle_rows_prefix (WglSupport.read_back read rw rh) rw rh pitch
                (replicate (pitch * H) Byte.x00) rh Hw (Nat.le_refl rh))
      as (L & P & _).
    { rewrite length_replicate. nia. }
    rewrite length_replicate in L. split; [exact L|].
    intros y x j Hy Hx Hj. rewrite P by assumption.
    pose proof (bgra_lt j Hj).
    rewrite at_read_back, read_back_lookup by nia. reflexivity.
Qed.

(** The two-tone pattern on the 2 x 2 EGL surface, and the same pattern
    read back from a WGL surface one pixel wide into a staging texture of
    pitch 8 and height 3. *)
Lemma frame_copy_flips_vertically_witness :
  let env := Scenario.frame_ok in
  let f := Scenario.egl_2x2 in
  let raw := tempBuffer env 16 in
  let g := CaptureFramePixels env f in
  let wraw := WglSupport.read_back Scenario.two_tone 1 2 in
  let staging := WglSupport.fill_staging wraw 1 2 8 3 in
  (length (m_pixelBuffer g) = 16%nat /\
   (forall y, (y < 2)%nat ->
      row 8 y (m_pixelBuffer g) = row 8 (2 - 1 - y) raw) /\
   (forall dst, length dst = 8%nat ->
      CopyToPixelBuffer (Some dst) 8 g = (true, Some (row 8 (2 - 1) raw), g))) /\
  (length staging = (8 * 3)%nat /\
   forall y x j, (y < 2)%nat -> (x < 1)%nat -> (j < 4)%nat ->
     staging !! (y * 8 + x * 4 + j)%nat =
       wraw !! ((2 - 1 - y) * 1 * 4 + x * 4 + WglSupport.bgra j)%nat).
Proof.
  destruct (frame_copy_flips_vertically Scenario.frame_ok Scenario.egl_2x2
              Scenario.two_tone 1 2 8 3) as [He Hw].
  split.
  - apply He; vm_compute; congruence.
  - apply Hw; lia.
Defined.

(** C7 (the claim fails as stated). On the WGL backend row [y] of the
    staging texture is not row [h - 1 - y] of the read-back: for a
    read-back of two rows of one pixel with bytes 1 to 8, row 0 of the
    staging texture is 7, 6, 5, 8 where the last row read back is
    5, 6, 7, 8. *)
Lemma wgl_copy_reorders_the_bytes :
  let raw := WglSupport.read_back WglSupport.ramp 1 2 in
  let staging := WglSupport.fill_staging raw 1 2 4 2 in
  raw = [Byte.x01; Byte.x02; Byte.x03; Byte.x04;
         Byte.x05; Byte.x06; Byte.x07; Byte.x08] /\
  staging = [Byte.x07; Byte.x06; Byte.x05; Byte.x08;
             Byte.x03; Byte.x02; Byte.x01; Byte.x04] /\
  row 4 0 staging <> row 4 (2 - 1 - 0) raw.
Proof. vm_compute. repeat split; congruence. Qed.

End FrameOrientation.

(* ================================================================== *)
(** ** The WGL factory: construction and destruction *)
(* ================================================================== *)

Section WglConstruction.
Import Wgl WglSupport.

#[local] Arguments cleanup_existing : simpl never.
#[local] Arguments setup_interop : simpl never.
#[local] Arguments cleanupInterop : simpl never.
#[local] Arguments tryTextureInterop : simpl never.
#[local] Arguments tryRenderbufferInterop : simpl never.
#[local] Arguments lock_and_attach : simpl never.

Lemma cleanupInterop_outside f :
  outside_interop (cleanupInterop f) = outside_interop f.
Proof.
  remember (cleanupInterop f) as g eqn:H.
  cbv beta delta [cleanupInterop] in H. destruct f.
  exec H; subst g; reflexivity.
Qed.

Lemma lock_and_attach_outside env attach f :
  outside_interop (snd (lock_and_attach env attach f)) = outside_interop f.
Proof.
  remember (lock_and_attach env attach f) as r eqn:H.
  cbv beta delta [lock_and_attach] in H. destruct f.
  exec H; subst r; reflexivity.
Qed.

Lemma tryTextureInterop_outside env f :
  outside_interop (snd (tryTextureInterop env f)) = outside_interop f.
Proof.
  remember (tryTextureInterop env f) as r eqn:H.
  cbv beta delta [tryTextureInterop] in H. destruct f.
  exec H; subst r; [reflexivity|].
  now rewrite lock_and_attach_outside.
Qed.

Lemma tryRenderbufferInterop_outside env f :
  outside_interop (snd (tryRenderbufferInterop env f)) = outside_interop f.
Proof.
  remember (tryRenderbufferInterop env f) as r eqn:H.
  cbv beta delta [tryRenderbufferInterop] in H. destruct f.
  exec H; subst r; [reflexivity|].
  now rewrite lock_and_attach_outside.
Qed.

Lemma native_outside calls f :
  outside_interop (native calls f) = outside_interop f.
Proof. destruct f; reflexivity. Qed.

Lemma setup_interop_outside env f :
  outside_interop (setup_interop env f) = outside_interop f.
Proof.
  unfold setup_interop.
  destruct (m_wglDXOpenDeviceNV f); [|reflexivity].
  set (f1 := (native [wglDXOpenDeviceNV] f)<|m_interopDevice := open_device env|>).
  assert (H1 : outside_interop f1 = outside_interop f) by (destruct f; reflexivity).
  destruct (m_interopDevice f1); [|exact H1].
  pose proof (tryTextureInterop_outside (texture_interop env) f1) as H2.
  destruct (tryTextureInterop (texture_interop env) f1) as [ok2 f2].
  cbn [snd] in H2.
  assert (H3 : forall r,
             r = (if negb ok2
                  then tryRenderbufferInterop (renderbuffer_interop env)
                         (cleanupInterop f2)
                  else (ok2, f2)) ->
             outside_interop (snd r) = outside_interop f).
  { intros r ->. destruct ok2; cbn [negb snd]; [congruence|].
    rewrite tryRenderbufferInterop_outside, cleanupInterop_outside. congruence. }
  destruct (if negb ok2 then _ else _) as [ok3 f3].
  specialize (H3 _ eq_refl). cbn [snd] in H3.
  destruct ok3; cbn [negb]; [exact H3|].
  cbv zeta.
  assert (H4 : outside_interop (cleanupInterop f3) = outside_interop f)
    by (rewrite cleanupInterop_outside; exact H3).
  destruct (cleanupInterop f3) as []; destruct m_wglDXCloseDeviceNV0;
    exact H4.
Qed.

Ltac use_answers :=
  bool_hyps;
  repeat match goal with
         | H : true = false |- _ => discriminate H
         | H : false = true |- _ => discriminate H
         | H : _ = true |- _ => rewrite ?H in *; clear H
         | H : _ = false |- _ => rewrite ?H in *; clear H
         end.

Lemma InitializeWGL_outcome env f :
  window_objects f = (false, false, false, false) ->
  let r := InitializeWGL env f in
  fst r = contexts_created env && gl_ready env /\
  window_objects (snd r) =
    (let k := contexts_created env in (k, k, k, k)) /\
  d3d_objects (snd r) = d3d_objects f.
Proof.
  intros Hw. cbv zeta.
  unfold contexts_created, gl_ready.
  remember (InitializeWGL env f) as r eqn:H.
  cbv beta delta [InitializeWGL release_window] in H.
  set (st := framebuffer_status env =? GL_FRAMEBUFFER_COMPLETE) in *.
  clearbody st. destruct f.
  unfold window_objects in Hw. cbn in Hw.
  injection Hw as -> -> -> ->.
  exec H.
  all: subst r; unfold window_objects, d3d_objects.
  all: cbn.
  all: use_answers.
  all: cbn; rewrite ?andb_false_r; auto.
Qed.

Lemma InitializeD3D11_outcome env f :
  m_d3dDevice f = false ->
  let r := InitializeD3D11 env f in
  fst r = device_created env /\
  window_objects (snd r) = window_objects f /\
  d3d_objects (snd r) =
    (device_created env, m_sharedTexture f, m_stagingTexture f, m_sharedHandle f).
Proof.
  intros Hd. cbv zeta. unfold InitializeD3D11, device_created.
  destruct f. cbn in Hd. subst.
  destruct (preferred_adapter env), (create_on_preferred env),
    (create_on_default env); cbn; auto.
Qed.

Lemma cleanup_existing_outcome f :
  let g := cleanup_existing f in
  window_objects g = window_objects f /\
  d3d_objects g = (m_d3dDevice f, false, false, false) /\
  m_keyedMutex g = false.
Proof.
  cbv zeta. pattern (cleanup_existing f).
  lazymatch goal with
  | |- ?Q _ =>
      let body := eval cbv beta delta [cleanup_existing] in (cleanup_existing f) in
      change (Q body)
  end.
  open_let f1 K1.
  assert (E1 : (window_objects f1, m_d3dDevice f1) = (window_objects f, m_d3dDevice f))
    by by_exec K1 f.
  clear K1.
  open_let f2 K2.
  assert (E2 : (window_objects f2, m_d3dDevice f2) = (window_objects f1, m_d3dDevice f1))
    by by_exec K2 f1.
  clear K2.
  open_let f3 K3.
  assert (E3 : (window_objects f3, m_d3dDevice f3) = (window_objects f2, m_d3dDevice f2))
    by by_exec K3 f2.
  clear K3.
  open_let f4 K4.
  assert (E4 : (window_objects f4, m_d3dDevice f4) = (window_objects f3, m_d3dDevice f3))
    by by_exec K4 f3.
  clear K4.
  open_let f5 K5.
  assert (E5 : (window_objects f5, m_d3dDevice f5) = (window_objects f4, m_d3dDevice f4)
               /\ m_sharedHandle f5 = false)
    by by_exec K5 f4.
  clear K5. destruct E5 as [E5 E6].
  cbv beta.
  destruct f5. unfold window_objects, d3d_objects in *. record_simpl.
  repeat split; congruence.
Qed.

Lemma setup_interop_fields env f :
  let g := setup_interop env f in
  m_hiddenWindow g = m_hiddenWindow f /\ m_hdc g = m_hdc f /\
  m_drawGlrc g = m_drawGlrc f /\ m_uploadGlrc g = m_uploadGlrc f /\
  m_d3dDevice g = m_d3dDevice f /\ m_sharedTexture g = m_sharedTexture f /\
  m_stagingTexture g = m_stagingTexture f /\
  m_sharedHandle g = m_sharedHandle f.
Proof.
  cbv zeta. pose proof (setup_interop_outside env f) as H.
  unfold outside_interop, window_objects, d3d_objects in H.
  repeat split; congruence.
Qed.

(** The fields [CreateSharedTexture] is followed through. *)
Ltac finish_shared env :=
  cbv beta; cbn [fst snd]; unfold textures_created; subst;
  destruct (context_is_current env), (make_current env);
  cbn [negb andb orb] in *; try discriminate;
  repeat match goal with
         | g : Factory |- _ => destruct g
         | F : _ /\ _ |- _ => destruct F
         end;
  unfold window_objects, d3d_objects in *;
  cbn in *; unfold constant in *;
  destruct (keyed_mutex_requested env), (as_keyed_mutex env);
  cbn [negb andb orb] in *; try discriminate;
  use_answers; cbn; rewrite ?andb_false_r;
  repeat split; intros; try discriminate; try reflexivity; congruence.

Ltac refocus :=
  lazymatch goal with |- fst ?r = _ /\ _ => pattern r end.

Lemma CreateSharedTexture_outcome env w h f :
  let r := CreateSharedTexture env w h f in
  fst r = textures_created env /\
  window_objects (snd r) = window_objects f /\
  m_d3dDevice (snd r) = m_d3dDevice f /\
  (fst r = true ->
   d3d_objects (snd r) = (m_d3dDevice f, true, true, true) /\
   m_width (snd r) = w /\ m_height (snd r) = h).
Proof.
  cbv zeta. pattern (CreateSharedTexture env w h f).
  lazymatch goal with
  | |- ?Q _ =>
      let body := eval cbv beta delta [CreateSharedTexture] in
                    (CreateSharedTexture env w h f) in
      change (Q body)
  end.
  open_let nc Knc.
  open_let f1 K1.
  assert (E1 : (window_objects f1, m_d3dDevice f1) = (window_objects f, m_d3dDevice f))
    by by_exec K1 f.
  clear K1.
  open_let mc Kmc.
  destruct (nc && negb mc) eqn:T1; cbv iota; [|refocus].
  { clear -Knc Kmc T1 E1. finish_shared env. }
  open_let f2 K2.
  destruct (cleanup_existing_outcome f1) as (E2 & E2' & _). refocus.
  rewrite <- K2 in E2, E2'. clear K2.
  open_let f3 K3.
  assert (E3 : (window_objects f3, d3d_objects f3, m_useKeyedMutex f3)
               = (window_objects f2, d3d_objects f2, keyed_mutex_requested env))
    by by_exec K3 f2.
  clear K3.
  open_let f4 K4.
  assert (E4 : (window_objects f4, m_d3dDevice f4, m_sharedTexture f4,
                m_useKeyedMutex f4)
               = (window_objects f3, m_d3dDevice f3, create_shared env,
                  m_useKeyedMutex f3))
    by by_exec K4 f3.
  clear K4.
  destruct (negb (create_shared env)) eqn:T2; cbv iota; [|refocus].
  { clear -Knc Kmc T1 T2 E1 E2 E2' E3 E4. finish_shared env. }
  destruct (negb (as_dxgi_resource env)) eqn:T3; cbv iota; [|refocus].
  { clear -Knc Kmc T1 T2 T3 E1 E2 E2' E3 E4. finish_shared env. }
  open_let f5 K5.
  assert (E5 : (window_objects f5, m_d3dDevice f5, m_sharedTexture f5,
                m_sharedHandle f5, m_useKeyedMutex f5)
               = (window_objects f4, m_d3dDevice f4, m_sharedTexture f4,
                  get_shared_handle env, m_useKeyedMutex f4))
    by by_exec K5 f4.
  clear K5.
  destruct (negb (get_shared_handle env)) eqn:T4; cbv iota; [|refocus].
  { clear -Knc Kmc T1 T2 T3 T4 E1 E2 E2' E3 E4 E5. finish_shared env. }
  open_let f6 K6.
  assert (E6 : (window_objects f6, m_d3dDevice f6, m_sharedTexture f6,
                m_sharedHandle f6, m_useKeyedMutex f6)
               = (window_objects f5, m_d3dDevice f5, m_sharedTexture f5,
                  m_sharedHandle f5, m_useKeyedMutex f5))
    by by_exec K6 f5.
  clear K6.
  assert (U : m_useKeyedMutex f6 = keyed_mutex_requested env)
    by (unfold d3d_objects in *; congruence).
  rewrite U; refocus.
  destruct (keyed_mutex_requested env && negb (as_keyed_mutex env)) eqn:T5; cbv iota; [|refocus].
  { clear -Knc Kmc T1 T2 T3 T4 T5 E1 E2 E2' E3 E4 E5 E6. finish_shared env. }
  open_let f7 K7.
  pose proof (setup_interop_fields env f6) as E7. cbv zeta in E7.
  rewrite <- K7 in E7. clear K7.
  open_let f8 K8.
  assert (E8 : (window_objects f8, d3d_objects f8)
               = (window_objects f7, d3d_objects f7))
    by by_exec K8 f7.
  clear K8.
  open_let f9 K9.
  assert (E9 : (window_objects f9, m_d3dDevice f9, m_sharedTexture f9,
                m_stagingTexture f9, m_sharedHandle f9)
               = (window_objects f8, m_d3dDevice f8, m_sharedTexture f8,
                  create_staging env, m_sharedHandle f8))
    by by_exec K9 f8.
  clear K9.
  destruct (negb (create_staging env)) eqn:T6; cbv iota; [|refocus].
  { clear -Knc Kmc T1 T2 T3 T4 T5 T6 E1 E2 E2' E3 E4 E5 E6 E7 E8 E9.
    finish_shared env. }
  clear -Knc Kmc T1 T2 T3 T4 T5 T6 E1 E2 E2' E3 E4 E5 E6 E7 E8 E9.
  finish_shared env.
Qed.

Lemma CleanupWGL_outcome f :
  (m_hdc f = true -> m_hiddenWindow f = true) ->
  window_objects (CleanupWGL f) = (false, false, false, false) /\
  d3d_objects (CleanupWGL f) = d3d_objects f.
Proof.
  intros Hw. destruct f as [[] []]; cbn in *; auto.
  specialize (Hw eq_refl). discriminate.
Qed.

Lemma CleanupD3D11_outcome f :
  window_objects (CleanupD3D11 f) = window_objects f /\
  d3d_objects (CleanupD3D11 f) = (false, false, false, false).
Proof.
  destruct f as [? ? ? ? ? ? ? ? ? ? ? []]; cbn; auto.
Qed.

(** X17. The shared texture handle tells whether the constructor
    succeeded. The factory holds a shared handle exactly when every step of
    the constructor other than the interop registration was answered with
    success; it then holds the window, its device context, both GL
    contexts, the D3D11 device and both textures, at the requested size.
    Otherwise it holds no D3D11 object at all, and it holds the window and
    the GL contexts only if the failure was in the loading of the GL
    functions or in the framebuffer check, where [InitializeWGL] returns
    without releasing them. A refused interop registration never makes the
    constructor fail. *)
Theorem shared_handle_tells_construction (env : ConstructEnv) (w h : Z) :
  let f := AgusWglContextFactory env w h in
  GetSharedTextureHandle f = all_steps_succeed env /\
  if all_steps_succeed env then
    window_objects f = (true, true, true, true) /\
    d3d_objects f = (true, true, true, true) /\
    GetWidth f = w /\ GetHeight f = h
  else
    d3d_objects f = (false, false, false, false) /\
    window_objects f =
      (let kept := contexts_created (wgl_env env)
                   && negb (gl_ready (wgl_env env)) in
       (kept, kept, kept, kept)).
Proof.
  cbv zeta. unfold AgusWglContextFactory, all_steps_succeed,
    GetSharedTextureHandle, GetWidth, GetHeight. cbv zeta.
  set (f0 := members0<|m_width := w|><|m_height := h|>
                     <|m_renderedWidth := w|><|m_renderedHeight := h|>).
  destruct (InitializeWGL_outcome (wgl_env env) f0 eq_refl) as (A1 & A2 & A3).
  destruct (InitializeWGL (wgl_env env) f0) as [ok1 f1]. cbn [fst snd] in *.
  change (d3d_objects f0) with (false, false, false, false) in A3.
  assert (Hdev : m_d3dDevice f1 = false)
    by (unfold d3d_objects in A3; congruence).
  destruct (InitializeD3D11_outcome (d3d_env env) f1 Hdev) as (B1 & B2 & B3).
  destruct (InitializeD3D11 (d3d_env env) f1) as [ok2 f2]. cbn [fst snd] in *.
  destruct (CreateSharedTexture_outcome (shared_env env) w h f2)
    as (C1 & C2 & C3 & C4).
  destruct (CreateSharedTexture (shared_env env) w h f2) as [ok3 f3].
  cbn [fst snd] in *.
  destruct (CleanupWGL_outcome f2) as [D1 D2].
  { unfold window_objects in A2, B2. intros E.
    assert (m_hdc f1 = true) by congruence. congruence. }
  destruct (CleanupD3D11_outcome f3) as [E1 E2].
  destruct (CleanupWGL_outcome (CleanupD3D11 f3)) as [G1 G2].
  { unfold window_objects in *. intros E.
    assert (m_hdc f1 = true) by congruence. congruence. }
  subst ok1 ok2 ok3.
  destruct (contexts_created (wgl_env env)), (gl_ready (wgl_env env));
    cbn [andb negb] in *.
  2-4: unfold d3d_objects in *; split; [congruence|split; congruence].
  destruct (device_created (d3d_env env)); cbn [andb negb] in *.
  2: { rewrite D1, D2, B3. unfold d3d_objects in *.
       split; [congruence|]. split; [congruence|reflexivity]. }
  destruct (textures_created (shared_env env)); cbn [andb negb] in *.
  - destruct (C4 eq_refl) as (C5 & C6 & C7). unfold d3d_objects in *.
    split; [congruence|]. repeat split; congruence.
  - rewrite G1, G2, E2. split; [|split; reflexivity].
    unfold d3d_objects in *. congruence.
Qed.

End WglConstruction.

(* ================================================================== *)
(** ** The WGL factory: tear-down *)
(* ================================================================== *)

Section WglTeardown.
Import Wgl WglSupport.

Lemma CleanupWGL_teardown f :
  let g := CleanupWGL f in
  (m_hdc f = true -> m_hiddenWindow f = true) ->
  window_objects g = (false, false, false, false) /\
  (d3d_objects g, m_interopDevice g, m_interopObject g,
   m_drawContext g, m_uploadContext g, native_log g)
  = (d3d_objects f, m_interopDevice f, m_interopObject f,
     m_drawContext f, m_uploadContext f, native_log f).
Proof.
  cbv zeta. intros Hw. destruct f as [[] []]; cbn in *; auto.
  specialize (Hw eq_refl). discriminate.
Qed.

Lemma CleanupD3D11_teardown f :
  let g := CleanupD3D11 f in
  d3d_objects g = (false, false, false, false) /\
  native_log g =
    native_log f ++ (if m_sharedHandle f then [CloseHandle] else []) /\
  (window_objects g, m_interopDevice g, m_interopObject g,
   m_drawContext g, m_uploadContext g)
  = (window_objects f, m_interopDevice f, m_interopObject f,
     m_drawContext f, m_uploadContext f).
Proof.
  cbv zeta. destruct f as [? ? ? ? ? ? ? ? ? ? ? []]; cbn;
    rewrite ?app_nil_r; auto.
Qed.

(** One step of the destructor, and one optional deletion. *)
Ltac deletion K prev :=
  clear -K; destruct prev; cbn; unfold constant; cbn;
  exec K; subst; repeat split; reflexivity.

Ltac optional_deletion K prev :=
  clear -K; destruct prev; cbn; unfold constant; cbn;
  exec K; subst; cbn; rewrite ?app_nil_r; reflexivity.

(** X18. The destructor releases the window, the device context, both GL
    contexts and every D3D11 object, closes the shared handle if there is
    one, and, when there is a draw context, deletes exactly the GL names
    of the offscreen framebuffer and the interop renderbuffer. It never
    ends the interop registration: it calls neither
    [wglDXUnregisterObjectNV] nor [wglDXCloseDeviceNV], so a factory on
    the interop path is destroyed with its object still registered and
    the interop device still open. *)
Theorem destructor_leaves_interop_registered (f : Factory) :
  (m_hdc f = true -> m_hiddenWindow f = true) ->
  let g := destroy f in
  window_objects g = (false, false, false, false) /\
  d3d_objects g = (false, false, false, false) /\
  m_drawContext g = None /\ m_uploadContext g = None /\
  (m_interopDevice g, m_interopObject g) = (m_interopDevice f, m_interopObject f) /\
  exists calls,
    native_log g = native_log f ++ calls /\
    count ends_interop calls = 0%nat /\
    omap deleted calls = (if m_drawGlrc f then owed_deletions f else []) /\
    count is_close_handle calls = (if m_sharedHandle f then 1 else 0)%nat.
Proof.
  intros Hw. cbv zeta. pattern (destroy f).
  lazymatch goal with
  | |- ?Q _ =>
      let body := eval cbv beta delta [destroy] in (destroy f) in
      change (Q body)
  end.
  open_let f0 K0.
  assert (E0 : (outside_deletions f0, m_interopRenderbuffer f0, native_log f0)
               = ((window_objects f, d3d_objects f, m_interopDevice f,
                   m_interopObject f, m_framebuffer f, m_renderTexture f,
                   m_depthBuffer f, None, None),
                  m_interopRenderbuffer f, native_log f))
    by deletion K0 f.
  clear K0.
  open_let f7 K7.
  assert (E7 : outside_deletions f7 = outside_deletions f0 /\
               exists calls,
                 native_log f7 = native_log f0 ++ calls /\
                 count ends_interop calls = 0%nat /\
                 count is_close_handle calls = 0%nat /\
                 omap deleted calls =
                   (if m_drawGlrc f0 then owed_deletions f0 else [])).
  { clear -K7. subst f7. destruct (m_drawGlrc f0).
    2: { split; [reflexivity|]. exists []. rewrite app_nil_r. auto. }
    lazymatch goal with
    | |- outside_deletions ?r = _ /\ _ => pattern r
    end.
    open_let f1 K1.
    assert (E1 : (outside_deletions f1, m_interopRenderbuffer f1, native_log f1)
                 = (outside_deletions f0, m_interopRenderbuffer f0,
                    native_log f0 ++ [wglMakeCurrent draw_glrc]))
      by deletion K1 f0.
    clear K1.
    open_let f2 K2.
    assert (E2 : (outside_deletions f2, m_interopRenderbuffer f2, native_log f2)
                 = (outside_deletions f1, m_interopRenderbuffer f1,
                    native_log f1 ++
                      (if negb (m_framebuffer f1 =? 0)
                       then [glDeleteFramebuffers (m_framebuffer f1)] else [])))
      by optional_deletion K2 f1.
    clear K2.
    open_let f3 K3.
    assert (E3 : (outside_deletions f3, m_interopRenderbuffer f3, native_log f3)
                 = (outside_deletions f2, m_interopRenderbuffer f2,
                    native_log f2 ++
                      (if negb (m_renderTexture f2 =? 0)
                       then [glDeleteTextures (m_renderTexture f2)] else [])))
      by optional_deletion K3 f2.
    clear K3.
    open_let f4 K4.
    assert (E4 : (outside_deletions f4, m_interopRenderbuffer f4, native_log f4)
                 = (outside_deletions f3, m_interopRenderbuffer f3,
                    native_log f3 ++
                      (if negb (m_depthBuffer f3 =? 0)
                       then [glDeleteRenderbuffers (m_depthBuffer f3)] else [])))
      by optional_deletion K4 f3.
    clear K4.
    open_let f5 K5.
    assert (E5 : (outside_deletions f5, native_log f5)
                 = (outside_deletions f4,
                    native_log f4 ++
                      (if negb (m_interopRenderbuffer f4 =? 0)
                       then [glDeleteRenderbuffers (m_interopRenderbuffer f4)]
                       else [])))
      by optional_deletion K5 f4.
    clear K5.
    cbv beta.
    assert (E6 : (outside_deletions (native [wglMakeCurrent no_glrc] f5),
                  native_log (native [wglMakeCurrent no_glrc] f5))
                 = (outside_deletions f5,
                    native_log f5 ++ [wglMakeCurrent no_glrc]))
      by (destruct f5; reflexivity).
    revert E6. generalize (native [wglMakeCurrent no_glrc] f5). intros f6 E6.
    clear -E1 E2 E3 E4 E5 E6.
    destruct f0, f1, f2, f3, f4, f5, f6.
    unfold outside_deletions, owed_deletions, window_objects, d3d_objects,
      count in *.
    cbn in *. simplify_eq. split; [reflexivity|].
    eexists. split; [rewrite <- !app_assoc; reflexivity|].
    destruct (m_framebuffer0 =? 0), (m_renderTexture0 =? 0),
      (m_depthBuffer0 =? 0), (m_interopRenderbuffer0 =? 0);
      cbn; auto. }
  clear K7.
  cbv beta.
  destruct (CleanupWGL_teardown f7) as (C1 & C2).
  { unfold outside_deletions, window_objects in *.
    destruct E7 as [E7 _]. intros Hdc.
    assert (m_hdc f = true) by congruence.
    specialize (Hw H). congruence. }
  destruct (CleanupD3D11_teardown (CleanupWGL f7)) as (D1 & D2 & D3).
  revert C1 C2 D1 D2 D3. generalize (CleanupWGL f7). intros f8.
  generalize (CleanupD3D11 f8). intros g C1 C2 D1 D2 D3.
  destruct E7 as (E7 & calls & L1 & L2 & L3 & L4).
  assert (Hdraw : m_drawGlrc f0 = m_drawGlrc f /\ owed_deletions f0 = owed_deletions f
                  /\ m_sharedHandle f7 = m_sharedHandle f).
  { unfold outside_deletions, owed_deletions, window_objects, d3d_objects in *.
    repeat split; congruence. }
  destruct Hdraw as (H1 & H2 & H3).
  assert (H4 : m_sharedHandle f8 = m_sharedHandle f)
    by (unfold d3d_objects in C2; congruence).
  split.
  { unfold window_objects in *. congruence. }
  split; [exact D1|].
  unfold outside_deletions in *.
  split; [congruence|]. split; [congruence|]. split; [congruence|].
  exists (calls ++ (if m_sharedHandle f then [CloseHandle] else [])).
  split.
  { rewrite D2, H4. replace (native_log f8) with (native_log f7) by congruence.
    rewrite L1, <- app_assoc. f_equal. congruence. }
  unfold count in *. rewrite List.filter_app, length_app, L2.
  rewrite List.filter_app, length_app, L3, omap_app, L4, H1, H2.
  destruct (m_sharedHandle f); cbn; rewrite ?app_nil_r; auto.
Qed.

Lemma destructor_leaves_interop_registered_witness :
  let f := AgusWglContextFactory
             {| wgl_env := Scenario.wgl; d3d_env := Scenario.d3d;
                shared_env := Scenario.shared true |} 800 600 in
  let g := destroy f in
  useInterop f = true /\
  window_objects g = (false, false, false, false) /\
  d3d_objects g = (false, false, false, false) /\
  m_drawContext g = None /\ m_uploadContext g = None /\
  (m_interopDevice g, m_interopObject g) = (m_interopDevice f, m_interopObject f) /\
  exists calls,
    native_log g = native_log f ++ calls /\
    count ends_interop calls = 0%nat /\
    omap deleted calls = (if m_drawGlrc f then owed_deletions f else []) /\
    count is_close_handle calls = (if m_sharedHandle f then 1 else 0)%nat.
Proof.
  cbv zeta. split; [reflexivity|].
  apply destructor_leaves_interop_registered. reflexivity.
Defined.

End WglTeardown.

(* ================================================================== *)
(** ** The WGL factory: [SetSurfaceSize] acts within the call *)
(* ================================================================== *)

Section WglResize.
Import Wgl WglSupport.

#[local] Arguments cleanup_existing : simpl never.
#[local] Arguments setup_interop : simpl never.
#[local] Arguments cleanupInterop : simpl never.
#[local] Arguments tryTextureInterop : simpl never.
#[local] Arguments tryRenderbufferInterop : simpl never.
#[local] Arguments lock_and_attach : simpl never.
#[local] Arguments CreateSharedTexture : simpl never.

Lemma extends_refl f : extends f f.
Proof. exists []. now rewrite app_nil_r. Qed.

Lemma extends_trans f g k : extends f g -> extends g k -> extends f k.
Proof.
  intros [l1 H1] [l2 H2]. exists (l1 ++ l2). now rewrite H2, H1, app_assoc.
Qed.

Lemma extends_native calls f : extends f (native calls f).
Proof. exists calls. destruct f; reflexivity. Qed.

(** Closes [extends f g] once [g] is a record whose log is the log of [f]
    with calls appended. *)
Ltac appended :=
  unfold extends; cbn; unfold constant; cbn;
  first [ eexists; rewrite <- ?app_assoc; reflexivity
        | exists []; now rewrite app_nil_r ].

Ltac extends_by_exec K prev :=
  clear -K; destruct prev; exec K; subst; appended.

Lemma cleanupInterop_extends f : extends f (cleanupInterop f).
Proof.
  remember (cleanupInterop f) as g eqn:H.
  cbv beta delta [cleanupInterop] in H. extends_by_exec H f.
Qed.

Lemma lock_and_attach_extends env attach f :
  extends f (snd (lock_and_attach env attach f)).
Proof.
  remember (lock_and_attach env attach f) as r eqn:H.
  cbv beta delta [lock_and_attach] in H. extends_by_exec H f.
Qed.

Lemma tryTextureInterop_extends env f :
  extends f (snd (tryTextureInterop env f)).
Proof.
  remember (tryTextureInterop env f) as r eqn:H.
  cbv beta delta [tryTextureInterop] in H. destruct f.
  exec H; subst r; [appended|].
  eapply extends_trans; [|apply lock_and_attach_extends]. appended.
Qed.

Lemma tryRenderbufferInterop_extends env f :
  extends f (snd (tryRenderbufferInterop env f)).
Proof.
  remember (tryRenderbufferInterop env f) as r eqn:H.
  cbv beta delta [tryRenderbufferInterop] in H. destruct f.
  exec H; subst r; [appended|].
  eapply extends_trans; [|apply lock_and_attach_extends]. appended.
Qed.

Lemma setup_interop_extends env f : extends f (setup_interop env f).
Proof.
  unfold setup_interop.
  destruct (m_wglDXOpenDeviceNV f); [|apply extends_refl].
  set (f1 := (native [wglDXOpenDeviceNV] f)<|m_interopDevice := open_device env|>).
  assert (H1 : extends f f1) by (unfold f1; destruct f; appended).
  destruct (m_interopDevice f1); [|exact H1].
  pose proof (tryTextureInterop_extends (texture_interop env) f1) as H2.
  destruct (tryTextureInterop (texture_interop env) f1) as [ok2 f2].
  cbn [snd] in H2.
  assert (H3 : forall r,
             r = (if negb ok2
                  then tryRenderbufferInterop (renderbuffer_interop env)
                         (cleanupInterop f2)
                  else (ok2, f2)) ->
             extends f (snd r)).
  { intros r ->. destruct ok2; cbn [negb snd].
    - eapply extends_trans; eassumption.
    - eapply extends_trans; [exact H1|].
      eapply extends_trans; [exact H2|].
      eapply extends_trans; [apply cleanupInterop_extends|].
      apply tryRenderbufferInterop_extends. }
  destruct (if negb ok2 then _ else _) as [ok3 f3].
  specialize (H3 _ eq_refl). cbn [snd] in H3.
  destruct ok3; cbn [negb]; [exact H3|].
  cbv zeta.
  eapply extends_trans; [exact H3|].
  eapply extends_trans; [apply cleanupInterop_extends|].
  destruct (cleanupInterop f3) as []; destruct m_wglDXCloseDeviceNV0; appended.
Qed.

Lemma cleanup_existing_extends f : extends f (cleanup_existing f).
Proof.
  pattern (cleanup_existing f).
  lazymatch goal with
  | |- ?Q _ =>
      let body := eval cbv beta delta [cleanup_existing] in (cleanup_existing f) in
      change (Q body)
  end.
  open_let f1 K1. assert (E1 : extends f f1) by extends_by_exec K1 f. clear K1.
  open_let f2 K2. assert (E2 : extends f1 f2) by extends_by_exec K2 f1. clear K2.
  open_let f3 K3. assert (E3 : extends f2 f3) by extends_by_exec K3 f2. clear K3.
  open_let f4 K4. assert (E4 : extends f3 f4) by extends_by_exec K4 f3. clear K4.
  open_let f5 K5. assert (E5 : extends f4 f5) by extends_by_exec K5 f4. clear K5.
  cbv beta.
  repeat (eapply extends_trans; [eassumption|]).
  destruct f5; appended.
Qed.

Ltac chain := cbv beta; cbn [snd];
  repeat (eapply extends_trans; [eassumption|]); try apply extends_refl.

Ltac refocus_snd :=
  lazymatch goal with |- extends _ (snd ?r) => pattern r end.

Lemma CreateSharedTexture_extends env w h f :
  extends f (snd (CreateSharedTexture env w h f)).
Proof.
  pattern (CreateSharedTexture env w h f).
  lazymatch goal with
  | |- ?Q _ =>
      let body := eval cbv beta delta [CreateSharedTexture] in
                    (CreateSharedTexture env w h f) in
      change (Q body)
  end.
  open_let nc Knc.
  open_let f1 K1. assert (E1 : extends f f1) by extends_by_exec K1 f. clear K1.
  open_let mc Kmc.
  destruct (nc && negb mc); cbv iota; [chain|refocus_snd].
  open_let f2 K2.
  assert (E2 : extends f1 f2) by (subst f2; apply cleanup_existing_extends).
  clear K2.
  open_let f3 K3. assert (E3 : extends f2 f3) by extends_by_exec K3 f2. clear K3.
  open_let f4 K4. assert (E4 : extends f3 f4) by extends_by_exec K4 f3. clear K4.
  destruct (negb (create_shared env)); cbv iota; [chain|refocus_snd].
  destruct (negb (as_dxgi_resource env)); cbv iota; [chain|refocus_snd].
  open_let f5 K5. assert (E5 : extends f4 f5) by extends_by_exec K5 f4. clear K5.
  destruct (negb (get_shared_handle env)); cbv iota; [chain|refocus_snd].
  open_let f6 K6. assert (E6 : extends f5 f6) by extends_by_exec K6 f5. clear K6.
  destruct (m_useKeyedMutex f6 && negb (as_keyed_mutex env)); cbv iota;
    [chain|refocus_snd].
  open_let f7 K7.
  assert (E7 : extends f6 f7) by (subst f7; apply setup_interop_extends).
  clear K7.
  open_let f8 K8. assert (E8 : extends f7 f8) by extends_by_exec K8 f7. clear K8.
  open_let f9 K9. assert (E9 : extends f8 f9) by extends_by_exec K9 f8. clear K9.
  destruct (negb (create_staging env)); cbv iota; [chain|].
  chain. destruct f9; appended.
Qed.

(** What [SetSurfaceSize] does for every driver answer: nothing when the
    size is the current one; otherwise it asks for the draw context and,
    unless that is refused, reallocates the texture and the renderbuffer
    storage at the new size before anything else. *)
Lemma wgl_SetSurfaceSize_within_call env w h f :
  let g := SetSurfaceSize env w h f in
  if (m_width f =? w) && (m_height f =? h) then g = f
  else if resize_make_current env then
    exists rest,
      native_log g =
        native_log f ++
        [wglMakeCurrent draw_glrc;
         glBindTexture (m_renderTexture f); glTexImage2D w h; glBindTexture 0;
         glBindRenderbuffer (m_depthBuffer f); glRenderbufferStorage w h]
        ++ rest
  else g = native [wglMakeCurrent draw_glrc] f.
Proof.
  cbv zeta. unfold SetSurfaceSize.
  destruct ((m_width f =? w) && (m_height f =? h)); [reflexivity|].
  cbv zeta. destruct (resize_make_current env); cbn [negb]; [|reflexivity].
  match goal with
  | |- context [CreateSharedTexture ?e ?a ?b ?x] =>
      destruct (CreateSharedTexture_extends e a b x) as [l Hl];
      rewrite Hl; clear Hl
  end.
  destruct f, (negb (resize_status env =? GL_FRAMEBUFFER_COMPLETE)),
    (resize_prev_context env); cbn; unfold constant; cbn;
    rewrite <- !app_assoc; cbn; eexists; reflexivity.
Qed.

End WglResize.

(* ================================================================== *)
(** ** [SetSurfaceSize] on the two backends *)
(* ================================================================== *)

Section SurfaceSizeRequests.
Import Egl.

(** C1 (amended). On the EGL backend, in every state [f] a factory can
    reach: [SetSurfaceSize(w, h)] issues no GPU call and changes nothing but
    the pending-resize record, so the published rendered size is what it
    was; and an entry point [c] other than [Present] of the draw context
    leaves the published rendered size alone and asks the GPU for no
    storage, except that a [GetDrawContext] call may allocate the storage,
    at most once in the call and at the size already published.
    On the WGL backend [SetSurfaceSize] acts within the call, for every
    state [wf] and every answer of the driver: with the current size it
    does nothing; with another size it asks for the draw context and,
    unless that is refused, reallocates the texture and the renderbuffer
    storage at the new size before it returns; when it is refused nothing
    else happens. *)
Theorem SetSurfaceSize_on_both_backends
    (env : EglEnv) (w0 h0 : Z) (calls : list Call) (w h : Z) (c : Call)
    (renv : Wgl.ResizeEnv) (wf : Wgl.Factory) :
  is_Present c = false ->
  let f := run (AgusEglContextFactory env w0 h0) calls in
  (SetSurfaceSize w h f =
     f<|m_pendingWidth := m_pendingWidth (SetSurfaceSize w h f)|>
      <|m_pendingHeight := m_pendingHeight (SetSurfaceSize w h f)|>
      <|m_pendingResize := m_pendingResize (SetSurfaceSize w h f)|> /\
   gpu_log (SetSurfaceSize w h f) = gpu_log f /\
   GetRenderedWidth (SetSurfaceSize w h f) = GetRenderedWidth f /\
   GetRenderedHeight (SetSurfaceSize w h f) = GetRenderedHeight f) /\
  (GetRenderedWidth (step f c) = GetRenderedWidth f /\
   GetRenderedHeight (step f c) = GetRenderedHeight f /\
   (is_GetDrawContext c = false ->
    storage_sizes (gpu_log (step f c)) = storage_sizes (gpu_log f)) /\
   (forall fenv, c = call_GetDrawContext fenv ->
    exists l, storage_sizes (gpu_log (step f c)) = storage_sizes (gpu_log f) ++ l /\
      (l = [] \/
       l = [glTexImage2D (GetRenderedWidth f) (GetRenderedHeight f);
            glRenderbufferStorage (GetRenderedWidth f) (GetRenderedHeight f)]))) /\
  (let g := Wgl.SetSurfaceSize renv w h wf in
   if (Wgl.m_width wf =? w) && (Wgl.m_height wf =? h) then g = wf
   else if Wgl.resize_make_current renv then
     exists rest,
       Wgl.native_log g =
         Wgl.native_log wf ++
         [Wgl.wglMakeCurrent Wgl.draw_glrc;
          Wgl.glBindTexture (Wgl.m_renderTexture wf);
          Wgl.glTexImage2D w h; Wgl.glBindTexture 0;
          Wgl.glBindRenderbuffer (Wgl.m_depthBuffer wf);
          Wgl.glRenderbufferStorage w h]
         ++ rest
   else g = Wgl.native [Wgl.wglMakeCurrent Wgl.draw_glrc] wf).
Proof.
  intros Hc f.
  destruct (egl_SetSurfaceSize_is_deferred env w0 h0 calls w h c Hc)
    as [H1 H2].
  split; [exact H1|]. split; [exact H2|].
  apply wgl_SetSurfaceSize_within_call.
Qed.

(** A request for 4 x 3 on the 2 x 2 EGL factory and on the 800 x 600 WGL
    factory. *)
Lemma SetSurfaceSize_on_both_backends_witness :
  let f := run (AgusEglContextFactory Scenario.egl 2 2)
             [call_GetDrawContext (Scenario.framebuffer GL_FRAMEBUFFER_COMPLETE)] in
  let c := call_CopyToPixelBuffer None 0 in
  let renv := Scenario.resize Wgl.GL_FRAMEBUFFER_COMPLETE false in
  let wf := Scenario.wgl_fallback in
  (SetSurfaceSize 4 3 f =
     f<|m_pendingWidth := m_pendingWidth (SetSurfaceSize 4 3 f)|>
      <|m_pendingHeight := m_pendingHeight (SetSurfaceSize 4 3 f)|>
      <|m_pendingResize := m_pendingResize (SetSurfaceSize 4 3 f)|> /\
   gpu_log (SetSurfaceSize 4 3 f) = gpu_log f /\
   GetRenderedWidth (SetSurfaceSize 4 3 f) = GetRenderedWidth f /\
   GetRenderedHeight (SetSurfaceSize 4 3 f) = GetRenderedHeight f) /\
  (GetRenderedWidth (step f c) = GetRenderedWidth f /\
   GetRenderedHeight (step f c) = GetRenderedHeight f /\
   (is_GetDrawContext c = false ->
    storage_sizes (gpu_log (step f c)) = storage_sizes (gpu_log f)) /\
   (forall fenv, c = call_GetDrawContext fenv ->
    exists l, storage_sizes (gpu_log (step f c)) = storage_sizes (gpu_log f) ++ l /\
      (l = [] \/
       l = [glTexImage2D (GetRenderedWidth f) (GetRenderedHeight f);
            glRenderbufferStorage (GetRenderedWidth f) (GetRenderedHeight f)]))) /\
  (let g := Wgl.SetSurfaceSize renv 4 3 wf in
   if (Wgl.m_width wf =? 4) && (Wgl.m_height wf =? 3) then g = wf
   else if Wgl.resize_make_current renv then
     exists rest,
       Wgl.native_log g =
         Wgl.native_log wf ++
         [Wgl.wglMakeCurrent Wgl.draw_glrc;
          Wgl.glBindTexture (Wgl.m_renderTexture wf);
          Wgl.glTexImage2D 4 3; Wgl.glBindTexture 0;
          Wgl.glBindRenderbuffer (Wgl.m_depthBuffer wf);
          Wgl.glRenderbufferStorage 4 3]
         ++ rest
   else g = Wgl.native [Wgl.wglMakeCurrent Wgl.draw_glrc] wf).
Proof.
  apply (SetSurfaceSize_on_both_backends Scenario.egl 2 2
           [call_GetDrawContext (Scenario.framebuffer GL_FRAMEBUFFER_COMPLETE)]
           4 3 (call_CopyToPixelBuffer None 0)
           (Scenario.resize Wgl.GL_FRAMEBUFFER_COMPLETE false)
           Scenario.wgl_fallback).
  reflexivity.
Defined.

End SurfaceSizeRequests.

(* ================================================================== *)
(** ** The JNI glue: rate limit, registration and the position mode *)
(* ================================================================== *)

Section AndroidGlueTheorems.

Import Android AndroidGlue.

Lemma notify_all_cons s call calls :
  notify_all s (call :: calls) = notify_all (notifyFlutterFrameReady s call) calls.
Proof. reflexivity. Qed.

(** Every accepted call moves the time of the last notification forward
    by at least one interval, and never past the time of the call. *)
Lemma notify_all_progress t1 calls : forall s,
  g_frameNotificationPending s = false ->
  before t1 calls ->
  let s' := notify_all s calls in
  g_frameNotificationPending s' = false /\
  (delivered s <= delivered s')%nat /\
  g_lastFrameNotification s' <= Z.max (g_lastFrameNotification s) t1 /\
  Z.of_nat (delivered s' - delivered s) * kMinFrameInterval
    <= g_lastFrameNotification s' - g_lastFrameNotification s.
Proof.
  induction calls as [|[now jni] calls IH]; intros s Hp Hb; cbv zeta.
  - cbn. rewrite Nat.sub_diag. repeat split; try assumption; lia.
  - apply Forall_cons in Hb as [Hnow Hb]. cbn [fst] in Hnow.
    rewrite notify_all_cons.
    destruct (Z.lt_ge_cases (now - g_lastFrameNotification s) kMinFrameInterval)
      as [Hsoon|Hok].
    + rewrite notify_too_soon by exact Hsoon. now apply IH.
    + destruct (notify_accepted s now jni Hok Hp) as (Hl & Hp' & Hd).
      destruct (IH _ Hp' Hb) as (I1 & I2 & I3 & I4).
      rewrite Hl in I3, I4. rewrite Hd in I2, I4.
      assert (K : 0 < kMinFrameInterval) by reflexivity.
      repeat split; [exact I1|destruct (can_deliver s jni); lia|lia|].
      destruct (can_deliver s jni).
      * replace (delivered (notify_all (notifyFlutterFrameReady s (now, jni)) calls)
                 - delivered s)%nat
          with (S (delivered (notify_all (notifyFlutterFrameReady s (now, jni)) calls)
                   - (delivered s + 1)))%nat by lia.
        rewrite Nat2Z.inj_succ. lia.
      * rewrite Nat.add_0_r in I4. lia.
Qed.

(** X19. The rate limit of the JNI notifier holds over any sequence of
    calls, in whatever order their clock readings come: when no
    notification is pending at the start and no call is later than [t1],
    the number of [onFrameReady] calls made, times the 16 ms interval, is
    at most the time from the last accepted notification to [t1] (and no
    call is made at all when [t1] is not later than it). *)
Theorem notification_rate_is_bounded
    (t1 : Z) (s : Notifier) (calls : list (Z * JniEnv)) :
  g_frameNotificationPending s = false ->
  before t1 calls ->
  let s' := notify_all s calls in
  (delivered s <= delivered s')%nat /\
  Z.of_nat (delivered s' - delivered s) * kMinFrameInterval
    <= Z.max 0 (t1 - g_lastFrameNotification s).
Proof.
  intros Hp Hb.
  destruct (notify_all_progress t1 calls s Hp Hb) as (_ & I2 & I3 & I4).
  cbv zeta. split; [exact I2|lia].
Qed.

Lemma notification_rate_is_bounded_witness :
  let calls := [(16000000, Scenario.attached); (20000000, Scenario.attached);
                (32000000, Scenario.attached); (10000000, Scenario.attached);
                (49000000, Scenario.attached)] in
  let s' := notify_all Scenario.android calls in
  delivered s' = 3%nat /\
  (delivered Scenario.android <= delivered s')%nat /\
  Z.of_nat (delivered s' - delivered Scenario.android) * kMinFrameInterval
    <= Z.max 0 (50000000 - g_lastFrameNotification Scenario.android).
Proof.
  cbv zeta. split; [reflexivity|].
  apply (notification_rate_is_bounded 50000000 Scenario.android); [reflexivity|].
  unfold before. repeat constructor; cbn; lia.
Defined.

Lemma notify_unregistered s call :
  g_notifyFrameReadyMethod s = false ->
  let s' := notifyFlutterFrameReady s call in
  g_notifyFrameReadyMethod s' = false /\ delivered s' = delivered s.
Proof.
  intros Hm. cbv zeta. unfold notifyFlutterFrameReady. destruct call as [now jni].
  destruct s; cbn in *; subst.
  rewrite ?andb_false_r. case_ifs; split; reflexivity.
Qed.

Lemma notify_all_unregistered calls : forall s,
  g_notifyFrameReadyMethod s = false ->
  delivered (notify_all s calls) = delivered s.
Proof.
  induction calls as [|call calls IH]; intros s Hm; [reflexivity|].
  rewrite notify_all_cons.
  destruct (notify_unregistered s call Hm) as [Hm' Hd].
  rewrite IH by exact Hm'. exact Hd.
Qed.

(** X20. After [nativeCleanupFrameCallback], no frame notification reaches
    the Java side any more, whatever calls of the notifier follow and
    whatever the Java VM answers; the same holds after a
    [nativeInitFrameCallback] in which the lookup of [onFrameReady]
    failed. *)
Theorem no_callback_without_registration
    (s : Notifier) (env : InitEnv) (calls : list (Z * JniEnv)) :
  delivered (notify_all (nativeCleanupFrameCallback s) calls) = delivered s /\
  (method_onFrameReady env = false ->
   delivered (notify_all (nativeInitFrameCallback env s) calls) = delivered s).
Proof.
  split.
  - rewrite notify_all_unregistered.
    + unfold nativeCleanupFrameCallback. destruct s as [? ? ? [] ? ?]; reflexivity.
    + unfold nativeCleanupFrameCallback. destruct s as [? ? ? [] ? ?]; reflexivity.
  - intros Hm. rewrite notify_all_unregistered.
    + destruct s; reflexivity.
    + destruct s; exact Hm.
Qed.

Lemma no_callback_without_registration_witness :
  let env := {| new_global_ref := true; method_onFrameReady := false |} in
  let calls := [(16000000, Scenario.attached); (32000000, Scenario.attached)] in
  delivered (notify_all Scenario.android calls) = 2%nat /\
  delivered (notify_all (nativeCleanupFrameCallback Scenario.android) calls)
    = delivered Scenario.android /\
  delivered (notify_all (nativeInitFrameCallback env Scenario.android) calls)
    = delivered Scenario.android.
Proof.
  cbv zeta. split; [reflexivity|].
  destruct (no_callback_without_registration Scenario.android
              {| new_global_ref := true; method_onFrameReady := false |}
              [(16000000, Scenario.attached); (32000000, Scenario.attached)])
    as [H1 H2].
  split; [exact H1|apply H2; reflexivity].
Defined.

Lemma switch_until_spec modes mode left : forall attempts,
  let r := switch_until modes mode left attempts in
  (attempts <= snd r <= attempts + left)%nat /\
  fst r = modes (snd r) /\
  (forall k, (attempts <= k < snd r)%nat -> modes k <> mode) /\
  ((snd r < attempts + left)%nat -> modes (snd r) = mode).
Proof.
  induction left as [|left IH]; intros attempts; cbv zeta; cbn [switch_until].
  - cbn [fst snd]. repeat split; try lia; intros k Hk; lia.
  - destruct (modes attempts =? mode) eqn:E.
    + cbn [fst snd]. apply Z.eqb_eq in E.
      repeat split; try lia; intros k Hk; lia.
    + apply Z.eqb_neq in E. destruct (IH (S attempts)) as (I1 & I2 & I3 & I4).
      split; [lia|]. split; [exact I2|]. split.
      * intros k Hk. destruct (Nat.eq_dec k attempts) as [->|Hne]; [exact E|].
        apply I3. lia.
      * intros Hlt. apply I4. lia.
Qed.

(** X21. [nativeSetMyPositionMode] does nothing before the engine is
    ready. Otherwise it switches the mode [n] times, where [n] is the first
    number of switches, up to 5, after which the framework reports the
    requested mode: [n <= 5], no earlier reading equals the requested mode,
    the reading after [n] switches is the last one made, and it equals the
    requested mode unless all 5 switches were used. So a mode the framework
    does not report within 5 switches is silently not reached. *)
Theorem position_mode_cycles_at_most_five_times
    (ready : bool) (modes : nat -> Z) (mode : Z) :
  match nativeSetMyPositionMode ready modes mode with
  | None => ready = false
  | Some (final, n) =>
      ready = true /\
      (n <= 5)%nat /\
      final = modes n /\
      (forall k, (k < n)%nat -> modes k <> mode) /\
      ((n < 5)%nat -> final = mode)
  end.
Proof.
  unfold nativeSetMyPositionMode. destruct ready; cbn [negb]; [|reflexivity].
  pose proof (switch_until_spec modes mode maxAttempts 0%nat) as H.
  cbv zeta in H. destruct (switch_until modes mode maxAttempts 0) as [final n].
  cbn [fst snd] in H. destruct H as (H1 & H2 & H3 & H4).
  change maxAttempts with 5%nat in *.
  split; [reflexivity|]. split; [lia|]. split; [exact H2|]. split.
  - intros k Hk. apply H3. lia.
  - intros Hn. rewrite H2. apply H4. lia.
Qed.

End AndroidGlueTheorems.

(* ================================================================== *)
(** ** The Linux glue: the keep-alive counter *)
(* ================================================================== *)

Section LinuxGlueTheorems.

Import Linux.

Lemma after_callbacks_succ n s :
  after_callbacks (S n) s = after_callbacks n (notifyFlutterFrameReady s).
Proof. unfold after_callbacks. now rewrite Nat.iter_succ_r. Qed.

Lemma notifyFlutterFrameReady_spec s :
  let s' := notifyFlutterFrameReady s in
  let used := if 0 <? g_keepAliveCounter s then 1 else 0 in
  g_keepAliveCounter s' = g_keepAliveCounter s - used /\
  g_framework s' = g_framework s /\
  g_frameReadyCallback s' = g_frameReadyCallback s /\
  Z.of_nat (make_frame_active s') =
    Z.of_nat (make_frame_active s) + (if g_framework s then used else 0) /\
  delivered s' = (delivered s + if g_frameReadyCallback s then 1 else 0)%nat.
Proof.
  cbv zeta. unfold notifyFlutterFrameReady. destruct s; cbn.
  case_ifs; record_simpl; repeat split; lia.
Qed.

(** X22. The keep-alive counter of the Linux notifier is a budget that is
    spent once. Over [n] frame callbacks with the counter at [k], the
    plugin's callback is invoked [n] times if installed, and
    [MakeFrameActive] is called on the first [min n k] of them only (on
    none when [k <= 0]), if there is a framework; the counter goes down by
    that number, never below zero, and nothing in the notifier fills it up
    again. *)
Theorem linux_keep_alive_is_spent_once (n : nat) (s : Notifier) :
  let s' := after_callbacks n s in
  let used := Z.min (Z.of_nat n) (Z.max 0 (g_keepAliveCounter s)) in
  g_keepAliveCounter s' = g_keepAliveCounter s - used /\
  Z.of_nat (make_frame_active s') =
    Z.of_nat (make_frame_active s) + (if g_framework s then used else 0) /\
  delivered s' = (delivered s + if g_frameReadyCallback s then n else 0)%nat.
Proof.
  revert s. induction n as [|n IH]; intros s; cbv zeta.
  - cbn. destruct (g_framework s), (g_frameReadyCallback s); repeat split; lia.
  - rewrite after_callbacks_succ.
    destruct (notifyFlutterFrameReady_spec s) as (S1 & S2 & S3 & S4 & S5).
    destruct (IH (notifyFlutterFrameReady s)) as (I1 & I2 & I3).
    rewrite I1, I2, I3, S1, S2, S3, S4, S5. rewrite Nat2Z.inj_succ.
    destruct (0 <? g_keepAliveCounter s) eqn:E;
      [apply Z.ltb_lt in E|apply Z.ltb_ge in E];
      destruct (g_framework s), (g_frameReadyCallback s); repeat split; lia.
Qed.

End LinuxGlueTheorems.
